(** * Layered cache of [cache_manager.py]: a shallow embedding

    The development follows the four classes of [src/cache_manager.py]:
    [LRUCache] (bounded in-memory tier), [FileCache] (disk tier with age
    based expiry), [QueryCache] (read-through orchestrator over one memory
    and one disk tier) and [CacheManager] (the registry).

    Modelling choices.
    - Python values are the small universe [pyval]; [VNone] is Python's
      [None].
    - A Python [str] is a [string], text already encoded: [key.encode()]
      cannot fail.
    - An [OrderedDict] is an association list, oldest entry first; that
      its keys are distinct is an invariant the methods keep, and a
      hypothesis where a statement is about any dictionary.
    - Methods are computations in a state-and-exception monad [M S A]:
      a raised exception keeps the state reached so far, as in Python.
    - The operating system is the record [World]: the files, a fault
      oracle telling which system calls raise [OSError], the clock read
      by [time.time()] and the lines written by [logger].
    - Times ([time.time()], [getmtime]) are Python's floats: binary64
      numbers ([float] of [PrimFloat]), subtracted as the machine does;
      locks are not modelled (one thread).
    - [hashlib.md5], [pickle] and [str] of a tuple are library code: they
      are the fields of the class [PyLib]. *)

From Stdlib Require Import ZArith Floats Lia Bool.
From stdpp Require Import base gmap strings list fin_maps.

(** ** Python values and exceptions *)

Inductive pyval : Type :=
  | VNone
  | VBool (b : bool)
  | VInt (z : Z)
  | VStr (s : string).

Definition is_none (v : pyval) : bool :=
  match v with VNone => true | _ => false end.

(** The exceptions met in the code, all subclasses of [Exception];
    [HTTPException] is werkzeug's, with its status code. *)
Inductive exn : Type :=
  | KeyError
  | OSError
  | PicklingError
  | UnpicklingError
  | AttributeError
  | HTTPException (code : nat).

Inductive result (A : Type) : Type :=
  | Ok (a : A)
  | Raise (e : exn).
Arguments Ok {A} a.
Arguments Raise {A} e.

(** ** State and exception monad *)

Definition M (S A : Type) : Type := S -> result A * S.

Definition ret {S A} (a : A) : M S A := fun s => (Ok a, s).

Definition bind {S A B} (m : M S A) (k : A -> M S B) : M S B :=
  fun s => match m s with
           | (Ok a, s') => k a s'
           | (Raise e, s') => (Raise e, s')
           end.

Definition raise {S A} (e : exn) : M S A := fun s => (Raise e, s).

Definition gets {S A} (f : S -> A) : M S A := fun s => (Ok (f s), s).

Definition modify {S} (f : S -> S) : M S unit := fun s => (Ok tt, f s).

(** [try: body except Exception as e: handler e] *)
Definition try_except {S A} (body : M S A) (handler : exn -> M S A) : M S A :=
  fun s => match body s with
           | (Ok a, s') => (Ok a, s')
           | (Raise e, s') => handler e s'
           end.

(** [for x in l: body x] *)
Fixpoint for_each {S A} (l : list A) (body : A -> M S unit) : M S unit :=
  match l with
  | [] => ret tt
  | x :: l' => bind (body x) (fun _ => for_each l' body)
  end.

(** Run a computation on a component of the state. *)
Record Lens (S T : Type) : Type := MkLens {
  view : S -> T;
  update : T -> S -> S
}.
Arguments MkLens {S T} view update.
Arguments view {S T} _ _.
Arguments update {S T} _ _ _.

Definition zoom {S T A} (l : Lens S T) (m : M T A) : M S A :=
  fun s => let '(r, t) := m (view l s) in (r, update l t s).

Definition fst_lens {A B} : Lens (A * B) A :=
  MkLens fst (fun a s => (a, snd s)).
Definition snd_lens {A B} : Lens (A * B) B :=
  MkLens snd (fun b s => (fst s, b)).

(** A lens on the object, extended to the object paired with the world. *)
Definition with_world {S T W} (l : Lens S T) : Lens (S * W) (T * W) :=
  MkLens (fun s => (view l (fst s), snd s))
         (fun t s => (update l (fst t) (fst s), snd t)).

(** Methods run on [(self, world)]; a block with a local variable runs on
    [(local, state)] and gives the state back when it ends. *)
Definition on_self {S W A} (m : M S A) : M (S * W) A := zoom fst_lens m.
Definition on_world {S W A} (m : M W A) : M (S * W) A := zoom snd_lens m.
Definition on_local {L S A} (m : M L A) : M (L * S) A := zoom fst_lens m.
Definition on_outer {L S A} (m : M S A) : M (L * S) A := zoom snd_lens m.

Definition with_local {L S A} (init : L) (m : M (L * S) A) : M S A :=
  fun s => let '(r, ls) := m (init, s) in (r, snd ls).

Declare Scope py_scope.
Delimit Scope py_scope with py.
Notation "x <- c ;; k" := (bind c (fun x => k))
  (at level 100, c at next level, right associativity) : py_scope.
Notation "c ;; k" := (bind c (fun _ => k))
  (at level 100, right associativity) : py_scope.
Local Open Scope py_scope.

(** ** [collections.OrderedDict] as an association list, oldest first *)

Definition odict : Type := list (string * pyval).

Fixpoint od_lookup (key : string) (d : odict) : option pyval :=
  match d with
  | [] => None
  | (k, v) :: d' => if String.eqb key k then Some v else od_lookup key d'
  end.

(** [key in d] *)
Definition od_contains (key : string) (d : odict) : bool :=
  match od_lookup key d with Some _ => true | None => false end.

(** [d] without its entry for [key] *)
Fixpoint od_remove (key : string) (d : odict) : odict :=
  match d with
  | [] => []
  | (k, v) :: d' => if String.eqb key k then d' else (k, v) :: od_remove key d'
  end.

(** [d[key] = value]: in place when the key is there, at the end otherwise *)
Fixpoint od_setitem (key : string) (value : pyval) (d : odict) : odict :=
  match d with
  | [] => [(key, value)]
  | (k, v) :: d' =>
      if String.eqb key k then (k, value) :: d'
      else (k, v) :: od_setitem key value d'
  end.

Definition od_keys (d : odict) : list string := map fst d.

(** ** class LRUCache *)

Record LRUStats : Type := MkLRUStats {
  hits : nat;
  misses : nat;
  evictions : nat
}.

Record LRUCache : Type := MkLRUCache {
  max_size : Z;
  cache : odict;
  stats : LRUStats
}.

Definition set_cache (f : odict -> odict) (self : LRUCache) : LRUCache :=
  MkLRUCache (max_size self) (f (cache self)) (stats self).

Definition set_stats (f : LRUStats -> LRUStats) (self : LRUCache) : LRUCache :=
  MkLRUCache (max_size self) (cache self) (f (stats self)).

Definition incr_hits (s : LRUStats) : LRUStats :=
  MkLRUStats (S (hits s)) (misses s) (evictions s).
Definition incr_misses (s : LRUStats) : LRUStats :=
  MkLRUStats (hits s) (S (misses s)) (evictions s).
Definition incr_evictions (s : LRUStats) : LRUStats :=
  MkLRUStats (hits s) (misses s) (S (evictions s)).

(** [self.cache.pop(key)] *)
Definition cache_pop (key : string) : M LRUCache pyval :=
  d <- gets cache ;;
  match od_lookup key d with
  | Some v => modify (set_cache (od_remove key)) ;; ret v
  | None => raise KeyError
  end.

(** [self.cache.popitem(last=False)] *)
Definition cache_popitem_first : M LRUCache (string * pyval) :=
  d <- gets cache ;;
  match d with
  | kv :: d' => modify (set_cache (fun _ => d')) ;; ret kv
  | [] => raise KeyError
  end.

(** [self.cache[key] = value] *)
Definition cache_setitem (key : string) (value : pyval) : M LRUCache unit :=
  modify (set_cache (od_setitem key value)).

(** [LRUCache.__init__]: no check of [max_size] is made. *)
Definition LRUCache_init (max_size : Z) : result LRUCache :=
  Ok (MkLRUCache max_size [] (MkLRUStats 0 0 0)).

Definition LRUCache_get (key : string) : M LRUCache pyval :=
  d <- gets cache ;;
  if od_contains key d then
    value <- cache_pop key ;;
    cache_setitem key value ;;
    modify (set_stats incr_hits) ;;
    ret value
  else
    modify (set_stats incr_misses) ;;
    ret VNone.

Definition LRUCache_set (key : string) (value : pyval) : M LRUCache unit :=
  d <- gets cache ;;
  n <- gets max_size ;;
  (if od_contains key d then
     _ <- cache_pop key ;; ret tt
   else if (Z.of_nat (length d) >=? n)%Z then
     _ <- cache_popitem_first ;;
     modify (set_stats incr_evictions)
   else ret tt) ;;
  cache_setitem key value.

Definition LRUCache_delete (key : string) : M LRUCache bool :=
  d <- gets cache ;;
  if od_contains key d then
    modify (set_cache (od_remove key)) ;;
    ret true
  else ret false.

Definition LRUCache_clear : M LRUCache unit :=
  modify (set_cache (fun _ => [])).

Definition LRUCache_size : M LRUCache nat :=
  d <- gets cache ;; ret (length d).

(** The integer fields of [get_stats]; the rounded [hit_rate] is a float
    and is left out. *)
Record LRUReport : Type := MkLRUReport {
  r_stats : LRUStats;
  r_total_requests : nat;
  r_current_size : nat;
  r_max_size : Z
}.

Definition LRUCache_get_stats : M LRUCache LRUReport :=
  st <- gets stats ;;
  d <- gets cache ;;
  n <- gets max_size ;;
  let total_requests := (hits st + misses st)%nat in
  ret (MkLRUReport st total_requests (length d) n).

(** ** The operating system *)

(** A file path: the directory and the file name ([os.path.join]). *)
Abbreviation path := (string * string)%type.

Definition os_path_join (d name : string) : path := (d, name).

Record File : Type := MkFile {
  f_data : list Byte.byte;
  f_mtime : float
}.

Inductive syscall : Type :=
  | SysMakedirs (d : string)
  | SysListdir (d : string)
  | SysGetmtime (p : path)
  | SysGetsize (p : path)
  | SysOpenRead (p : path)
  | SysOpenWrite (p : path)
  | SysWrite (p : path)
  | SysRemove (p : path).

(** The lines of the log, one constructor per message of the source. *)
Inductive LogEntry : Type :=
  | LogGetFailed (key : string) (e : exn)
  | LogSetFailed (key : string) (e : exn)
  | LogDeleteFailed (key : string) (e : exn)
  | LogClearFailed (e : exn)
  | LogCleanupFailed (e : exn)
  | LogInvalidated (table_name : string) (invalidated_count : nat)
  | LogManagerReady.

Record World : Type := MkWorld {
  w_files : gmap path File;
  w_fault : syscall -> bool;
  w_clock : float;
  w_log : list LogEntry
}.

Definition set_files (f : gmap path File -> gmap path File) (w : World) : World :=
  MkWorld (f (w_files w)) (w_fault w) (w_clock w) (w_log w).

Definition set_log (f : list LogEntry -> list LogEntry) (w : World) : World :=
  MkWorld (w_files w) (w_fault w) (w_clock w) (f (w_log w)).

(** A system call that the oracle lets fail raises [OSError]. *)
Definition syscall_check (c : syscall) : M World unit :=
  faulty <- gets (fun w => w_fault w c) ;;
  if faulty then raise OSError else ret tt.

Definition time_time : M World float := gets w_clock.

Definition os_makedirs (d : string) : M World unit :=
  syscall_check (SysMakedirs d).

(** [os.path.exists] never raises. *)
Definition os_path_exists (p : path) : M World bool :=
  fs <- gets w_files ;;
  ret (match fs !! p with Some _ => true | None => false end).

Definition os_path_getmtime (p : path) : M World float :=
  syscall_check (SysGetmtime p) ;;
  fs <- gets w_files ;;
  match fs !! p with
  | Some f => ret (f_mtime f)
  | None => raise OSError
  end.

Definition os_path_getsize (p : path) : M World nat :=
  syscall_check (SysGetsize p) ;;
  fs <- gets w_files ;;
  match fs !! p with
  | Some f => ret (length (f_data f))
  | None => raise OSError
  end.

(** The names in directory [d], in the order of the map's listing. *)
Definition dir_names (d : string) (fs : gmap path File) : list string :=
  snd <$> filter (fun p : path => fst p = d) (fst <$> map_to_list fs).

Definition os_listdir (d : string) : M World (list string) :=
  syscall_check (SysListdir d) ;;
  fs <- gets w_files ;;
  ret (dir_names d fs).

Definition os_remove (p : path) : M World unit :=
  syscall_check (SysRemove p) ;;
  fs <- gets w_files ;;
  match fs !! p with
  | Some _ => modify (set_files (delete p))
  | None => raise OSError
  end.

(** [open(p, 'rb')] followed by reading the whole file. *)
Definition open_rb (p : path) : M World (list Byte.byte) :=
  syscall_check (SysOpenRead p) ;;
  fs <- gets w_files ;;
  match fs !! p with
  | Some f => ret (f_data f)
  | None => raise OSError
  end.

(** [open(p, 'wb')]: the file is created or truncated. *)
Definition open_wb (p : path) : M World unit :=
  syscall_check (SysOpenWrite p) ;;
  now <- time_time ;;
  modify (set_files (insert p (MkFile [] now))).

(** Writing [data] to the file opened by [open(p, 'wb')] and closing it:
    the bytes reach the file, or the write raises [OSError] (a full disk,
    say); the file then stays as [open] left it, empty. *)
Definition write_bytes (p : path) (data : list Byte.byte) : M World unit :=
  syscall_check (SysWrite p) ;;
  now <- time_time ;;
  modify (set_files (insert p (MkFile data now))).

Definition logger_log (line : LogEntry) : M World unit :=
  modify (set_log (fun l => l ++ [line])).

(** [filename.endswith(suffix)] *)
Definition endswith (s suffix : string) : bool :=
  let n := String.length s in
  let k := String.length suffix in
  (k <=? n)%nat && String.eqb (String.substring (n - k) k s) suffix.

(** [x > n] for a float [x] and an int [n]. Python compares the two
    exactly, without rounding [n] to a float: a finite [x] is
    [(-1)^s * m * 2^e], a NaN is greater than nothing. *)
Definition float_gt_int (x : float) (n : Z) : bool :=
  match Prim2SF x with
  | S754_nan => false
  | S754_infinity s => negb s
  | S754_zero _ => (n <? 0)%Z
  | S754_finite s m e =>
      let v := if s then Z.neg m else Z.pos m in
      if (0 <=? e)%Z then (n <? v * 2 ^ e)%Z
      else (n * 2 ^ (- e) <? v)%Z
  end.
Arguments float_gt_int : simpl never.

(** ** Library code the module calls *)

Class PyLib : Type := {
  (** [hashlib.md5(s.encode()).hexdigest()] *)
  md5_hexdigest : string -> string;
  (** [pickle.dumps]; [None] when the value cannot be pickled *)
  pickle_dumps : pyval -> option (list Byte.byte);
  (** [pickle.loads]; [None] when the bytes are not a pickle *)
  pickle_loads : list Byte.byte -> option pyval;
  (** [str(params)] of a tuple *)
  str_tuple : list pyval -> string
}.

(** ** class FileCache *)

Record FileStats : Type := MkFileStats {
  f_hits : nat;
  f_misses : nat;
  writes : nat;
  deletes : nat
}.

Record FileCache : Type := MkFileCache {
  cache_dir : string;
  max_age_seconds : Z;
  f_stats : FileStats
}.

Definition set_f_stats (f : FileStats -> FileStats) (self : FileCache) : FileCache :=
  MkFileCache (cache_dir self) (max_age_seconds self) (f (f_stats self)).

Definition incr_f_hits (s : FileStats) : FileStats :=
  MkFileStats (S (f_hits s)) (f_misses s) (writes s) (deletes s).
Definition incr_f_misses (s : FileStats) : FileStats :=
  MkFileStats (f_hits s) (S (f_misses s)) (writes s) (deletes s).
Definition incr_writes (s : FileStats) : FileStats :=
  MkFileStats (f_hits s) (f_misses s) (S (writes s)) (deletes s).
Definition incr_deletes (s : FileStats) : FileStats :=
  MkFileStats (f_hits s) (f_misses s) (writes s) (S (deletes s)).

(** ** class QueryCache *)

Record QueryStats : Type := MkQueryStats {
  memory_hits : nat;
  file_hits : nat;
  q_misses : nat;
  stores : nat
}.

(** The two tiers are held by the orchestrator; the registry reaches the
    same objects through it (see [CacheManager]). *)
Record QueryCache : Type := MkQueryCache {
  memory_cache : LRUCache;
  file_cache : FileCache;
  q_stats : QueryStats
}.

Definition set_q_stats (f : QueryStats -> QueryStats) (self : QueryCache) : QueryCache :=
  MkQueryCache (memory_cache self) (file_cache self) (f (q_stats self)).

Definition incr_memory_hits (s : QueryStats) : QueryStats :=
  MkQueryStats (S (memory_hits s)) (file_hits s) (q_misses s) (stores s).
Definition incr_file_hits (s : QueryStats) : QueryStats :=
  MkQueryStats (memory_hits s) (S (file_hits s)) (q_misses s) (stores s).
Definition incr_q_misses (s : QueryStats) : QueryStats :=
  MkQueryStats (memory_hits s) (file_hits s) (S (q_misses s)) (stores s).
Definition incr_stores (s : QueryStats) : QueryStats :=
  MkQueryStats (memory_hits s) (file_hits s) (q_misses s) (S (stores s)).

Definition memory_cache_lens : Lens QueryCache LRUCache :=
  MkLens memory_cache
         (fun m q => MkQueryCache m (file_cache q) (q_stats q)).
Definition file_cache_lens : Lens QueryCache FileCache :=
  MkLens file_cache
         (fun f q => MkQueryCache (memory_cache q) f (q_stats q)).

(** ** class CacheManager *)

(** [self.memory_cache] and [self.file_cache] are the very objects given to
    [QueryCache]: they are stored once, inside [query_cache]. *)
Record CacheManager : Type := MkCacheManager {
  query_cache : QueryCache;
  image_cache : FileCache;
  config_cache : LRUCache
}.

Definition query_cache_lens : Lens CacheManager QueryCache :=
  MkLens query_cache
         (fun q c => MkCacheManager q (image_cache c) (config_cache c)).
Definition image_cache_lens : Lens CacheManager FileCache :=
  MkLens image_cache
         (fun f c => MkCacheManager (query_cache c) f (config_cache c)).
Definition config_cache_lens : Lens CacheManager LRUCache :=
  MkLens config_cache
         (fun m c => MkCacheManager (query_cache c) (image_cache c) m).

Definition compose_lens {A B C} (l1 : Lens A B) (l2 : Lens B C) : Lens A C :=
  MkLens (fun a => view l2 (view l1 a))
         (fun c a => update l1 (update l2 c (view l1 a)) a).

Definition cm_memory_cache_lens : Lens CacheManager LRUCache :=
  compose_lens query_cache_lens memory_cache_lens.
Definition cm_file_cache_lens : Lens CacheManager FileCache :=
  compose_lens query_cache_lens file_cache_lens.

Definition lift_result {S A} (r : result A) : M S A := fun s => (r, s).

Section Methods.
Context `{PyLib}.

(** *** FileCache *)

Definition FileCache_init (cache_dir : string) (max_age_seconds : Z)
  : M World FileCache :=
  os_makedirs cache_dir ;;
  ret (MkFileCache cache_dir max_age_seconds (MkFileStats 0 0 0 0)).

Definition _get_cache_path (self : FileCache) (key : string) : path :=
  let key_hash := md5_hexdigest key in
  os_path_join (cache_dir self) (key_hash +:+ ".cache").

Definition _is_expired (file_path : path) : M (FileCache * World) bool :=
  try_except
    (now <- on_world time_time ;;
     mtime <- on_world (os_path_getmtime file_path) ;;
     let file_age := (now - mtime)%float in
     max_age <- on_self (gets max_age_seconds) ;;
     ret (float_gt_int file_age max_age))
    (fun e => match e with OSError => ret true | _ => raise e end).

(** [pickle.load(f)] on the bytes read from [f] *)
Definition pickle_load {S} (data : list Byte.byte) : M S pyval :=
  match pickle_loads data with
  | Some v => ret v
  | None => raise UnpicklingError
  end.

(** [pickle.dump(value, f)]: the bytes to write, or the pickling error *)
Definition pickle_dump {S} (value : pyval) : M S (list Byte.byte) :=
  match pickle_dumps value with
  | Some data => ret data
  | None => raise PicklingError
  end.

Definition FileCache_get (key : string) : M (FileCache * World) pyval :=
  cache_path <- on_self (gets (fun self => _get_cache_path self key)) ;;
  try_except
    (found <- on_world (os_path_exists cache_path) ;;
     usable <- (if found : bool then
                  expired <- _is_expired cache_path ;; ret (negb expired)
                else ret false) ;;
     if usable : bool then
       raw <- on_world (open_rb cache_path) ;;
       data <- pickle_load raw ;;
       on_self (modify (set_f_stats incr_f_hits)) ;;
       ret data
     else
       still <- on_world (os_path_exists cache_path) ;;
       (if still : bool then on_world (os_remove cache_path) else ret tt) ;;
       on_self (modify (set_f_stats incr_f_misses)) ;;
       ret VNone)
    (fun e =>
       on_world (logger_log (LogGetFailed key e)) ;;
       on_self (modify (set_f_stats incr_f_misses)) ;;
       ret VNone).

Definition FileCache_set (key : string) (value : pyval)
  : M (FileCache * World) bool :=
  cache_path <- on_self (gets (fun self => _get_cache_path self key)) ;;
  try_except
    (on_world (open_wb cache_path) ;;
     data <- pickle_dump value ;;
     on_world (write_bytes cache_path data) ;;
     on_self (modify (set_f_stats incr_writes)) ;;
     ret true)
    (fun e =>
       on_world (logger_log (LogSetFailed key e)) ;;
       ret false).

Definition FileCache_delete (key : string) : M (FileCache * World) bool :=
  cache_path <- on_self (gets (fun self => _get_cache_path self key)) ;;
  try_except
    (found <- on_world (os_path_exists cache_path) ;;
     if found : bool then
       on_world (os_remove cache_path) ;;
       on_self (modify (set_f_stats incr_deletes)) ;;
       ret true
     else ret false)
    (fun e =>
       on_world (logger_log (LogDeleteFailed key e)) ;;
       ret false).

(** The local variable of the two sweeps is [deleted_count]. *)
Definition FileCache_clear : M (FileCache * World) nat :=
  with_local 0%nat
    (try_except
       (d <- on_outer (on_self (gets cache_dir)) ;;
        names <- on_outer (on_world (os_listdir d)) ;;
        for_each names (fun filename =>
          if endswith filename ".cache" then
            let file_path := os_path_join d filename in
            on_outer (on_world (os_remove file_path)) ;;
            on_local (modify S) ;;
            on_outer (on_self (modify (set_f_stats incr_deletes)))
          else ret tt))
       (fun e => on_outer (on_world (logger_log (LogClearFailed e)))) ;;
     on_local (gets id)).

Definition FileCache_cleanup_expired : M (FileCache * World) nat :=
  with_local 0%nat
    (try_except
       (d <- on_outer (on_self (gets cache_dir)) ;;
        names <- on_outer (on_world (os_listdir d)) ;;
        for_each names (fun filename =>
          if endswith filename ".cache" then
            let file_path := os_path_join d filename in
            expired <- on_outer (_is_expired file_path) ;;
            if expired : bool then
              on_outer (on_world (os_remove file_path)) ;;
              on_local (modify S) ;;
              on_outer (on_self (modify (set_f_stats incr_deletes)))
            else ret tt
          else ret tt))
       (fun e => on_outer (on_world (logger_log (LogCleanupFailed e)))) ;;
     on_local (gets id)).

(** The integer fields of [get_stats]: the counters, [total_requests],
    [file_count] and the size in bytes (the source rounds it to MB). *)
Record FileReport : Type := MkFileReport {
  fr_stats : FileStats;
  fr_total_requests : nat;
  fr_file_count : nat;
  fr_cache_size : nat;
  fr_max_age_seconds : Z
}.

Definition FileCache_get_stats : M (FileCache * World) FileReport :=
  st <- on_self (gets f_stats) ;;
  let total_requests := (f_hits st + f_misses st)%nat in
  sizes <- with_local (0%nat, 0%nat)
    (try_except
       (d <- on_outer (on_self (gets cache_dir)) ;;
        names <- on_outer (on_world (os_listdir d)) ;;
        for_each names (fun filename =>
          if endswith filename ".cache" then
            let file_path := os_path_join d filename in
            size <- on_outer (on_world (os_path_getsize file_path)) ;;
            on_local (modify (fun l => ((fst l + size)%nat, snd l))) ;;
            on_local (modify (fun l => (fst l, S (snd l))))
          else ret tt))
       (fun _ => ret tt) ;;
     on_local (gets id)) ;;
  max_age <- on_self (gets max_age_seconds) ;;
  ret (MkFileReport st total_requests (snd sizes) (fst sizes) max_age).

(** *** QueryCache *)

Definition QueryCache_init (memory_cache : LRUCache) (file_cache : FileCache)
  : QueryCache :=
  MkQueryCache memory_cache file_cache (MkQueryStats 0 0 0 0).

Definition _generate_cache_key (query : string) (params : list pyval) : string :=
  let cache_data := query +:+ ":" +:+ str_tuple params in
  "query:" +:+ md5_hexdigest cache_data.

(** [self.memory_cache.m(...)] and [self.file_cache.m(...)] *)
Definition on_memory_cache {A} (m : M LRUCache A) : M (QueryCache * World) A :=
  on_self (zoom memory_cache_lens m).
Definition on_file_cache {A} (m : M (FileCache * World) A)
  : M (QueryCache * World) A :=
  zoom (with_world file_cache_lens) m.

Definition QueryCache_get (query : string) (params : list pyval)
  : M (QueryCache * World) pyval :=
  let cache_key := _generate_cache_key query params in
  result <- on_memory_cache (LRUCache_get cache_key) ;;
  if negb (is_none result) then
    on_self (modify (set_q_stats incr_memory_hits)) ;;
    ret result
  else
    result <- on_file_cache (FileCache_get cache_key) ;;
    if negb (is_none result) then
      on_memory_cache (LRUCache_set cache_key result) ;;
      on_self (modify (set_q_stats incr_file_hits)) ;;
      ret result
    else
      on_self (modify (set_q_stats incr_q_misses)) ;;
      ret VNone.

Definition QueryCache_set (query : string) (params : list pyval) (result : pyval)
  : M (QueryCache * World) unit :=
  let cache_key := _generate_cache_key query params in
  on_memory_cache (LRUCache_set cache_key result) ;;
  _ <- on_file_cache (FileCache_set cache_key result) ;;
  on_self (modify (set_q_stats incr_stores)).

Definition QueryCache_invalidate_pattern (table_name : string)
  : M (QueryCache * World) nat :=
  with_local 0%nat
    (on_outer (on_memory_cache LRUCache_clear) ;;
     n <- on_outer (on_file_cache FileCache_clear) ;;
     on_local (modify (fun invalidated_count => (invalidated_count + n)%nat)) ;;
     invalidated_count <- on_local (gets id) ;;
     on_outer (on_world (logger_log (LogInvalidated table_name invalidated_count))) ;;
     on_local (gets id)).

Record QueryReport : Type := MkQueryReport {
  qr_stats : QueryStats;
  qr_total_requests : nat;
  qr_memory_cache_stats : LRUReport;
  qr_file_cache_stats : FileReport
}.

Definition QueryCache_get_stats : M (QueryCache * World) QueryReport :=
  st <- on_self (gets q_stats) ;;
  let total_requests := (memory_hits st + file_hits st + q_misses st)%nat in
  m <- on_memory_cache LRUCache_get_stats ;;
  f <- on_file_cache FileCache_get_stats ;;
  ret (MkQueryReport st total_requests m f).

(** *** CacheManager *)

Definition on_cm_memory_cache {A} (m : M LRUCache A) : M (CacheManager * World) A :=
  on_self (zoom cm_memory_cache_lens m).
Definition on_cm_file_cache {A} (m : M (FileCache * World) A)
  : M (CacheManager * World) A :=
  zoom (with_world cm_file_cache_lens) m.
Definition on_query_cache {A} (m : M (QueryCache * World) A)
  : M (CacheManager * World) A :=
  zoom (with_world query_cache_lens) m.
Definition on_image_cache {A} (m : M (FileCache * World) A)
  : M (CacheManager * World) A :=
  zoom (with_world image_cache_lens) m.
Definition on_config_cache {A} (m : M LRUCache A) : M (CacheManager * World) A :=
  on_self (zoom config_cache_lens m).

(** [os.path.join(file_cache_dir, "images")], a directory *)
Definition images_dir (file_cache_dir : string) : string :=
  file_cache_dir +:+ "/" +:+ "images".

Definition CacheManager_init (memory_cache_size : Z) (file_cache_dir : string)
    (file_cache_max_age : Z) : M World CacheManager :=
  memory_cache <- lift_result (LRUCache_init memory_cache_size) ;;
  file_cache <- FileCache_init file_cache_dir file_cache_max_age ;;
  let query_cache := QueryCache_init memory_cache file_cache in
  image_cache <- FileCache_init (images_dir file_cache_dir) (24 * 3600)%Z ;;
  config_cache <- lift_result (LRUCache_init 100%Z) ;;
  logger_log LogManagerReady ;;
  ret (MkCacheManager query_cache image_cache config_cache).

Record ManagerReport : Type := MkManagerReport {
  mr_memory_cache : LRUReport;
  mr_file_cache : FileReport;
  mr_query_cache : QueryReport;
  mr_image_cache : FileReport;
  mr_config_cache : LRUReport
}.

Definition CacheManager_get_comprehensive_stats
  : M (CacheManager * World) ManagerReport :=
  memory_cache <- on_cm_memory_cache LRUCache_get_stats ;;
  file_cache <- on_cm_file_cache FileCache_get_stats ;;
  query_cache <- on_query_cache QueryCache_get_stats ;;
  image_cache <- on_image_cache FileCache_get_stats ;;
  config_cache <- on_config_cache LRUCache_get_stats ;;
  ret (MkManagerReport memory_cache file_cache query_cache image_cache
         config_cache).

Definition CacheManager_cleanup_all_expired
  : M (CacheManager * World) (list (string * nat)) :=
  file_cache_deleted <- on_cm_file_cache FileCache_cleanup_expired ;;
  image_cache_deleted <- on_image_cache FileCache_cleanup_expired ;;
  ret [("file_cache_deleted", file_cache_deleted);
       ("image_cache_deleted", image_cache_deleted)].

Definition CacheManager_clear_all_caches
  : M (CacheManager * World) (list (string * nat)) :=
  memory_cache_cleared <- on_cm_memory_cache LRUCache_size ;;
  file_cache_deleted <- on_cm_file_cache FileCache_clear ;;
  image_cache_deleted <- on_image_cache FileCache_clear ;;
  config_cache_cleared <- on_config_cache LRUCache_size ;;
  ret [("memory_cache_cleared", memory_cache_cleared);
       ("file_cache_deleted", file_cache_deleted);
       ("image_cache_deleted", image_cache_deleted);
       ("config_cache_cleared", config_cache_cleared)].

End Methods.


(** ** Sequences of calls

    A caller that gets an exception from one call can go on using the
    object: a sequence of calls is run call after call, each from the state
    the one before left, whatever it returned. *)

Inductive lru_call : Type :=
  | CallGet (key : string)
  | CallSet (key : string) (value : pyval)
  | CallDelete (key : string)
  | CallClear
  | CallSize
  | CallGetStats.

Definition discard {S A} (m : M S A) : M S unit := _ <- m ;; ret tt.

Definition lru_call_run (c : lru_call) : M LRUCache unit :=
  match c with
  | CallGet key => discard (LRUCache_get key)
  | CallSet key value => LRUCache_set key value
  | CallDelete key => discard (LRUCache_delete key)
  | CallClear => LRUCache_clear
  | CallSize => discard LRUCache_size
  | CallGetStats => discard LRUCache_get_stats
  end.

Definition lru_calls (cs : list lru_call) (self : LRUCache) : LRUCache :=
  fold_left (fun s c => snd (lru_call_run c s)) cs self.

Definition is_lru_get (c : lru_call) : bool :=
  match c with CallGet _ => true | _ => false end.

Definition lru_gets (cs : list lru_call) : nat :=
  length (List.filter is_lru_get cs).

(** Between two calls on a disk tier anything may happen to the world
    ([FWorld]): time passes, other programs touch the files, faults come
    and go. *)
Inductive file_call : Type :=
  | FGet (key : string)
  | FSet (key : string) (value : pyval)
  | FDelete (key : string)
  | FClear
  | FCleanupExpired
  | FGetStats
  | FWorld (f : World -> World).

Definition is_file_get (c : file_call) : bool :=
  match c with FGet _ => true | _ => false end.

Definition file_gets (cs : list file_call) : nat :=
  length (List.filter is_file_get cs).

(** Calls on the orchestrator, and calls made directly on its two tiers by
    the other holders of the same objects. *)
Inductive query_call : Type :=
  | QGet (query : string) (params : list pyval)
  | QSet (query : string) (params : list pyval) (result : pyval)
  | QInvalidatePattern (table_name : string)
  | QGetStats
  | QMemory (c : lru_call)
  | QFile (c : file_call).

Definition is_query_get (c : query_call) : bool :=
  match c with QGet _ _ => true | _ => false end.

Definition query_gets (cs : list query_call) : nat :=
  length (List.filter is_query_get cs).

Section Calls.
Context `{PyLib}.

Definition file_call_run (c : file_call) : M (FileCache * World) unit :=
  match c with
  | FGet key => discard (FileCache_get key)
  | FSet key value => discard (FileCache_set key value)
  | FDelete key => discard (FileCache_delete key)
  | FClear => discard FileCache_clear
  | FCleanupExpired => discard FileCache_cleanup_expired
  | FGetStats => discard FileCache_get_stats
  | FWorld f => on_world (modify f)
  end.

Definition file_calls (cs : list file_call) (s : FileCache * World)
  : FileCache * World :=
  fold_left (fun s c => snd (file_call_run c s)) cs s.

Definition query_call_run (c : query_call) : M (QueryCache * World) unit :=
  match c with
  | QGet query params => discard (QueryCache_get query params)
  | QSet query params result => QueryCache_set query params result
  | QInvalidatePattern table_name =>
      discard (QueryCache_invalidate_pattern table_name)
  | QGetStats => discard QueryCache_get_stats
  | QMemory c => on_memory_cache (lru_call_run c)
  | QFile c => on_file_cache (file_call_run c)
  end.

Definition query_calls (cs : list query_call) (s : QueryCache * World)
  : QueryCache * World :=
  fold_left (fun s c => snd (query_call_run c s)) cs s.

End Calls.

(** [set] of each pair in turn, as a caller's loop *)
Definition set_all (kvs : list (string * pyval)) : M LRUCache unit :=
  for_each kvs (fun kv => LRUCache_set (fst kv) (snd kv)).

(** The cache files of directory [d], and the disk without some of them. *)
Definition cache_files (d : string) (fs : gmap path File) : list string :=
  List.filter (fun name => endswith name ".cache") (dir_names d fs).

Definition remove_files (d : string) (names : list string)
    (fs : gmap path File) : gmap path File :=
  fold_left (fun fs name => delete (os_path_join d name) fs) names fs.

(** ** A small instance of the library, for concrete runs

    The hash is the identity; only [None] and strings can be pickled (an
    integer stands for a value [pickle] refuses). *)

Definition sample_lib : PyLib := {|
  md5_hexdigest := fun s => s;
  pickle_dumps := fun v =>
    match v with
    | VNone => Some [Byte.x4e]
    | VStr s => Some (Byte.x53 :: String.list_byte_of_string s)
    | _ => None
    end;
  pickle_loads := fun data =>
    match data with
    | [Byte.x4e] => Some VNone
    | Byte.x53 :: rest => Some (VStr (String.string_of_list_byte rest))
    | _ => None
    end;
  str_tuple := fun _ => "()"
|}.

(** An empty disk on which every system call works, at time 0. *)
Definition empty_world : World := MkWorld ∅ (fun _ => false) 0 [].

(** The same disk, mounted read-only: opening for writing fails. *)
Definition read_only_world : World :=
  MkWorld ∅ (fun c => match c with SysOpenWrite _ => true | _ => false end) 0 [].

(** A disk tier with a maximal age of one second, and a disk holding the
    pickle of ["v"] written for key ["k"] at time 0. *)
Definition ttl_file_cache : FileCache :=
  MkFileCache "/c" 1 (MkFileStats 0 0 0 0).

Definition ttl_world (now : float) : World :=
  MkWorld {[ ("/c", "k.cache") :=
               MkFile (Byte.x53 :: String.list_byte_of_string "v") 0 ]}
          (fun _ => false) now [].

(** A disk on which the key of query ["q"] with no parameters holds the
    pickle of [None], written at time 0. *)
Definition none_world : World :=
  MkWorld {[ ("/c", "query:q:().cache") := MkFile [Byte.x4e] 0 ]}
          (fun _ => false) 0 [].

(** The world after the registry was built on an empty disk. *)
Definition ready_world : World :=
  MkWorld ∅ (fun _ => false) 0 [LogManagerReady].

(** The registry built with the defaults, after [memory_cache.set("a", 1)]
    and [config_cache.set("theme", "dark")]. *)
Definition busy_manager : CacheManager :=
  MkCacheManager
    (MkQueryCache (MkLRUCache 1000 [("a", VInt 1)] (MkLRUStats 0 0 0))
       (MkFileCache "/app/data/cache" 3600 (MkFileStats 0 0 0 0))
       (MkQueryStats 0 0 0 0))
    (MkFileCache "/app/data/cache/images" 86400 (MkFileStats 0 0 0 0))
    (MkLRUCache 100 [("theme", VStr "dark")] (MkLRUStats 0 0 0)).

Definition sample_file_cache : FileCache :=
  MkFileCache "/c" 3600 (MkFileStats 0 0 0 0).

Definition sample_memory_cache : LRUCache :=
  MkLRUCache 2 [] (MkLRUStats 0 0 0).

Definition sample_query_cache : QueryCache :=
  QueryCache_init sample_memory_cache sample_file_cache.

(** An orchestrator built on a memory tier of capacity 0. *)
Definition zero_memory_cache : LRUCache :=
  MkLRUCache 0 [] (MkLRUStats 0 0 0).

Definition zero_query_cache : QueryCache :=
  QueryCache_init zero_memory_cache sample_file_cache.

(** A disk on which the key of query ["q"] with no parameters holds the
    pickle of ["rows"], written at time 0. *)
Definition rows_world : World :=
  MkWorld {[ ("/c", "query:q:().cache") :=
               MkFile (Byte.x53 :: String.list_byte_of_string "rows") 0 ]}
          (fun _ => false) 0 [].
(** ** The route [/api/performance/cache/clear] of [api_handler.py]

    The route reads one thing of the request, the property
    [request.json]: it gives the parsed body, a JSON value, or raises the
    exception of Flask (a body that is no JSON; from Flask 2.1 on also a
    request without a JSON content type, where older versions gave
    [None]).  The response is the JSON body given to [jsonify] with its
    status code.  The route logs to [current_app.logger], here a list of
    its own beside the registry and the world. *)

(** A JSON value as Python has it after parsing; a dict is an association
    list with distinct keys. *)
#[local] Unset Elimination Schemes.
Inductive json : Type :=
  | JNull
  | JBool (b : bool)
  | JInt (z : Z)
  | JFloat (x : float)
  | JStr (s : string)
  | JArray (items : list json)
  | JObject (fields : list (string * json)).
#[local] Set Elimination Schemes.

Record Request : Type := MkRequest {
  request_json : result json
}.

(** [bool(v)] *)
Definition json_truthy (v : json) : bool :=
  match v with
  | JNull => false
  | JBool b => b
  | JInt z => negb (z =? 0)%Z
  | JFloat x => negb (x =? 0)%float
  | JStr s => negb (String.eqb s "")
  | JArray items => match items with [] => false | _ => true end
  | JObject fields => match fields with [] => false | _ => true end
  end.

(** [v == s] for a string [s] *)
Definition json_is_str (v : json) (s : string) : bool :=
  match v with
  | JStr t => String.eqb t s
  | _ => false
  end.

Fixpoint json_lookup (key : string) (fields : list (string * json))
  : option json :=
  match fields with
  | [] => None
  | (k, v) :: fields' =>
      if String.eqb key k then Some v else json_lookup key fields'
  end.

(** [v.get(key, default)]: only a dict has the method. *)
Definition json_get (v : json) (key : string) (default : json) : result json :=
  match v with
  | JObject fields =>
      Ok (match json_lookup key fields with
          | Some x => x
          | None => default
          end)
  | _ => Raise AttributeError
  end.

(** [request.json.get('type', 'all') if request.json else 'all']: the
    property is read for the test, and again for the call of [get]. *)
Definition request_cache_type (request : Request) : result json :=
  match request_json request with
  | Raise e => Raise e
  | Ok body =>
      if json_truthy body then
        match request_json request with
        | Raise e => Raise e
        | Ok body => json_get body "type" (JStr "all")
        end
      else Ok (JStr "all")
  end.

Inductive api_message : Type :=
  | MsgInvalidCacheType
  | MsgClearFailed (e : exn).

Inductive response_body : Type :=
  | BodyData (data : list (string * pyval))
  | BodyMessage (message : api_message).

Record Response : Type := MkResponse {
  success : bool;
  body : response_body;
  status : nat
}.

(** A report of counts as JSON values. *)
Definition counts_json (report : list (string * nat)) : list (string * pyval) :=
  map (fun kv => (fst kv, VInt (Z.of_nat (snd kv)))) report.

Definition api_state : Type := list api_message * (CacheManager * World).

Definition clear_cache (request : Request) : M api_state Response :=
  try_except
    (cache_type <- lift_result (request_cache_type request) ;;
     if json_is_str cache_type "all" then
       result <- on_outer CacheManager_clear_all_caches ;;
       ret (MkResponse true (BodyData (counts_json result)) 200)
     else if json_is_str cache_type "memory" then
       on_outer (on_cm_memory_cache LRUCache_clear) ;;
       ret (MkResponse true
              (BodyData [("memory_cache_cleared", VBool true)]) 200)
     else if json_is_str cache_type "file" then
       n <- on_outer (on_cm_file_cache FileCache_clear) ;;
       ret (MkResponse true
              (BodyData (counts_json [("file_cache_deleted", n)])) 200)
     else if json_is_str cache_type "expired" then
       result <- on_outer CacheManager_cleanup_all_expired ;;
       ret (MkResponse true (BodyData (counts_json result)) 200)
     else
       ret (MkResponse false (BodyMessage MsgInvalidCacheType) 400))
    (fun e =>
       on_local (modify (fun l => l ++ [MsgClearFailed e])) ;;
       ret (MkResponse false (BodyMessage (MsgClearFailed e)) 500)).

(** Is the type asked for one of the four the route knows? *)
Definition known_cache_type (v : json) : bool :=
  json_is_str v "all" || json_is_str v "memory" ||
  json_is_str v "file" || json_is_str v "expired".

(** A request whose body is the JSON value [v]. *)
Definition json_request (v : json) : Request := MkRequest (Ok v).

(** ** Recency of an entry *)

(** The number of entries used more recently than [key]'s (those after it
    in the dictionary). *)
Fixpoint od_after (key : string) (d : odict) : option nat :=
  match d with
  | [] => None
  | (k, _) :: d' =>
      if String.eqb key k then Some (length d') else od_after key d'
  end.

(** A call that is not about [key] and does not clear the cache. *)
Definition call_spares (key : string) (c : lru_call) : bool :=
  match c with
  | CallGet k => negb (String.eqb k key)
  | CallSet k _ => negb (String.eqb k key)
  | CallDelete k => negb (String.eqb k key)
  | CallClear => false
  | CallSize => true
  | CallGetStats => true
  end.

(** The entry of [key] holds [v] and at most [j] entries are more recent. *)
Definition held_recent (key : string) (v : pyval) (j : nat)
    (self : LRUCache) : Prop :=
  od_lookup key (cache self) = Some v /\
  exists a, od_after key (cache self) = Some a /\ (a <= j)%nat.

(** ** The world at another time, and more sample disks *)

(** The same disk, read when the clock shows [now]. *)
Definition at_time (now : float) (w : World) : World :=
  MkWorld (w_files w) (w_fault w) now (w_log w).



(** A disk holding, for key ["k"], bytes that are no pickle. *)
Definition corrupt_world : World :=
  MkWorld {[ ("/c", "k.cache") := MkFile [Byte.x00] 0 ]}
          (fun _ => false) 0 [].


(** ** Invariants and counters used in the proofs *)

(** What a sweep of directory files has done after removing [n] of them,
    started on [(self, w)]: it has counted [n] deletes, the disk has [n]
    files less, and every path holds what it held or, if [removable],
    nothing. *)
Definition swept (removable : path -> Prop) (self : FileCache) (w : World)
    (n : nat) (self' : FileCache) (w' : World) : Prop :=
  cache_dir self' = cache_dir self /\
  max_age_seconds self' = max_age_seconds self /\
  f_hits (f_stats self') = f_hits (f_stats self) /\
  f_misses (f_stats self') = f_misses (f_stats self) /\
  writes (f_stats self') = writes (f_stats self) /\
  deletes (f_stats self') = (deletes (f_stats self) + n)%nat /\
  (size (w_files w') + n)%nat = size (w_files w) /\
  w_fault w' = w_fault w /\
  w_clock w' = w_clock w /\
  forall p : path,
    w_files w' !! p = w_files w !! p \/
    (w_files w' !! p = None /\ removable p).


(** The cache files of a directory. *)
Definition is_cache_file (d : string) (p : path) : Prop :=
  fst p = d /\ endswith (snd p) ".cache" = true.


(** The bound [len(cache) <= max_size], with the capacity named. *)
Definition lru_bounded (N : Z) (self : LRUCache) : Prop :=
  max_size self = N /\ (Z.of_nat (length (cache self)) <= N)%Z.

(** The lookups a tier or the orchestrator has counted. *)
Definition lru_lookups (self : LRUCache) : nat :=
  (hits (stats self) + misses (stats self))%nat.

Definition file_lookups (self : FileCache) : nat :=
  (f_hits (f_stats self) + f_misses (f_stats self))%nat.

Definition query_lookups (self : QueryCache) : nat :=
  (memory_hits (q_stats self) + file_hits (q_stats self)
   + q_misses (q_stats self))%nat.

Definition bump (b : bool) (n : nat) : nat := if b then S n else n.

(** What no method of the disk tier changes, and the lookups counted. *)
Definition file_kept (n : nat) (self self' : FileCache) : Prop :=
  cache_dir self' = cache_dir self /\
  max_age_seconds self' = max_age_seconds self /\
  file_lookups self' = (n + file_lookups self)%nat.

(** What no call on the orchestrator changes, and the lookups counted. *)
Definition query_kept (n : nat) (self self' : QueryCache) : Prop :=
  max_size (memory_cache self') = max_size (memory_cache self) /\
  query_lookups self' = (n + query_lookups self)%nat.

(** ** Weakest preconditions for the monad *)

Definition wp {S A} (m : M S A) (Q : result A -> S -> Prop) (s : S) : Prop :=
  Q (fst (m s)) (snd (m s)).

Lemma wp_ret {S A} (a : A) (Q : result A -> S -> Prop) s :
  Q (Ok a) s -> wp (ret a) Q s.
Proof. exact (fun q => q). Qed.

Lemma wp_raise {S A} e (Q : result A -> S -> Prop) s :
  Q (Raise e) s -> wp (raise e) Q s.
Proof. exact (fun q => q). Qed.

Lemma wp_gets {S A} (f : S -> A) (Q : result A -> S -> Prop) s :
  Q (Ok (f s)) s -> wp (gets f) Q s.
Proof. exact (fun q => q). Qed.

Lemma wp_modify {S} (f : S -> S) (Q : result unit -> S -> Prop) s :
  Q (Ok tt) (f s) -> wp (modify f) Q s.
Proof. exact (fun q => q). Qed.

Lemma wp_lift_result {S A} (r : result A) (Q : result A -> S -> Prop) s :
  Q r s -> wp (lift_result r) Q s.
Proof. exact (fun q => q). Qed.

Lemma wp_bind {S A B} (m : M S A) (k : A -> M S B) (Q : result B -> S -> Prop) s :
  wp m (fun r s' => match r with
                    | Ok a => wp (k a) Q s'
                    | Raise e => Q (Raise e) s'
                    end) s ->
  wp (bind m k) Q s.
Proof.
  unfold wp, bind. destruct (m s) as [[a|e] s']; cbn; auto.
Qed.

Lemma wp_try_except {S A} (body : M S A) handler (Q : result A -> S -> Prop) s :
  wp body (fun r s' => match r with
                       | Ok a => Q (Ok a) s'
                       | Raise e => wp (handler e) Q s'
                       end) s ->
  wp (try_except body handler) Q s.
Proof.
  unfold wp, try_except. destruct (body s) as [[a|e] s']; cbn; auto.
Qed.

Lemma wp_zoom {S T A} (l : Lens S T) (m : M T A) (Q : result A -> S -> Prop) s :
  wp m (fun r t => Q r (update l t s)) (view l s) ->
  wp (zoom l m) Q s.
Proof.
  unfold wp, zoom. destruct (m (view l s)) as [r t]; cbn; auto.
Qed.

Lemma wp_with_local {L S A} (init : L) (m : M (L * S) A) (Q : result A -> S -> Prop) s :
  wp m (fun r ls => Q r (snd ls)) (init, s) ->
  wp (with_local init m) Q s.
Proof.
  unfold wp, with_local. destruct (m (init, s)) as [r ls]; cbn; auto.
Qed.

Lemma wp_mono {S A} (m : M S A) (Q Q' : result A -> S -> Prop) s :
  wp m Q s -> (forall r s', Q r s' -> Q' r s') -> wp m Q' s.
Proof. unfold wp; auto. Qed.

(** A loop keeps an invariant [I]; leaving it by an exception gives [Q]. *)
Lemma wp_for_each {S A} (I : S -> Prop) (l : list A) (body : A -> M S unit)
    (Q : result unit -> S -> Prop) s :
  I s ->
  (forall x s0, x ∈ l -> I s0 ->
     wp (body x) (fun r s' => match r with
                              | Ok _ => I s'
                              | Raise e => Q (Raise e) s'
                              end) s0) ->
  (forall s', I s' -> Q (Ok tt) s') ->
  wp (for_each l body) Q s.
Proof.
  intros HI Hbody Hend. revert s HI.
  induction l as [|x l IH]; intros s HI; cbn [for_each].
  - apply wp_ret; auto.
  - apply wp_bind.
    eapply wp_mono; [apply Hbody; [left | exact HI]|].
    intros [[]|e] s' Hr; [|exact Hr].
    apply IH; [|exact Hr].
    intros y s0 Hy; apply Hbody; right; exact Hy.
Qed.

Lemma wp_returns {S A} (m : M S A) (Q : A -> S -> Prop) s :
  wp m (fun r s' => match r with Ok a => Q a s' | Raise _ => False end) s ->
  exists a s', m s = (Ok a, s') /\ Q a s'.
Proof.
  unfold wp. destruct (m s) as [[a|e] s']; cbn; [eauto | tauto].
Qed.

Ltac wp_red :=
  cbn [view update fst snd fst_lens snd_lens with_world compose_lens
       memory_cache_lens file_cache_lens query_cache_lens image_cache_lens
       config_cache_lens cm_memory_cache_lens cm_file_cache_lens].

Ltac wp_step :=
  lazymatch goal with
  | |- wp (bind _ _) _ _ => apply wp_bind
  | |- wp (ret _) _ _ => apply wp_ret
  | |- wp (raise _) _ _ => apply wp_raise
  | |- wp (gets _) _ _ => apply wp_gets
  | |- wp (modify _) _ _ => apply wp_modify
  | |- wp (lift_result _) _ _ => apply wp_lift_result
  | |- wp (try_except _ _) _ _ => apply wp_try_except
  | |- wp (zoom _ _) _ _ => apply wp_zoom
  | |- wp (with_local _ _) _ _ => apply wp_with_local
  | |- wp (on_self _) _ _ => unfold on_self
  | |- wp (on_world _) _ _ => unfold on_world
  | |- wp (on_local _) _ _ => unfold on_local
  | |- wp (on_outer _) _ _ => unfold on_outer
  | |- wp (if ?b then _ else _) _ _ => destruct b eqn:?
  | |- wp (match ?x with _ => _ end) _ _ => destruct x eqn:?
  end; wp_red.

(** Go down to the object a call is made on. *)
Ltac wp_enter :=
  repeat (lazymatch goal with
          | |- wp (zoom _ _) _ _ => apply wp_zoom
          | |- wp (on_self _) _ _ => unfold on_self
          | |- wp (on_world _) _ _ => unfold on_world
          | |- wp (on_local _) _ _ => unfold on_local
          | |- wp (on_outer _) _ _ => unfold on_outer
          end; wp_red).

Ltac wp_os :=
  unfold os_path_exists, os_path_getmtime, os_path_getsize, os_listdir,
    os_remove, open_rb, open_wb, write_bytes, logger_log, time_time,
    os_makedirs, syscall_check.

Ltac wp_run := repeat (wp_os; wp_step).

(** ** Facts on ordered dictionaries *)

Lemma od_lookup_None (key : string) (d : odict) :
  od_lookup key d = None <-> key ∉ od_keys d.
Proof.
  induction d as [|[k v] d IH]; cbn.
  - split; [intros _; apply not_elem_of_nil | reflexivity].
  - destruct (String.eqb_spec key k) as [->|Hne].
    + split; [discriminate | intros Hn; exfalso; apply Hn; left].
    + rewrite IH. rewrite not_elem_of_cons. tauto.
Qed.

Lemma od_lookup_elem (key : string) (v : pyval) (d : odict) :
  NoDup (od_keys d) -> (key, v) ∈ d -> od_lookup key d = Some v.
Proof.
  induction d as [|[k1 v1] d IH]; intros Hnd Hin;
    [now apply elem_of_nil in Hin|].
  cbn in Hnd. apply NoDup_cons in Hnd as [Hk1 Hnd]. cbn.
  apply elem_of_cons in Hin as [Heq|Hin].
  - injection Heq as -> ->. now rewrite String.eqb_refl.
  - destruct (String.eqb_spec key k1) as [->|_]; [|auto].
    exfalso. apply Hk1. apply list_elem_of_fmap. now exists (k1, v).
Qed.

Lemma od_lookup_setitem_eq (key : string) (v : pyval) (d : odict) :
  od_lookup key (od_setitem key v d) = Some v.
Proof.
  induction d as [|[k w] d IH]; cbn.
  - now rewrite String.eqb_refl.
  - destruct (String.eqb_spec key k) as [->|Hne]; cbn.
    + now rewrite String.eqb_refl.
    + destruct (String.eqb_spec key k); [contradiction | exact IH].
Qed.

Lemma od_setitem_fresh (key : string) (v : pyval) (d : odict) :
  od_lookup key d = None -> od_setitem key v d = d ++ [(key, v)].
Proof.
  induction d as [|[k w] d IH]; cbn; [reflexivity|].
  destruct (String.eqb key k); [discriminate|].
  intros Hd. now rewrite IH.
Qed.

Lemma od_lookup_remove_eq (key : string) (d : odict) :
  NoDup (od_keys d) -> od_lookup key (od_remove key d) = None.
Proof.
  induction d as [|[k w] d IH]; cbn; intros Hnd; [reflexivity|].
  apply NoDup_cons in Hnd as [Hk Hnd].
  destruct (String.eqb_spec key k) as [->|Hne]; cbn.
  - now apply od_lookup_None.
  - destruct (String.eqb_spec key k); [contradiction | auto].
Qed.

Lemma od_remove_length (key : string) (d : odict) :
  (length (od_remove key d) <= length d)%nat.
Proof.
  induction d as [|[k w] d IH]; cbn; [lia|].
  destruct (String.eqb key k); cbn; lia.
Qed.

Lemma od_remove_length_found (key : string) (d : odict) (v : pyval) :
  od_lookup key d = Some v -> S (length (od_remove key d)) = length d.
Proof.
  induction d as [|[k w] d IH]; cbn; [discriminate|].
  destruct (String.eqb key k); cbn; [reflexivity|].
  intros Hd. now rewrite IH.
Qed.

Lemma od_setitem_length (key : string) (v : pyval) (d : odict) :
  (length (od_setitem key v d) <= S (length d))%nat.
Proof.
  induction d as [|[k w] d IH]; cbn; [lia|].
  destruct (String.eqb key k); cbn; lia.
Qed.

(** ** What each [LRUCache] method does, case by case *)

Lemma LRUCache_get_hit (self : LRUCache) (key : string) (v : pyval) :
  od_lookup key (cache self) = Some v ->
  LRUCache_get key self =
    (Ok v, MkLRUCache (max_size self)
             (od_setitem key v (od_remove key (cache self)))
             (incr_hits (stats self))).
Proof.
  intros Hl. unfold LRUCache_get, cache_pop, cache_setitem, od_contains,
    bind, gets, modify, ret. cbn. rewrite Hl. cbn. rewrite ?Hl. reflexivity.
Qed.

Lemma LRUCache_get_miss (self : LRUCache) (key : string) :
  od_lookup key (cache self) = None ->
  LRUCache_get key self =
    (Ok VNone, MkLRUCache (max_size self) (cache self)
                 (incr_misses (stats self))).
Proof.
  intros Hl. unfold LRUCache_get, od_contains, bind, gets, modify, ret.
  cbn. rewrite Hl. reflexivity.
Qed.

Lemma LRUCache_set_present (self : LRUCache) (key : string) (v w : pyval) :
  od_lookup key (cache self) = Some w ->
  LRUCache_set key v self =
    (Ok tt, MkLRUCache (max_size self)
              (od_setitem key v (od_remove key (cache self)))
              (stats self)).
Proof.
  intros Hl. unfold LRUCache_set, cache_pop, cache_setitem, od_contains,
    bind, gets, modify, ret. cbn. rewrite Hl. cbn. rewrite ?Hl. reflexivity.
Qed.

Lemma LRUCache_set_room (self : LRUCache) (key : string) (v : pyval) :
  od_lookup key (cache self) = None ->
  (Z.of_nat (length (cache self)) < max_size self)%Z ->
  LRUCache_set key v self =
    (Ok tt, MkLRUCache (max_size self) (od_setitem key v (cache self))
              (stats self)).
Proof.
  intros Hl Hlt. unfold LRUCache_set, cache_setitem, od_contains,
    bind, gets, modify, ret. cbn. rewrite Hl.
  destruct (Z.geb_spec (Z.of_nat (length (cache self))) (max_size self));
    [lia | reflexivity].
Qed.

Lemma LRUCache_set_full (self : LRUCache) (key : string) (v : pyval) kv d :
  od_lookup key (cache self) = None ->
  (max_size self <= Z.of_nat (length (cache self)))%Z ->
  cache self = kv :: d ->
  LRUCache_set key v self =
    (Ok tt, MkLRUCache (max_size self) (od_setitem key v d)
              (incr_evictions (stats self))).
Proof.
  intros Hl Hge Hd. unfold LRUCache_set, cache_popitem_first, cache_setitem,
    od_contains, bind, gets, modify, ret. cbn. rewrite Hl.
  destruct (Z.geb_spec (Z.of_nat (length (cache self))) (max_size self));
    [|lia].
  rewrite Hd. reflexivity.
Qed.

(** With nothing to evict, [popitem] raises and the cache is left as it was. *)
Lemma LRUCache_set_nothing_to_evict (self : LRUCache) (key : string) (v : pyval) :
  cache self = [] ->
  (max_size self <= 0)%Z ->
  LRUCache_set key v self = (Raise KeyError, self).
Proof.
  intros Hd Hle. unfold LRUCache_set, cache_popitem_first, od_contains,
    bind, gets, raise. rewrite Hd. cbn [od_lookup length].
  destruct (Z.geb_spec (Z.of_nat 0) (max_size self)) as [_|Hlt];
    [rewrite Hd; reflexivity | cbn in Hlt; lia].
Qed.

Lemma for_each_app {S A} (l1 l2 : list A) (body : A -> M S unit) (s : S) :
  for_each (l1 ++ l2) body s =
  bind (for_each l1 body) (fun _ => for_each l2 body) s.
Proof.
  revert s. induction l1 as [|x l1 IH]; intros s; cbn [for_each app].
  - reflexivity.
  - unfold bind. destruct (body x s) as [[[]|e] s']; [|reflexivity].
    rewrite IH. reflexivity.
Qed.

(** Distinct new keys that fit are appended in the order of insertion. *)
Lemma set_all_fills (kvs : list (string * pyval)) (self : LRUCache) :
  NoDup (od_keys (cache self ++ kvs)) ->
  (Z.of_nat (length (cache self ++ kvs)) <= max_size self)%Z ->
  set_all kvs self =
    (Ok tt, MkLRUCache (max_size self) (cache self ++ kvs) (stats self)).
Proof.
  revert self. induction kvs as [|[k v] kvs IH]; intros self Hnd Hlen.
  - cbn. rewrite app_nil_r. now destruct self.
  - assert (Hfresh : od_lookup k (cache self) = None).
    { apply od_lookup_None. unfold od_keys in *. rewrite map_app in Hnd.
      apply NoDup_app in Hnd as (_ & Hdis & _).
      intros Hin. apply (Hdis k Hin). left. }
    rewrite length_app in Hlen. cbn [length] in Hlen.
    unfold set_all in *. cbn [for_each]. unfold bind at 1. cbn [fst snd].
    rewrite LRUCache_set_room by (auto; lia).
    rewrite (od_setitem_fresh _ _ _ Hfresh).
    rewrite IH; cbn [cache max_size stats].
    + now rewrite <- app_assoc.
    + now rewrite <- app_assoc.
    + rewrite !length_app. cbn [length]. lia.
Qed.

Lemma LRUCache_get_bounded N key self :
  lru_bounded N self -> lru_bounded N (snd (LRUCache_get key self)).
Proof.
  intros [Hm Hl]. destruct (od_lookup key (cache self)) as [v|] eqn:Hk.
  - rewrite (LRUCache_get_hit _ _ _ Hk). split; cbn; [exact Hm|].
    pose proof (od_setitem_length key v (od_remove key (cache self))).
    pose proof (od_remove_length_found _ _ _ Hk). lia.
  - rewrite (LRUCache_get_miss _ _ Hk). split; cbn; auto.
Qed.

Lemma LRUCache_set_bounded N key v self :
  lru_bounded N self -> lru_bounded N (snd (LRUCache_set key v self)).
Proof.
  intros [Hm Hl]. destruct (od_lookup key (cache self)) as [w|] eqn:Hk.
  - rewrite (LRUCache_set_present _ _ _ _ Hk). split; cbn; [exact Hm|].
    pose proof (od_setitem_length key v (od_remove key (cache self))).
    pose proof (od_remove_length_found _ _ _ Hk). lia.
  - destruct (Z.lt_ge_cases (Z.of_nat (length (cache self))) (max_size self))
      as [Hlt|Hge].
    + rewrite LRUCache_set_room by auto. split; cbn; [exact Hm|].
      pose proof (od_setitem_length key v (cache self)). lia.
    + destruct (cache self) as [|kv d] eqn:Hd.
      * rewrite LRUCache_set_nothing_to_evict by (auto; cbn in Hge; lia).
        split; cbn [snd]; [exact Hm | rewrite Hd; exact Hl].
      * rewrite (LRUCache_set_full _ _ _ kv d) by (auto; rewrite Hd; auto).
        split; cbn; [exact Hm|].
        pose proof (od_setitem_length key v d). cbn [length] in Hl. lia.
Qed.

Lemma lru_call_bounded N call self :
  lru_bounded N self -> lru_bounded N (snd (lru_call_run call self)).
Proof.
  intros Hb. destruct call as [key|key v|key| | |]; cbn [lru_call_run].
  - unfold discard, bind.
    pose proof (LRUCache_get_bounded N key self Hb) as Hg.
    destruct (LRUCache_get key self) as [[a|e] s']; exact Hg.
  - now apply LRUCache_set_bounded.
  - destruct Hb as [Hm Hl].
    unfold discard, LRUCache_delete, od_contains, bind, gets, modify, ret.
    cbn. pose proof (od_remove_length key (cache self)).
    destruct (od_lookup key (cache self)); unfold set_cache; cbn; split;
      cbn; auto; lia.
  - destruct Hb as [Hm Hl]. split; cbn; [exact Hm | lia].
  - exact Hb.
  - exact Hb.
Qed.

Lemma lru_calls_bounded N calls self :
  lru_bounded N self -> lru_bounded N (lru_calls calls self).
Proof.
  revert self. induction calls as [|c calls IH]; intros self Hb; cbn.
  - exact Hb.
  - apply IH. now apply lru_call_bounded.
Qed.

(** ** The memory tier: eviction, capacity, recency *)

(** C5. A fresh cache of capacity [N >= 1] that is given [N + 1] distinct
    keys by [set], with no [get] in between, drops exactly the first one:
    the others are all there, in the order of insertion, the eviction
    counter is 1, and a [get] of any of them returns its value.  After any
    sequence of calls the cache holds at most [N] entries.  With capacity 2,
    after [set(a,1)], [set(b,2)], [set(c,3)]: [get(a)] is a miss, [get(b)]
    is 2 and [get(c)] is 3. *)
Theorem lru_eviction_and_capacity (N : Z) (self0 : LRUCache) :
  (1 <= N)%Z ->
  LRUCache_init N = Ok self0 ->
  (forall kv0 rest,
     Z.of_nat (length rest) = N ->
     NoDup (od_keys (kv0 :: rest)) ->
     exists self,
       set_all (kv0 :: rest) self0 = (Ok tt, self) /\
       cache self = rest /\
       od_lookup (fst kv0) (cache self) = None /\
       evictions (stats self) = 1%nat /\
       forall k v, (k, v) ∈ rest -> fst (LRUCache_get k self) = Ok v) /\
  (forall calls,
     (Z.of_nat (length (cache (lru_calls calls self0))) <= N)%Z) /\
  (forall self2, LRUCache_init 2 = Ok self2 ->
     fst ((LRUCache_set "a" (VInt 1) ;;
           LRUCache_set "b" (VInt 2) ;;
           LRUCache_set "c" (VInt 3) ;;
           a <- LRUCache_get "a" ;;
           b <- LRUCache_get "b" ;;
           c <- LRUCache_get "c" ;;
           hm <- gets stats ;;
           ret (a, b, c, misses hm, evictions hm)) self2)
     = Ok (VNone, VInt 2, VInt 3, 1%nat, 1%nat)).
Proof.
  intros HN Hinit. injection Hinit as <-.
  split; [|split].
  - intros kv0 rest Hlen Hnd.
    destruct rest as [|last front _] using rev_ind.
    { cbn in Hlen. lia. }
    rewrite length_app in Hlen. cbn [length] in Hlen.
    change (kv0 :: front ++ [last]) with ((kv0 :: front) ++ [last]).
    unfold set_all. rewrite for_each_app. unfold bind at 1.
    fold (set_all (kv0 :: front)).
    assert (Hnd1 : NoDup (od_keys (kv0 :: front))).
    { change (kv0 :: front ++ [last]) with ((kv0 :: front) ++ [last]) in Hnd.
      unfold od_keys in *. rewrite map_app in Hnd.
      now apply NoDup_app in Hnd as (? & _). }
    rewrite set_all_fills; cbn [cache max_size stats app length];
      [|exact Hnd1|lia].
    destruct last as [k v]. cbn [for_each]. unfold bind at 1. cbn [fst snd].
    assert (Hfresh : od_lookup k (kv0 :: front) = None).
    { apply od_lookup_None.
      change (kv0 :: front ++ [(k, v)]) with ((kv0 :: front) ++ [(k, v)]) in Hnd.
      unfold od_keys in *. rewrite map_app in Hnd.
      apply NoDup_app in Hnd as (_ & Hdis & _).
      intros Hin. apply (Hdis k Hin). left. }
    rewrite (LRUCache_set_full _ _ _ kv0 front);
      cbn [cache max_size stats length]; [|exact Hfresh|lia|reflexivity].
    assert (Hfront : od_lookup k front = None).
    { destruct kv0 as [k0 v0]. cbn in Hfresh.
      destruct (String.eqb k k0); [discriminate | exact Hfresh]. }
    rewrite (od_setitem_fresh _ _ _ Hfront).
    assert (Hnd2 : NoDup (od_keys (front ++ [(k, v)]))).
    { cbn in Hnd. now apply NoDup_cons in Hnd as [_ ?]. }
    eexists. split; [reflexivity|]. cbn [cache stats evictions incr_evictions].
    split; [reflexivity|]. split; [|split; [reflexivity|]].
    + apply od_lookup_None. cbn in Hnd. now apply NoDup_cons in Hnd as [? _].
    + intros k' v' Hin.
      erewrite LRUCache_get_hit; [reflexivity|].
      now apply od_lookup_elem.
  - intros calls.
    apply (lru_calls_bounded N calls (MkLRUCache N [] (MkLRUStats 0 0 0))).
    split; cbn; [reflexivity | lia].
  - intros self2 Hinit2. injection Hinit2 as <-. reflexivity.
Qed.

Lemma lru_eviction_and_capacity_witness :
  exists self,
    set_all [("a", VInt 1); ("b", VInt 2); ("c", VInt 3)] sample_memory_cache
      = (Ok tt, self) /\
    cache self = [("b", VInt 2); ("c", VInt 3)].
Proof.
  destruct (lru_eviction_and_capacity 2 sample_memory_cache) as [Hevict _].
  - lia.
  - reflexivity.
  - destruct (Hevict ("a", VInt 1) [("b", VInt 2); ("c", VInt 3)])
      as (self & Hrun & Hcache & _).
    + reflexivity.
    + apply (bool_decide_unpack _). vm_compute. exact I.
    + exists self. split; [exact Hrun | exact Hcache].
Defined.

(** C6. On a hit, [get] returns the value and moves the entry to the end
    of the dictionary (most recently used), the other entries keeping
    their order; on a miss the dictionary is left as it is.  So with
    capacity 2, after [set(a,1)], [set(b,2)], [get(a)], [set(c,3)] the
    entry evicted is [b]: [get(a)] is 1, [get(c)] is 3, [get(b)] is a
    miss. *)
Theorem lru_get_recency (self : LRUCache) (key : string) :
  NoDup (od_keys (cache self)) ->
  (forall v, od_lookup key (cache self) = Some v ->
     LRUCache_get key self =
       (Ok v, MkLRUCache (max_size self)
                (od_remove key (cache self) ++ [(key, v)])
                (incr_hits (stats self)))) /\
  (od_lookup key (cache self) = None ->
     LRUCache_get key self =
       (Ok VNone, MkLRUCache (max_size self) (cache self)
                    (incr_misses (stats self)))) /\
  (forall self2, LRUCache_init 2 = Ok self2 ->
     fst ((LRUCache_set "a" (VInt 1) ;;
           LRUCache_set "b" (VInt 2) ;;
           _ <- LRUCache_get "a" ;;
           LRUCache_set "c" (VInt 3) ;;
           a <- LRUCache_get "a" ;;
           c <- LRUCache_get "c" ;;
           b <- LRUCache_get "b" ;;
           ret (a, c, b)) self2)
     = Ok (VInt 1, VInt 3, VNone)).
Proof.
  intros Hnd. split; [|split].
  - intros v Hl. rewrite (LRUCache_get_hit _ _ _ Hl).
    rewrite od_setitem_fresh; [reflexivity|].
    now apply od_lookup_remove_eq.
  - apply LRUCache_get_miss.
  - intros self2 Hinit. injection Hinit as <-. reflexivity.
Qed.

Lemma lru_get_recency_witness :
  LRUCache_get "a"
    (MkLRUCache 2 [("a", VInt 1); ("b", VInt 2)] (MkLRUStats 0 0 0)) =
  (Ok (VInt 1),
   MkLRUCache 2 [("b", VInt 2); ("a", VInt 1)] (MkLRUStats 1 0 0)).
Proof.
  apply (lru_get_recency
           (MkLRUCache 2 [("a", VInt 1); ("b", VInt 2)] (MkLRUStats 0 0 0)) "a").
  - apply (bool_decide_unpack _). vm_compute. exact I.
  - reflexivity.
Defined.

(** ** Construction of the memory tier *)

(** C2, as the code has it. [LRUCache.__init__] checks nothing: for every
    [max_size], zero and negative ones too, it returns a cache with that
    [max_size], no entries and counters at zero. *)
Theorem LRUCache_init_accepts_any_capacity (n : Z) :
  exists self,
    LRUCache_init n = Ok self /\
    max_size self = n /\
    cache self = [] /\
    stats self = MkLRUStats 0 0 0.
Proof.
  eexists. split; [reflexivity|]. cbn. auto.
Qed.

(** C2 at capacities 0 and -1: the constructor returns a cache, it raises
    nothing. *)
Lemma LRUCache_init_zero_not_rejected :
  LRUCache_init 0 = Ok (MkLRUCache 0 [] (MkLRUStats 0 0 0)) /\
  LRUCache_init (-1) = Ok (MkLRUCache (-1) [] (MkLRUStats 0 0 0)) /\
  (forall e, LRUCache_init 0 <> Raise e).
Proof.
  split; [reflexivity|]. split; [reflexivity|]. intros e. discriminate.
Qed.

(** ** Counting lookups *)

Lemma wp_eq {S A} (m : M S A) (Q : result A -> S -> Prop) s r s' :
  m s = (r, s') -> Q r s' -> wp m Q s.
Proof. unfold wp. intros ->. exact (fun q => q). Qed.

Lemma wp_any {S A} (m : M S A) s : wp m (fun _ _ => True) s.
Proof. exact I. Qed.

Lemma wp_discard {S A} (m : M S A) (Q : result unit -> S -> Prop) s :
  wp m (fun r s' => match r with
                    | Ok _ => Q (Ok tt) s'
                    | Raise e => Q (Raise e) s'
                    end) s ->
  wp (discard m) Q s.
Proof.
  intros Hm. unfold discard. apply wp_bind.
  eapply wp_mono; [exact Hm|]. intros [a|e] s' Hq; [apply wp_ret|]; exact Hq.
Qed.

Lemma wp_snd {S A} (m : M S A) (P : S -> Prop) s :
  wp m (fun _ s' => P s') s -> P (snd (m s)).
Proof. exact (fun q => q). Qed.

Ltac wp_lru :=
  unfold LRUCache_get, LRUCache_set, LRUCache_delete, LRUCache_clear,
    LRUCache_size, LRUCache_get_stats, cache_pop, cache_popitem_first,
    cache_setitem.

(** [key in d] was true, so [pop] cannot have missed the key. *)
Ltac od_absurd :=
  match goal with
  | Hc : od_contains ?k ?d = true, Hl : od_lookup ?k ?d = None |- _ =>
      unfold od_contains in Hc; rewrite Hl in Hc; discriminate
  end.

(** [get] always returns; it keeps [max_size]. *)
Lemma LRUCache_get_total key self :
  exists v self',
    LRUCache_get key self = (Ok v, self') /\
    max_size self' = max_size self /\
    lru_lookups self' = S (lru_lookups self).
Proof.
  destruct (od_lookup key (cache self)) as [v|] eqn:Hk.
  - rewrite (LRUCache_get_hit _ _ _ Hk). eexists _, _.
    split; [reflexivity|]. split; reflexivity.
  - rewrite (LRUCache_get_miss _ _ Hk). eexists _, _.
    split; [reflexivity|]. unfold lru_lookups. cbn. split; [reflexivity | lia].
Qed.

(** With a capacity of at least 1, [set] always returns, and the key then
    holds the value. *)
Lemma LRUCache_set_total key v self :
  (1 <= max_size self)%Z ->
  exists self',
    LRUCache_set key v self = (Ok tt, self') /\
    max_size self' = max_size self /\
    lru_lookups self' = lru_lookups self /\
    od_lookup key (cache self') = Some v.
Proof.
  intros Hcap. destruct (od_lookup key (cache self)) as [w|] eqn:Hk.
  - rewrite (LRUCache_set_present _ _ _ _ Hk). eexists.
    split; [reflexivity|]. cbn. auto using od_lookup_setitem_eq.
  - destruct (Z.lt_ge_cases (Z.of_nat (length (cache self))) (max_size self))
      as [Hlt|Hge].
    + rewrite LRUCache_set_room by auto. eexists.
      split; [reflexivity|]. cbn. auto using od_lookup_setitem_eq.
    + destruct (cache self) as [|kv d] eqn:Hd; [cbn in Hge; lia|].
      rewrite (LRUCache_set_full _ _ _ kv d) by (auto; rewrite Hd; auto).
      eexists. split; [reflexivity|]. cbn. auto using od_lookup_setitem_eq.
Qed.

Lemma lru_call_lookups call self :
  max_size (snd (lru_call_run call self)) = max_size self /\
  lru_lookups (snd (lru_call_run call self)) =
    bump (is_lru_get call) (lru_lookups self).
Proof.
  apply (wp_snd (lru_call_run call)
           (fun s' => max_size s' = max_size self /\
                      lru_lookups s' = bump (is_lru_get call) (lru_lookups self))).
  destruct call; cbn [lru_call_run is_lru_get bump];
    try apply wp_discard; wp_lru; repeat wp_step;
    try od_absurd; unfold lru_lookups; cbn; split; auto; lia.
Qed.

Ltac wp_file :=
  unfold FileCache_get, FileCache_set, FileCache_delete, FileCache_clear,
    FileCache_cleanup_expired, FileCache_get_stats, _is_expired,
    pickle_load, pickle_dump.

Lemma file_kept_refl self : file_kept 0 self self.
Proof. repeat split. Qed.

Ltac file_kept_solve :=
  unfold file_kept, file_lookups, set_f_stats in *; cbn in *;
  intuition (try congruence; try lia).

(** A sweep over the directory keeps [file_kept]; so does what follows. *)
Ltac wp_sweep self :=
  lazymatch goal with
  | |- wp (for_each _ _) _ _ =>
      apply (wp_for_each (fun ls => file_kept 0 self (fst (snd ls))));
      [ apply file_kept_refl
      | let Hk := fresh "Hk" in
        intros ? [? [? ?]] _ Hk; cbn [fst snd] in Hk; wp_run; file_kept_solve
      | let Hk := fresh "Hk" in
        intros [? [? ?]] Hk; cbn [fst snd] in Hk; wp_run; file_kept_solve ]
  | |- _ => file_kept_solve
  end.

(** [get] on the disk tier always returns, and counts one lookup. *)
Lemma FileCache_get_total `{PyLib} key s :
  exists v s',
    FileCache_get key s = (Ok v, s') /\ file_kept 1 (fst s) (fst s').
Proof.
  apply wp_returns. destruct s as [self w].
  wp_file. wp_run; file_kept_solve.
Qed.

Lemma FileCache_set_kept `{PyLib} key v s :
  exists b s',
    FileCache_set key v s = (Ok b, s') /\ file_kept 0 (fst s) (fst s').
Proof.
  apply wp_returns. destruct s as [self w].
  wp_file. wp_run; file_kept_solve.
Qed.

Lemma FileCache_delete_kept `{PyLib} key s :
  exists b s',
    FileCache_delete key s = (Ok b, s') /\ file_kept 0 (fst s) (fst s').
Proof.
  apply wp_returns. destruct s as [self w].
  wp_file. wp_run; file_kept_solve.
Qed.

Lemma FileCache_clear_kept s :
  exists n s',
    FileCache_clear s = (Ok n, s') /\ file_kept 0 (fst s) (fst s').
Proof.
  apply wp_returns. destruct s as [self w].
  wp_file. wp_run; wp_sweep self.
Qed.

Lemma FileCache_cleanup_expired_kept s :
  exists n s',
    FileCache_cleanup_expired s = (Ok n, s') /\ file_kept 0 (fst s) (fst s').
Proof.
  apply wp_returns. destruct s as [self w].
  wp_file. wp_run; wp_sweep self.
Qed.

Lemma FileCache_get_stats_kept s :
  exists r s',
    FileCache_get_stats s = (Ok r, s') /\ file_kept 0 (fst s) (fst s').
Proof.
  apply wp_returns. destruct s as [self w].
  wp_file. wp_run; wp_sweep self.
Qed.

Lemma file_call_lookups `{PyLib} call s :
  file_kept (bump (is_file_get call) 0) (fst s) (fst (snd (file_call_run call s))).
Proof.
  destruct call as [key|key v|key| | | |f];
    cbn [file_call_run is_file_get bump]; unfold discard, bind.
  - destruct (FileCache_get_total key s) as (v & s' & -> & Hk). exact Hk.
  - destruct (FileCache_set_kept key v s) as (b & s' & -> & Hk). exact Hk.
  - destruct (FileCache_delete_kept key s) as (b & s' & -> & Hk). exact Hk.
  - destruct (FileCache_clear_kept s) as (n & s' & -> & Hk). exact Hk.
  - destruct (FileCache_cleanup_expired_kept s) as (n & s' & -> & Hk). exact Hk.
  - destruct (FileCache_get_stats_kept s) as (r & s' & -> & Hk). exact Hk.
  - destruct s as [self w]. apply file_kept_refl.
Qed.

Lemma lru_calls_lookups calls self :
  max_size (lru_calls calls self) = max_size self /\
  lru_lookups (lru_calls calls self) = (lru_gets calls + lru_lookups self)%nat.
Proof.
  revert self. induction calls as [|c calls IH]; intros self;
    [split; reflexivity|].
  unfold lru_calls, lru_gets in *. cbn [fold_left List.filter].
  destruct (IH (snd (lru_call_run c self))) as [-> ->].
  destruct (lru_call_lookups c self) as [-> ->].
  split; [reflexivity|].
  destruct (is_lru_get c); cbn [bump length]; lia.
Qed.

Lemma file_calls_lookups `{PyLib} calls s :
  file_lookups (fst (file_calls calls s)) =
    (file_gets calls + file_lookups (fst s))%nat.
Proof.
  revert s. induction calls as [|c calls IH]; intros s; [reflexivity|].
  unfold file_calls, file_gets in *. cbn [fold_left List.filter].
  rewrite IH. destruct (file_call_lookups c s) as (_ & _ & ->).
  destruct (is_file_get c); cbn [bump length]; lia.
Qed.

Ltac query_kept_solve :=
  unfold query_kept, query_lookups, set_q_stats in *; cbn in *;
  intuition (try congruence; try lia).

Ltac wp_query :=
  unfold QueryCache_get, QueryCache_set, QueryCache_invalidate_pattern,
    QueryCache_get_stats, on_memory_cache, on_file_cache.

(** With a memory tier of capacity at least 1, [get] on the orchestrator
    always returns and counts one lookup. *)
Lemma QueryCache_get_total `{PyLib} query params s :
  (1 <= max_size (memory_cache (fst s)))%Z ->
  exists v s',
    QueryCache_get query params s = (Ok v, s') /\
    query_kept 1 (fst s) (fst s').
Proof.
  intros Hcap. apply wp_returns. destruct s as [self w]. cbn [fst] in Hcap.
  wp_query. wp_step. wp_enter.
  destruct (LRUCache_get_total (_generate_cache_key query params)
              (memory_cache self)) as (v & m' & Hget & Hmax & _).
  eapply wp_eq; [exact Hget|]. wp_red.
  wp_step; [wp_run; query_kept_solve|].
  wp_step. wp_enter.
  destruct (FileCache_get_total (_generate_cache_key query params)
              (file_cache self, w)) as (v' & [f' w'] & Hfget & _).
  eapply wp_eq; [exact Hfget|]. wp_red.
  wp_step; [|wp_run; query_kept_solve].
  wp_step. wp_enter.
  destruct (LRUCache_set_total (_generate_cache_key query params) v' m')
    as (m'' & Hset & Hmax' & _); [lia|].
  eapply wp_eq; [exact Hset|]. wp_red.
  wp_run; query_kept_solve.
Qed.

Lemma wp_frame {S A} (m : M S A) (P : S -> Prop) (Q : result A -> S -> Prop) s :
  P (snd (m s)) -> (forall r s', P s' -> Q r s') -> wp m Q s.
Proof. unfold wp. auto. Qed.

(** A call on the disk tier, whatever it does there. *)
Ltac wp_skip_file :=
  eapply wp_mono; [apply wp_any|];
  let r := fresh "r" in intros r [? ?] _; destruct r; wp_red.

(** A call on the memory tier, which keeps [max_size]. *)
Ltac wp_skip_memory lem :=
  lazymatch goal with
  | |- wp ?m _ ?s =>
      apply (wp_frame m (fun s' => max_size s' = max_size s)); [exact lem|]
  end;
  let r := fresh "r" in
  let Hm := fresh "Hm" in intros r ? Hm; destruct r; wp_red.

Lemma LRUCache_set_max_size key v self :
  max_size (snd (LRUCache_set key v self)) = max_size self.
Proof. exact (proj1 (lru_call_lookups (CallSet key v) self)). Qed.

Lemma LRUCache_clear_max_size self :
  max_size (snd (LRUCache_clear self)) = max_size self.
Proof. reflexivity. Qed.

Lemma LRUCache_get_stats_max_size self :
  max_size (snd (LRUCache_get_stats self)) = max_size self.
Proof. reflexivity. Qed.

Lemma query_call_lookups `{PyLib} call s :
  (1 <= max_size (memory_cache (fst s)))%Z ->
  query_kept (bump (is_query_get call) 0) (fst s)
    (fst (snd (query_call_run call s))).
Proof.
  intros Hcap.
  destruct call as [query params|query params v|table| |c|c];
    cbn [query_call_run is_query_get bump].
  - unfold discard, bind.
    destruct (QueryCache_get_total query params s Hcap) as (v & s' & -> & Hk).
    exact Hk.
  - apply (wp_snd (QueryCache_set query params v)
             (fun s' => query_kept 0 (fst s) (fst s'))).
    destruct s as [self w]. wp_query. wp_step. wp_enter.
    wp_skip_memory (LRUCache_set_max_size (_generate_cache_key query params)
                      v (memory_cache self)); [|query_kept_solve].
    wp_step. wp_enter. wp_skip_file; wp_run; query_kept_solve.
  - apply (wp_snd (discard (QueryCache_invalidate_pattern table))
             (fun s' => query_kept 0 (fst s) (fst s'))).
    destruct s as [self w]. apply wp_discard. wp_query.
    wp_step. wp_step. wp_enter.
    wp_skip_memory (LRUCache_clear_max_size (memory_cache self));
      [|query_kept_solve].
    wp_step. wp_enter. wp_skip_file; wp_run; query_kept_solve.
  - apply (wp_snd (discard QueryCache_get_stats)
             (fun s' => query_kept 0 (fst s) (fst s'))).
    destruct s as [self w]. apply wp_discard. wp_query.
    wp_step. wp_enter. wp_step. wp_step. wp_enter.
    wp_skip_memory (LRUCache_get_stats_max_size (memory_cache self));
      [|query_kept_solve].
    wp_step. wp_enter. wp_skip_file; wp_run; query_kept_solve.
  - apply (wp_snd (on_memory_cache (lru_call_run c))
             (fun s' => query_kept 0 (fst s) (fst s'))).
    destruct s as [self w]. wp_query. wp_enter.
    wp_skip_memory (proj1 (lru_call_lookups c (memory_cache self)));
      query_kept_solve.
  - apply (wp_snd (on_file_cache (file_call_run c))
             (fun s' => query_kept 0 (fst s) (fst s'))).
    destruct s as [self w]. wp_query. wp_enter.
    wp_skip_file; query_kept_solve.
Qed.

Lemma query_calls_lookups `{PyLib} calls s :
  (1 <= max_size (memory_cache (fst s)))%Z ->
  query_lookups (fst (query_calls calls s)) =
    (query_gets calls + query_lookups (fst s))%nat.
Proof.
  revert s. induction calls as [|c calls IH]; intros s Hcap; [reflexivity|].
  unfold query_calls, query_gets in *. cbn [fold_left List.filter].
  destruct (query_call_lookups c s Hcap) as [Hmax Hl].
  rewrite IH by (rewrite Hmax; exact Hcap). rewrite Hl.
  destruct (is_query_get c); cbn [bump length]; lia.
Qed.

(** ** The statistics invariant *)

(** C7, as the code has it. From construction on, after any sequence of
    calls, a tier's [hits + misses] is the number of [get] calls it was
    given: so for the memory tier, and so for the disk tier whatever
    happens to the disk between the calls.  For the orchestrator,
    [memory_hits + file_hits + misses] is the number of its [get] calls
    when its memory tier has a capacity of at least 1, also when its two
    tiers are used directly in between. *)
Theorem stats_count_every_get `{PyLib} :
  (forall n self0 calls,
     LRUCache_init n = Ok self0 ->
     let self := lru_calls calls self0 in
     (hits (stats self) + misses (stats self))%nat = lru_gets calls) /\
  (forall cache_dir max_age w0 self0 w calls,
     FileCache_init cache_dir max_age w0 = (Ok self0, w) ->
     let self := fst (file_calls calls (self0, w)) in
     (f_hits (f_stats self) + f_misses (f_stats self))%nat = file_gets calls) /\
  (forall memory_cache file_cache w calls,
     (1 <= max_size memory_cache)%Z ->
     let self :=
       fst (query_calls calls (QueryCache_init memory_cache file_cache, w)) in
     (memory_hits (q_stats self) + file_hits (q_stats self)
      + q_misses (q_stats self))%nat = query_gets calls).
Proof.
  split; [|split].
  - intros n self0 calls Hinit self. injection Hinit as <-.
    destruct (lru_calls_lookups calls (MkLRUCache n [] (MkLRUStats 0 0 0)))
      as [_ Hl].
    unfold lru_lookups in Hl. cbn in Hl. subst self. lia.
  - intros d max_age w0 self0 w calls Hinit self.
    pose proof (file_calls_lookups calls (self0, w)) as Hl.
    assert (Hzero : file_lookups self0 = 0%nat).
    { revert Hinit. unfold FileCache_init, os_makedirs, syscall_check,
        bind, gets, raise, ret.
      destruct (w_fault w0 (SysMakedirs d)); [discriminate|].
      intros [= <- <-]. reflexivity. }
    cbn [fst] in Hl. rewrite Hzero in Hl. unfold file_lookups in Hl.
    subst self. lia.
  - intros m f w calls Hcap self.
    pose proof (query_calls_lookups calls (QueryCache_init m f, w) Hcap) as Hl.
    unfold query_lookups in Hl. cbn in Hl. subst self. cbn. lia.
Qed.

(** C7 with a memory tier of capacity 0, which [LRUCache.__init__]
    accepts, and a disk tier that holds a value for the key: the one [get]
    on the orchestrator finds the value on the disk and raises [KeyError]
    when it writes it into the memory tier, before any of its counters
    moves.  One [get] was issued and [memory_hits + file_hits + misses] is
    still 0, while each tier has counted its own lookup. *)
Lemma get_raising_is_not_counted :
  LRUCache_init 0 = Ok zero_memory_cache /\
  fst (@QueryCache_get sample_lib "q" [] (zero_query_cache, rows_world)) =
    Raise KeyError /\
  query_gets [QGet "q" []] = 1%nat /\
  q_stats (fst (@query_calls sample_lib [QGet "q" []]
                  (zero_query_cache, rows_world))) = MkQueryStats 0 0 0 0 /\
  stats (memory_cache (fst (@query_calls sample_lib [QGet "q" []]
                              (zero_query_cache, rows_world)))) =
    MkLRUStats 0 1 0 /\
  f_stats (file_cache (fst (@query_calls sample_lib [QGet "q" []]
                              (zero_query_cache, rows_world)))) =
    MkFileStats 1 0 0 0.
Proof. vm_compute. repeat split. Qed.

Lemma stats_count_every_get_witness :
  let self :=
    fst (@query_calls sample_lib
           [QGet "q" []; QSet "q" [] (VStr "r"); QGet "q" []]
           (sample_query_cache, empty_world)) in
  (memory_hits (q_stats self) + file_hits (q_stats self)
   + q_misses (q_stats self))%nat = 2%nat.
Proof.
  apply (proj2 (proj2 (@stats_count_every_get sample_lib))
           sample_memory_cache sample_file_cache empty_world
           [QGet "q" []; QSet "q" [] (VStr "r"); QGet "q" []]).
  cbn. lia.
Defined.

(** ** The disk tier: expiry *)

Lemma wp_returns_value {S A} (m : M S A) (a : A) (P : S -> Prop) s :
  wp m (fun r s' => r = Ok a /\ P s') s ->
  exists s', m s = (Ok a, s') /\ P s'.
Proof.
  unfold wp. destruct (m s) as [r s']. cbn. intros [-> HP]. eauto.
Qed.

Lemma wp_equation {S A} (m : M S A) (x : result A * S) s :
  wp m (fun r s' => (r, s') = x) s -> m s = x.
Proof. unfold wp. destruct (m s). exact (fun q => q). Qed.

(** Run a method, using the facts [tac] knows about the state. *)
Ltac wp_run_with tac := repeat (wp_os; try tac; wp_step).

(** A file that is there, young enough, readable and a pickle: a hit. *)
Lemma FileCache_get_fresh `{PyLib} (self : FileCache) (w : World)
    (key : string) (f : File) (v : pyval) :
  w_files w !! _get_cache_path self key = Some f ->
  float_gt_int (w_clock w - f_mtime f) (max_age_seconds self) = false ->
  w_fault w (SysGetmtime (_get_cache_path self key)) = false ->
  w_fault w (SysOpenRead (_get_cache_path self key)) = false ->
  pickle_loads (f_data f) = Some v ->
  FileCache_get key (self, w) = (Ok v, (set_f_stats incr_f_hits self, w)).
Proof.
  intros Hf Hfresh Hmtime Hread Hv.
  apply wp_equation. wp_file.
  wp_run_with ltac:(rewrite ?Hf, ?Hfresh, ?Hmtime, ?Hread, ?Hv);
    try discriminate.
  reflexivity.
Qed.

(** Whatever [get] on the disk tier returns other than [None] is the
    unpickled content of the key's file. *)
Lemma FileCache_get_cases `{PyLib} (self : FileCache) (w : World)
    (key : string) :
  exists v s',
    FileCache_get key (self, w) = (Ok v, s') /\
    (v = VNone \/
     exists f, w_files w !! _get_cache_path self key = Some f /\
               pickle_loads (f_data f) = Some v).
Proof.
  apply wp_returns. wp_file. wp_run; eauto.
Qed.

(** C8. [get] on the disk tier is a miss when there is no file for the key,
    and when the file's age exceeds [max_age_seconds]
    ([now - mtime > max_age_seconds], the age being the difference of the
    two floats as the machine computes it, compared with the integer as
    Python does); in the second case the file is removed by this call
    ([os.remove] working), so it no longer exists afterwards.  When the
    file is there and its age does not exceed [max_age_seconds], and it
    can be read and unpickled, [get] returns the value unpickled and
    counts a hit, leaving the disk as it was. *)
Theorem disk_get_expiry `{PyLib} (self : FileCache) (w : World) (key : string) :
  let cache_path := _get_cache_path self key in
  (w_files w !! cache_path = None ->
     exists s',
       FileCache_get key (self, w) = (Ok VNone, s') /\
       f_misses (f_stats (fst s')) = S (f_misses (f_stats self)) /\
       f_hits (f_stats (fst s')) = f_hits (f_stats self) /\
       w_files (snd s') = w_files w) /\
  (forall f,
     w_files w !! cache_path = Some f ->
     float_gt_int (w_clock w - f_mtime f) (max_age_seconds self) = true ->
     exists s',
       FileCache_get key (self, w) = (Ok VNone, s') /\
       f_misses (f_stats (fst s')) = S (f_misses (f_stats self)) /\
       f_hits (f_stats (fst s')) = f_hits (f_stats self) /\
       (w_fault w (SysRemove cache_path) = false ->
        w_files (snd s') = delete cache_path (w_files w) /\
        w_files (snd s') !! cache_path = None)) /\
  (forall f v,
     w_files w !! cache_path = Some f ->
     float_gt_int (w_clock w - f_mtime f) (max_age_seconds self) = false ->
     w_fault w (SysGetmtime cache_path) = false ->
     w_fault w (SysOpenRead cache_path) = false ->
     pickle_loads (f_data f) = Some v ->
     FileCache_get key (self, w) = (Ok v, (set_f_stats incr_f_hits self, w))).
Proof.
  intros cache_path. subst cache_path. split; [|split].
  - intros Hno. apply wp_returns_value. wp_file.
    wp_run_with ltac:(rewrite ?Hno); try discriminate.
    cbn. auto.
  - intros f Hf Hold.
    apply wp_returns_value. wp_file.
    wp_run_with ltac:(rewrite ?Hf, ?Hold); try discriminate; cbn.
    all: repeat split; auto; try congruence.
    all: try apply lookup_delete_eq.
  - intros f v. apply FileCache_get_fresh.
Qed.

Lemma disk_get_expiry_witness :
  exists s',
    @FileCache_get sample_lib "k" (ttl_file_cache, ttl_world 1.5) =
      (Ok VNone, s') /\
    w_files (snd s') !! ("/c", "k.cache") = None.
Proof.
  destruct (proj1 (proj2 (@disk_get_expiry sample_lib ttl_file_cache
                            (ttl_world 1.5) "k"))
              (MkFile (Byte.x53 :: String.list_byte_of_string "v") 0))
    as (s' & Hrun & _ & _ & Hgone).
  - reflexivity.
  - reflexivity.
  - exists s'. split; [exact Hrun|]. apply Hgone. reflexivity.
Defined.

(** The scenario of the expiry test: a value written at time 0 with
    [max_age_seconds = 1] is read back at once, and is gone 1.5 s later. *)
Example disk_ttl_scenario :
  let s0 := (ttl_file_cache, MkWorld ∅ (fun _ => false) 0 []) in
  let '(stored, s1) := @FileCache_set sample_lib "k" (VStr "v") s0 in
  let '(early, s2) := @FileCache_get sample_lib "k" s1 in
  let s3 := (fst s2, MkWorld (w_files (snd s2)) (fun _ => false) 1.5 []) in
  let '(late, s4) := @FileCache_get sample_lib "k" s3 in
  stored = Ok true /\ early = Ok (VStr "v") /\ late = Ok VNone /\
  w_files (snd s2) !! ("/c", "k.cache") <> None /\
  w_files (snd s4) !! ("/c", "k.cache") = None.
Proof. vm_compute. repeat split. discriminate. Qed.

(** The age is a rounded difference. A file written at 0.1 and read at 1.1
    (the nearest doubles, [mtime] and [now] below) with a maximal age of
    1 second: the exact difference of the two doubles is greater than 1 by
    [6 * 2^-56], the difference the machine computes is 1, and the file is
    served. *)
Example disk_age_is_rounded :
  Prim2SF 0x1.199999999999ap+0 = S754_finite false 4953959590107546 (-52) /\
  Prim2SF 0x1.999999999999ap-4 = S754_finite false 7205759403792794 (-56) /\
  (1 * 2 ^ 56 < 4953959590107546 * 2 ^ 4 - 7205759403792794)%Z /\
  (0x1.199999999999ap+0 - 0x1.999999999999ap-4)%float = 1%float /\
  @FileCache_get sample_lib "k"
    (ttl_file_cache,
     MkWorld {[ ("/c", "k.cache") :=
                  MkFile (Byte.x53 :: String.list_byte_of_string "v")
                    0x1.999999999999ap-4 ]}
             (fun _ => false) 0x1.199999999999ap+0 []) =
    (Ok (VStr "v"),
     (MkFileCache "/c" 1 (MkFileStats 1 0 0 0),
      MkWorld {[ ("/c", "k.cache") :=
                   MkFile (Byte.x53 :: String.list_byte_of_string "v")
                     0x1.999999999999ap-4 ]}
              (fun _ => false) 0x1.199999999999ap+0 [])).
Proof. vm_compute. repeat split. Qed.

(** ** Clearing the disk tier *)

Lemma elem_of_dir_names (d name : string) (fs : gmap path File) :
  name ∈ dir_names d fs <-> is_Some (fs !! (d, name)).
Proof.
  unfold dir_names. rewrite list_elem_of_fmap. split.
  - intros ([d' n] & -> & Hin). apply list_elem_of_filter in Hin as [Hd Hin].
    cbn in Hd. subst d'. apply list_elem_of_fmap in Hin as ([p f] & Hp & Hin).
    cbn in Hp. subst p. apply elem_of_map_to_list in Hin. cbn. eauto.
  - intros [f Hf]. exists (d, name). split; [reflexivity|].
    apply list_elem_of_filter. split; [reflexivity|].
    apply list_elem_of_fmap. exists ((d, name), f). split; [reflexivity|].
    now apply elem_of_map_to_list.
Qed.

Lemma NoDup_dir_names (d : string) (fs : gmap path File) :
  NoDup (dir_names d fs).
Proof.
  unfold dir_names. apply NoDup_fmap_2_strong.
  - intros [d1 n1] [d2 n2] H1 H2 Heq.
    apply list_elem_of_filter in H1 as [H1 _].
    apply list_elem_of_filter in H2 as [H2 _]. cbn in *. congruence.
  - apply NoDup_filter, NoDup_fst_map_to_list.
Qed.

Lemma lookup_remove_files_None (d : string) (names : list string)
    (fs : gmap path File) (p : path) :
  fs !! p = None -> remove_files d names fs !! p = None.
Proof.
  revert fs. induction names as [|x names IH]; intros fs Hp; [exact Hp|].
  cbn. apply IH. unfold os_path_join.
  destruct (decide ((d, x) = p)) as [->|Hne].
  - apply lookup_delete_eq.
  - now rewrite lookup_delete_ne.
Qed.

Lemma lookup_remove_files_in (d : string) (names : list string)
    (fs : gmap path File) (name : string) :
  name ∈ names -> remove_files d names fs !! (d, name) = None.
Proof.
  revert fs. induction names as [|x names IH]; intros fs Hin;
    [now apply elem_of_nil in Hin|].
  cbn. apply elem_of_cons in Hin as [->|Hin]; [|now apply IH].
  apply lookup_remove_files_None, lookup_delete_eq.
Qed.

Lemma list_filter_elem {A} (f : A -> bool) (l : list A) (x : A) :
  x ∈ List.filter f l <-> x ∈ l /\ f x = true.
Proof. rewrite !list_elem_of_In. apply List.filter_In. Qed.

(** The sweep of [clear], when the files listed are there and can be
    removed: each cache file is removed and counted. *)
Lemma clear_sweep (d : string) (names : list string) (n0 : nat)
    (self : FileCache) (w : World) :
  NoDup names ->
  (forall name, name ∈ names -> endswith name ".cache" = true ->
     is_Some (w_files w !! (d, name)) /\
     w_fault w (SysRemove (d, name)) = false) ->
  let doomed := List.filter (fun name => endswith name ".cache") names in
  for_each names (fun filename =>
      if endswith filename ".cache" then
        let file_path := os_path_join d filename in
        on_outer (on_world (os_remove file_path)) ;;
        on_local (modify S) ;;
        on_outer (on_self (modify (set_f_stats incr_deletes)))
      else ret tt)
    (n0, (self, w)) =
  (Ok tt, ((length doomed + n0)%nat,
           (Nat.iter (length doomed) (set_f_stats incr_deletes) self,
            set_files (remove_files d doomed) w))).
Proof.
  revert n0 self w. induction names as [|x names IH];
    intros n0 self w Hnd Hok doomed; subst doomed.
  - cbn. now destruct w.
  - apply NoDup_cons in Hnd as [Hx Hnd]. cbn [for_each List.filter].
    destruct (endswith x ".cache") eqn:Hsuffix.
    + destruct (Hok x) as [[f Hf] Hfault]; [left | exact Hsuffix |].
      unfold bind at 1.
      assert (Hstep :
        (on_outer (on_world (os_remove (os_path_join d x))) ;;
         on_local (modify S) ;;
         on_outer (on_self (modify (set_f_stats incr_deletes))))
          (n0, (self, w)) =
        (Ok tt, (S n0, (set_f_stats incr_deletes self,
                        set_files (delete (d, x)) w)))).
      { apply wp_equation. unfold os_path_join.
        wp_run_with ltac:(rewrite ?Hf, ?Hfault); try discriminate.
        reflexivity. }
      rewrite Hstep. rewrite IH; [| exact Hnd |].
      * cbn [length fold_left remove_files]. f_equal. f_equal; [lia|].
        f_equal. symmetry. apply Nat.iter_succ_r.
      * intros name Hin Hs. destruct (Hok name) as [Hsome Hfl];
          [now right | exact Hs |].
        split; [|exact Hfl]. cbn. rewrite lookup_delete_ne; [exact Hsome|].
        intros [= ->]. contradiction.
    + unfold bind at 1. cbn [ret]. apply IH; [exact Hnd|].
      intros name Hin Hs. apply Hok; [now right | exact Hs].
Qed.

(** [clear] on a disk whose listing and removals work: every cache file of
    the directory is removed, and the number of them is returned. *)
Lemma FileCache_clear_healthy (self : FileCache) (w : World) :
  w_fault w (SysListdir (cache_dir self)) = false ->
  (forall name, w_fault w (SysRemove (cache_dir self, name)) = false) ->
  let doomed := cache_files (cache_dir self) (w_files w) in
  FileCache_clear (self, w) =
    (Ok (length doomed),
     (Nat.iter (length doomed) (set_f_stats incr_deletes) self,
      set_files (remove_files (cache_dir self) doomed) w)).
Proof.
  intros Hlist Hremove doomed. subst doomed.
  apply wp_equation. wp_file.
  wp_run_with ltac:(rewrite ?Hlist); try discriminate.
  eapply wp_eq.
  { apply clear_sweep; [apply NoDup_dir_names|].
    intros name Hin _. split; [now apply elem_of_dir_names | apply Hremove]. }
  wp_run. unfold cache_files. now rewrite Nat.add_0_r.
Qed.

Lemma substring_whole (s : string) :
  String.substring 0 (String.length s) s = s.
Proof. induction s as [|c s IH]; cbn; [reflexivity | now rewrite IH]. Qed.

Lemma endswith_append (h suffix : string) :
  endswith (h +:+ suffix) suffix = true.
Proof.
  unfold endswith.
  assert (Hlen : String.length (h +:+ suffix) =
                 (String.length h + String.length suffix)%nat).
  { induction h as [|c h IH]; [reflexivity|].
    cbn [String.length Nat.add]. rewrite <- IH. reflexivity. }
  rewrite Hlen. apply andb_true_intro. split; [apply Nat.leb_le; lia|].
  replace (String.length h + String.length suffix - String.length suffix)%nat
    with (String.length h) by lia.
  apply String.eqb_eq. clear Hlen.
  induction h as [|c h IH]; [apply substring_whole | exact IH].
Qed.

(** What [invalidate_pattern] does, given what [clear] does on the disk
    tier: the label goes to the log and nowhere else. *)
Lemma invalidate_pattern_run (table_name : string) (self : QueryCache)
    (w : World) n f' w' :
  FileCache_clear (file_cache self, w) = (Ok n, (f', w')) ->
  QueryCache_invalidate_pattern table_name (self, w) =
    (Ok n,
     (MkQueryCache
        (MkLRUCache (max_size (memory_cache self)) []
           (stats (memory_cache self)))
        f' (q_stats self),
      set_log (fun l => l ++ [LogInvalidated table_name n]) w')).
Proof.
  intros Hclear. apply wp_equation. wp_query. wp_lru.
  wp_step. wp_step. wp_enter. wp_step. wp_step. wp_enter.
  eapply wp_eq; [exact Hclear|]. wp_red.
  wp_run. reflexivity.
Qed.

(** ** Invalidation *)

(** C9. [invalidate_pattern] never looks at its label: run from the same
    state with two labels, it returns the same count and leaves the same
    orchestrator and the same disk; only the line written to the log names
    the label.  The memory tier is empty afterwards.  When listing the
    directory and removing its files work, the disk tier is empty too: no
    cache file is left in the directory, so no key has a file, and the
    count returned is the number of cache files there were. *)
Theorem invalidate_pattern_clears_everything `{PyLib}
    (self : QueryCache) (w : World) :
  (forall t1 t2 : string,
     exists n self' w',
       QueryCache_invalidate_pattern t1 (self, w) =
         (Ok n, (self', set_log (fun l => l ++ [LogInvalidated t1 n]) w')) /\
       QueryCache_invalidate_pattern t2 (self, w) =
         (Ok n, (self', set_log (fun l => l ++ [LogInvalidated t2 n]) w')) /\
       cache (memory_cache self') = []) /\
  (w_fault w (SysListdir (cache_dir (file_cache self))) = false ->
   (forall name,
      w_fault w (SysRemove (cache_dir (file_cache self), name)) = false) ->
   forall table_name : string,
     exists s',
       QueryCache_invalidate_pattern table_name (self, w) =
         (Ok (length (cache_files (cache_dir (file_cache self)) (w_files w))),
          s') /\
       cache (memory_cache (fst s')) = [] /\
       (forall name, endswith name ".cache" = true ->
          w_files (snd s') !! (cache_dir (file_cache self), name) = None) /\
       (forall key,
          w_files (snd s') !! _get_cache_path (file_cache (fst s')) key
            = None)).
Proof.
  split.
  - intros t1 t2.
    destruct (FileCache_clear_kept (file_cache self, w))
      as (n & [f' w'] & Hclear & _).
    exists n. eexists _, w'.
    rewrite !(invalidate_pattern_run _ _ _ _ _ _ Hclear).
    repeat split.
  - intros Hlist Hremove table_name.
    pose proof (FileCache_clear_healthy (file_cache self) w Hlist Hremove)
      as Hclear. cbn zeta in Hclear.
    rewrite (invalidate_pattern_run _ _ _ _ _ _ Hclear).
    eexists. split; [reflexivity|]. cbn [fst snd memory_cache cache].
    assert (Hgone : forall name, endswith name ".cache" = true ->
              remove_files (cache_dir (file_cache self))
                (cache_files (cache_dir (file_cache self)) (w_files w))
                (w_files w) !! (cache_dir (file_cache self), name) = None).
    { intros name Hs.
      destruct (w_files w !! (cache_dir (file_cache self), name)) as [f|] eqn:Hf.
      - apply lookup_remove_files_in. apply list_filter_elem.
        split; [apply elem_of_dir_names; eauto | exact Hs].
      - now apply lookup_remove_files_None. }
    split; [reflexivity|]. split; [exact Hgone|].
    intros key. unfold _get_cache_path, os_path_join.
    cbn [file_cache]. 
    replace (cache_dir (Nat.iter _ (set_f_stats incr_deletes) (file_cache self)))
      with (cache_dir (file_cache self)).
    + apply Hgone, endswith_append.
    + generalize (length (cache_files (cache_dir (file_cache self)) (w_files w))).
      intros c. induction c as [|c IH]; [reflexivity|].
      cbn [Nat.iter]. exact IH.
Qed.

Lemma invalidate_pattern_clears_everything_witness :
  exists s',
    QueryCache_invalidate_pattern "movies" (sample_query_cache, ttl_world 0) =
      (Ok 1%nat, s') /\
    w_files (snd s') !! ("/c", "k.cache") = None.
Proof.
  destruct (proj2 (@invalidate_pattern_clears_everything sample_lib
                     sample_query_cache (ttl_world 0))
              eq_refl (fun _ => eq_refl) "movies")
    as (s' & Hrun & _ & Hgone & _).
  exists s'. split; [exact Hrun|]. apply Hgone. reflexivity.
Defined.

(** ** The orchestrator: writes *)

(** A write the disk refuses (at [open] or while writing), or a value
    [pickle] refuses: [set] on the disk tier logs the error and returns
    [False]. *)
Lemma FileCache_set_fails `{PyLib} (self : FileCache) (w : World)
    (key : string) (value : pyval) :
  w_fault w (SysOpenWrite (_get_cache_path self key)) = true \/
  pickle_dumps value = None \/
  w_fault w (SysWrite (_get_cache_path self key)) = true ->
  exists e w',
    FileCache_set key value (self, w) = (Ok false, (self, w')) /\
    w_log w' = w_log w ++ [LogSetFailed key e].
Proof.
  intros Hfail.
  destruct (w_fault w (SysOpenWrite (_get_cache_path self key))) eqn:Hopen.
  - exists OSError. eexists. split.
    + apply wp_equation. wp_file.
      wp_run_with ltac:(rewrite ?Hopen); try discriminate. reflexivity.
    + reflexivity.
  - destruct (pickle_dumps value) as [data|] eqn:Hdump.
    + destruct Hfail as [Hfail|[Hfail|Hwrite]]; try discriminate.
      exists OSError. eexists. split.
      * apply wp_equation. wp_file.
        wp_run_with ltac:(rewrite ?Hopen, ?Hdump); try discriminate.
        -- reflexivity.
        -- cbn [w_fault set_files] in *. congruence.
      * reflexivity.
    + exists PicklingError. eexists. split.
      * apply wp_equation. wp_file.
        wp_run_with ltac:(rewrite ?Hopen, ?Hdump); try discriminate.
        reflexivity.
      * reflexivity.
Qed.

(** C3, as the code has it. With a memory tier of capacity at least 1:
    when the write to the disk tier fails (the file cannot be opened for
    writing, the value cannot be pickled, or writing the bytes fails),
    [FileCache.set] returns [False], and [set] on the orchestrator still
    returns normally; the memory tier then holds the value for the key,
    and a [get] on it returns the value.  The failure is logged, no write
    is counted by the disk tier and the store is counted. *)
Theorem set_survives_disk_failure `{PyLib} (self : QueryCache) (w : World)
    (query : string) (params : list pyval) (value : pyval) :
  let cache_key := _generate_cache_key query params in
  let cache_path := _get_cache_path (file_cache self) cache_key in
  (1 <= max_size (memory_cache self))%Z ->
  w_fault w (SysOpenWrite cache_path) = true \/
  pickle_dumps value = None \/
  w_fault w (SysWrite cache_path) = true ->
  fst (FileCache_set cache_key value (file_cache self, w)) = Ok false /\
  exists s',
    QueryCache_set query params value (self, w) = (Ok tt, s') /\
    od_lookup cache_key (cache (memory_cache (fst s'))) = Some value /\
    fst (LRUCache_get cache_key (memory_cache (fst s'))) = Ok value /\
    file_cache (fst s') = file_cache self /\
    stores (q_stats (fst s')) = S (stores (q_stats self)) /\
    exists e, w_log (snd s') = w_log w ++ [LogSetFailed cache_key e].
Proof.
  intros cache_key cache_path Hcap Hfail. subst cache_path.
  destruct (FileCache_set_fails (file_cache self) w cache_key value Hfail)
    as (e & w' & Hfset & Hlog).
  split; [now rewrite Hfset|].
  destruct (LRUCache_set_total cache_key value (memory_cache self) Hcap)
    as (m' & Hset & _ & _ & Hheld).
  exists (MkQueryCache m' (file_cache self) (incr_stores (q_stats self)), w').
  split.
  - apply wp_equation. wp_query. fold cache_key.
    wp_step. wp_enter. eapply wp_eq; [exact Hset|]. wp_red.
    wp_step. wp_enter. eapply wp_eq; [exact Hfset|]. wp_red.
    wp_run. reflexivity.
  - cbn [fst snd memory_cache file_cache q_stats stores incr_stores].
    split; [exact Hheld|]. split; [|eauto].
    now rewrite (LRUCache_get_hit _ _ _ Hheld).
Qed.

Lemma set_survives_disk_failure_witness :
  exists s',
    @QueryCache_set sample_lib "q" [] (VStr "rows")
      (sample_query_cache, read_only_world) = (Ok tt, s') /\
    fst (LRUCache_get "query:q:()" (memory_cache (fst s'))) = Ok (VStr "rows").
Proof.
  destruct (@set_survives_disk_failure sample_lib sample_query_cache
              read_only_world "q" [] (VStr "rows"))
    as (_ & s' & Hrun & _ & Hget & _).
  - cbn. lia.
  - left. reflexivity.
  - exists s'. split; [exact Hrun | exact Hget].
Defined.

(** C3 with a memory tier of capacity 0, which [LRUCache.__init__]
    accepts, on the disk mounted read-only (where [FileCache.set] fails and
    returns [False]): [set] on the orchestrator raises [KeyError] to its
    caller, from [popitem] on the empty dictionary of the memory tier; the
    disk tier is not reached, nothing is stored and no store is counted. *)
Lemma set_raises_at_capacity_zero :
  LRUCache_init 0 = Ok zero_memory_cache /\
  fst (@FileCache_set sample_lib "query:q:()" (VStr "rows")
         (sample_file_cache, read_only_world)) = Ok false /\
  @QueryCache_set sample_lib "q" [] (VStr "rows")
    (zero_query_cache, read_only_world) =
    (Raise KeyError, (zero_query_cache, read_only_world)) /\
  fst (LRUCache_get "query:q:()" (memory_cache zero_query_cache)) = Ok VNone.
Proof. vm_compute. repeat split. Qed.

(** ** The orchestrator: reads *)

(** C4, as the code has it. With a memory tier of capacity at least 1: when
    the derived key is not in the memory tier and the disk tier has a file
    for it that is not expired, can be read and unpickles to a value other
    than [None], [get] on the orchestrator returns that value, writes it
    into the memory tier and counts a disk hit ([file_hits]), no memory hit
    and no miss; the disk is left as it was, and a [get] on the memory tier
    alone then returns the same value. *)
Theorem get_promotes_disk_hit `{PyLib} (self : QueryCache) (w : World)
    (query : string) (params : list pyval) (f : File) (v : pyval) :
  let cache_key := _generate_cache_key query params in
  let cache_path := _get_cache_path (file_cache self) cache_key in
  (1 <= max_size (memory_cache self))%Z ->
  od_lookup cache_key (cache (memory_cache self)) = None ->
  w_files w !! cache_path = Some f ->
  float_gt_int (w_clock w - f_mtime f) (max_age_seconds (file_cache self)) = false ->
  w_fault w (SysGetmtime cache_path) = false ->
  w_fault w (SysOpenRead cache_path) = false ->
  pickle_loads (f_data f) = Some v ->
  v <> VNone ->
  exists self',
    QueryCache_get query params (self, w) = (Ok v, (self', w)) /\
    od_lookup cache_key (cache (memory_cache self')) = Some v /\
    fst (LRUCache_get cache_key (memory_cache self')) = Ok v /\
    file_hits (q_stats self') = S (file_hits (q_stats self)) /\
    memory_hits (q_stats self') = memory_hits (q_stats self) /\
    q_misses (q_stats self') = q_misses (q_stats self) /\
    f_hits (f_stats (file_cache self')) = S (f_hits (f_stats (file_cache self))).
Proof.
  intros cache_key cache_path Hcap Hmiss Hf Hfresh Hmtime Hread Hv Hnone.
  subst cache_path.
  pose proof (LRUCache_get_miss _ _ Hmiss) as Hget.
  pose proof (FileCache_get_fresh _ _ _ _ _ Hf Hfresh Hmtime Hread Hv) as Hfget.
  destruct (LRUCache_set_total cache_key v
              (MkLRUCache (max_size (memory_cache self))
                 (cache (memory_cache self))
                 (incr_misses (stats (memory_cache self)))) Hcap)
    as (m' & Hset & _ & _ & Hheld).
  exists (MkQueryCache m' (set_f_stats incr_f_hits (file_cache self))
            (incr_file_hits (q_stats self))).
  split.
  - apply wp_equation. wp_query. fold cache_key.
    wp_step. wp_enter. eapply wp_eq; [exact Hget|]. wp_red.
    cbn [is_none negb]. wp_step. wp_enter.
    eapply wp_eq; [exact Hfget|]. wp_red.
    destruct v; [contradiction| | |]; cbn [is_none negb];
      (wp_step; wp_enter; eapply wp_eq; [exact Hset|]; wp_red;
       wp_run; reflexivity).
  - cbn [memory_cache file_cache q_stats f_stats file_hits memory_hits
         q_misses f_hits incr_file_hits set_f_stats incr_f_hits].
    split; [exact Hheld|].
    split; [now rewrite (LRUCache_get_hit _ _ _ Hheld) | auto].
Qed.

Lemma get_promotes_disk_hit_witness :
  exists self',
    @QueryCache_get sample_lib "k" []
      (MkQueryCache sample_memory_cache
         (MkFileCache "/c" 1 (MkFileStats 0 0 0 0)) (MkQueryStats 0 0 0 0),
       MkWorld {[ ("/c", "query:k:().cache") :=
                    MkFile (Byte.x53 :: String.list_byte_of_string "v") 0 ]}
               (fun _ => false) 0 []) =
      (Ok (VStr "v"),
       (self',
        MkWorld {[ ("/c", "query:k:().cache") :=
                     MkFile (Byte.x53 :: String.list_byte_of_string "v") 0 ]}
                (fun _ => false) 0 [])) /\
    fst (LRUCache_get "query:k:()" (memory_cache self')) = Ok (VStr "v").
Proof.
  destruct (@get_promotes_disk_hit sample_lib
              (MkQueryCache sample_memory_cache
                 (MkFileCache "/c" 1 (MkFileStats 0 0 0 0))
                 (MkQueryStats 0 0 0 0))
              (MkWorld {[ ("/c", "query:k:().cache") :=
                           MkFile (Byte.x53 :: String.list_byte_of_string "v") 0 ]}
                       (fun _ => false) 0 [])
              "k" [] (MkFile (Byte.x53 :: String.list_byte_of_string "v") 0)
              (VStr "v"))
    as (self' & Hrun & _ & Hget & _).
  - cbn. lia.
  - reflexivity.
  - reflexivity.
  - reflexivity.
  - reflexivity.
  - reflexivity.
  - reflexivity.
  - discriminate.
  - exists self'. split; [exact Hrun | exact Hget].
Defined.

(** C4 on a disk entry that holds [None]: the key is not in the memory
    tier, the file is there, young and a pickle (of [None]); the disk tier
    counts a hit, but the orchestrator returns [None], counts a miss and no
    disk hit, and writes nothing into the memory tier. *)
Lemma get_none_on_disk_not_promoted :
  od_lookup "query:q:()" (cache (memory_cache sample_query_cache)) = None /\
  w_files none_world !! ("/c", "query:q:().cache") = Some (MkFile [Byte.x4e] 0) /\
  @pickle_loads sample_lib [Byte.x4e] = Some VNone /\
  @FileCache_get sample_lib "query:q:()" (sample_file_cache, none_world) =
    (Ok VNone,
     (MkFileCache "/c" 3600 (MkFileStats 1 0 0 0), none_world)) /\
  @QueryCache_get sample_lib "q" [] (sample_query_cache, none_world) =
    (Ok VNone,
     (MkQueryCache
        (MkLRUCache 2 [] (MkLRUStats 0 1 0))
        (MkFileCache "/c" 3600 (MkFileStats 1 0 0 0))
        (MkQueryStats 0 0 1 0),
      none_world)).
Proof. vm_compute. repeat split. Qed.

(** ** A stored [None] *)

(** C10. A stored [None] cannot be told from absence by [get].  In the
    memory tier, [get] of a key that holds [None] returns [None], though it
    counts a hit and the entry stays.  In the disk tier, [get] of a key
    whose file is the pickle of [None] returns [None] (counting a hit when
    the file is young and readable).  In the orchestrator, when the key
    holds [None] or nothing in the memory tier and its file, if there is
    one, is the pickle of [None], [get] returns [None] and counts a miss,
    no memory hit and no disk hit; nothing is written to the memory tier:
    what it holds for the key is unchanged and nothing is evicted. *)
Theorem stored_none_reads_as_miss `{PyLib} :
  (forall (self : LRUCache) (key : string),
     od_lookup key (cache self) = Some VNone ->
     exists self',
       LRUCache_get key self = (Ok VNone, self') /\
       hits (stats self') = S (hits (stats self)) /\
       od_lookup key (cache self') = Some VNone) /\
  (forall (self : FileCache) (w : World) (key : string) (f : File),
     w_files w !! _get_cache_path self key = Some f ->
     pickle_loads (f_data f) = Some VNone ->
     (exists s', FileCache_get key (self, w) = (Ok VNone, s')) /\
     (float_gt_int (w_clock w - f_mtime f) (max_age_seconds self) = false ->
      w_fault w (SysGetmtime (_get_cache_path self key)) = false ->
      w_fault w (SysOpenRead (_get_cache_path self key)) = false ->
      FileCache_get key (self, w) =
        (Ok VNone, (set_f_stats incr_f_hits self, w)))) /\
  (forall (self : QueryCache) (w : World) (query : string)
          (params : list pyval),
     let cache_key := _generate_cache_key query params in
     let cache_path := _get_cache_path (file_cache self) cache_key in
     od_lookup cache_key (cache (memory_cache self)) = Some VNone \/
     od_lookup cache_key (cache (memory_cache self)) = None ->
     (forall f, w_files w !! cache_path = Some f ->
                pickle_loads (f_data f) = Some VNone) ->
     exists s',
       QueryCache_get query params (self, w) = (Ok VNone, s') /\
       q_misses (q_stats (fst s')) = S (q_misses (q_stats self)) /\
       memory_hits (q_stats (fst s')) = memory_hits (q_stats self) /\
       file_hits (q_stats (fst s')) = file_hits (q_stats self) /\
       od_lookup cache_key (cache (memory_cache (fst s'))) =
         od_lookup cache_key (cache (memory_cache self)) /\
       evictions (stats (memory_cache (fst s'))) =
         evictions (stats (memory_cache self))).
Proof.
  split; [|split].
  - intros self key Hk. rewrite (LRUCache_get_hit _ _ _ Hk).
    eexists. split; [reflexivity|]. cbn.
    split; [reflexivity | apply od_lookup_setitem_eq].
  - intros self w key f Hf Hv. split.
    + destruct (FileCache_get_cases self w key)
        as (v & s' & Hrun & [->|(f' & Hf' & Hv')]).
      * eauto.
      * rewrite Hf in Hf'. injection Hf' as <-.
        rewrite Hv in Hv'. injection Hv' as <-. eauto.
    + intros Hfresh Hmtime Hread. now apply (FileCache_get_fresh self w key f).
  - intros self w query params cache_key cache_path Hmem Hdisk.
    subst cache_path.
    assert (Hget : exists m',
              LRUCache_get cache_key (memory_cache self) = (Ok VNone, m') /\
              od_lookup cache_key (cache m') =
                od_lookup cache_key (cache (memory_cache self)) /\
              evictions (stats m') = evictions (stats (memory_cache self))).
    { destruct Hmem as [Hk|Hk].
      - rewrite (LRUCache_get_hit _ _ _ Hk). eexists.
        split; [reflexivity|]. cbn.
        rewrite od_lookup_setitem_eq, Hk. split; reflexivity.
      - rewrite (LRUCache_get_miss _ _ Hk). eexists.
        split; [reflexivity|]. cbn. auto. }
    destruct Hget as (m' & Hget & Hsame & Hev).
    destruct (FileCache_get_cases (file_cache self) w cache_key)
      as (v & [f' w'] & Hfget & Hcases).
    assert (v = VNone) as ->.
    { destruct Hcases as [->|(f & Hf & Hv)]; [reflexivity|].
      rewrite (Hdisk f Hf) in Hv. now injection Hv. }
    exists (MkQueryCache m' f' (incr_q_misses (q_stats self)), w').
    split.
    + apply wp_equation. wp_query. fold cache_key.
      wp_step. wp_enter. eapply wp_eq; [exact Hget|]. wp_red.
      cbn [is_none negb]. wp_step. wp_enter.
      eapply wp_eq; [exact Hfget|]. wp_red.
      cbn [is_none negb]. wp_run. reflexivity.
    + cbn [fst memory_cache q_stats q_misses memory_hits file_hits
           incr_q_misses]. auto.
Qed.

Lemma stored_none_reads_as_miss_witness :
  exists s',
    @QueryCache_get sample_lib "q" []
      (MkQueryCache (MkLRUCache 2 [("query:q:()", VNone)] (MkLRUStats 0 0 0))
         sample_file_cache (MkQueryStats 0 0 0 1),
       none_world) = (Ok VNone, s') /\
    q_misses (q_stats (fst s')) = 1%nat.
Proof.
  destruct (proj2 (proj2 (@stored_none_reads_as_miss sample_lib))
              (MkQueryCache
                 (MkLRUCache 2 [("query:q:()", VNone)] (MkLRUStats 0 0 0))
                 sample_file_cache (MkQueryStats 0 0 0 1))
              none_world "q" [])
    as (s' & Hrun & Hmiss & _).
  - left. reflexivity.
  - intros f Hf. vm_compute in Hf. injection Hf as <-. reflexivity.
  - exists s'. split; [exact Hrun | exact Hmiss].
Defined.

(** ** The registry *)

(** [clear_all_caches] reads the sizes of the two memory caches and clears
    the two disk caches: the memory caches are never touched. *)
Lemma clear_all_caches_memory_untouched (self : CacheManager) (w : World) :
  exists report s',
    CacheManager_clear_all_caches (self, w) = (Ok report, s') /\
    memory_cache (query_cache (fst s')) = memory_cache (query_cache self) /\
    config_cache (fst s') = config_cache self /\
    exists files images,
      report =
        [("memory_cache_cleared",
          length (cache (memory_cache (query_cache self))));
         ("file_cache_deleted", files);
         ("image_cache_deleted", images);
         ("config_cache_cleared", length (cache (config_cache self)))].
Proof.
  destruct (FileCache_clear_kept (file_cache (query_cache self), w))
    as (n1 & [f1 w1] & Hclear1 & _).
  destruct (FileCache_clear_kept (image_cache self, w1))
    as (n2 & [f2 w2] & Hclear2 & _).
  eexists _, _. split.
  - apply wp_equation. unfold CacheManager_clear_all_caches,
      on_cm_memory_cache, on_cm_file_cache, on_image_cache, on_config_cache.
    wp_lru. wp_step. wp_enter. wp_step. wp_step. wp_step.
    wp_step. wp_enter. eapply wp_eq; [exact Hclear1|]. wp_red.
    wp_step. wp_enter. eapply wp_eq; [exact Hclear2|]. wp_red.
    wp_run. reflexivity.
  - cbn. destruct self as [[m f q] i c]. cbn. eauto 10.
Qed.

(** C1 at the registry built with the defaults on an empty disk, after
    [memory_cache.set("a", 1)] and [config_cache.set("theme", "dark")]:
    [clear_all_caches] reports one entry "cleared" for each of the two
    memory caches, and both entries are still there afterwards; the
    registry is exactly as it was, and [get("a")] still returns 1. *)
Theorem clear_all_caches_keeps_memory_entries :
  (exists self0,
     CacheManager_init 1000 "/app/data/cache" 3600 empty_world
       = (Ok self0, ready_world) /\
     (on_cm_memory_cache (LRUCache_set "a" (VInt 1)) ;;
      on_config_cache (LRUCache_set "theme" (VStr "dark")))
       (self0, ready_world) = (Ok tt, (busy_manager, ready_world))) /\
  CacheManager_clear_all_caches (busy_manager, ready_world) =
    (Ok [("memory_cache_cleared", 1%nat);
         ("file_cache_deleted", 0%nat);
         ("image_cache_deleted", 0%nat);
         ("config_cache_cleared", 1%nat)],
     (busy_manager, ready_world)) /\
  cache (memory_cache (query_cache busy_manager)) = [("a", VInt 1)] /\
  cache (config_cache busy_manager) = [("theme", VStr "dark")] /\
  fst (LRUCache_get "a" (memory_cache (query_cache busy_manager)))
    = Ok (VInt 1).
Proof.
  split; [eexists; split; vm_compute; reflexivity|].
  vm_compute. repeat split.
Qed.

(** ** Two more runs of the spec's scenarios *)

(** After [set] on the orchestrator, each tier returns the value on its
    own. *)
Example write_through_scenario :
  let '(stored, s1) :=
    @QueryCache_set sample_lib "q" [] (VStr "rows")
      (sample_query_cache, empty_world) in
  let '(from_memory, _) :=
    LRUCache_get "query:q:()" (memory_cache (fst s1)) in
  let '(from_disk, _) :=
    @FileCache_get sample_lib "query:q:()" (file_cache (fst s1), snd s1) in
  stored = Ok tt /\ from_memory = Ok (VStr "rows") /\
  from_disk = Ok (VStr "rows").
Proof. vm_compute. repeat split. Qed.

(** [clear] twice on the disk tier: the second call removes nothing and
    raises nothing. *)
Example clear_twice_scenario :
  let '(first, s1) := FileCache_clear (ttl_file_cache, ttl_world 0) in
  let '(second, s2) := FileCache_clear s1 in
  first = Ok 1%nat /\ second = Ok 0%nat /\ w_files (snd s2) = ∅.
Proof. vm_compute. repeat split. Qed.

(** * Further properties of the code *)

(** ** More on ordered dictionaries *)

Lemma od_lookup_remove_ne (key k : string) (d : odict) :
  k <> key -> od_lookup k (od_remove key d) = od_lookup k d.
Proof.
  intros Hne. induction d as [|[k0 w] d IH]; cbn; [reflexivity|].
  destruct (String.eqb_spec key k0) as [->|Hk0]; cbn.
  - destruct (String.eqb_spec k k0); [contradiction | reflexivity].
  - destruct (String.eqb k k0); [reflexivity | exact IH].
Qed.

Lemma od_lookup_setitem_ne (key k : string) (v : pyval) (d : odict) :
  k <> key -> od_lookup k (od_setitem key v d) = od_lookup k d.
Proof.
  intros Hne. induction d as [|[k0 w] d IH]; cbn.
  - destruct (String.eqb_spec k key); [contradiction | reflexivity].
  - destruct (String.eqb_spec key k0) as [->|Hk0]; cbn.
    + destruct (String.eqb_spec k k0); [contradiction | reflexivity].
    + destruct (String.eqb k k0); [reflexivity | exact IH].
Qed.

Lemma od_keys_remove_incl (key k : string) (d : odict) :
  k ∈ od_keys (od_remove key d) -> k ∈ od_keys d.
Proof.
  induction d as [|[k0 w] d IH]; cbn; intros Hk; [exact Hk|].
  destruct (String.eqb key k0); [right; exact Hk|].
  cbn in Hk. apply elem_of_cons in Hk as [->|Hk]; [left | right; auto].
Qed.

Lemma od_remove_NoDup (key : string) (d : odict) :
  NoDup (od_keys d) -> NoDup (od_keys (od_remove key d)).
Proof.
  induction d as [|[k0 w] d IH]; cbn; intros Hnd; [exact Hnd|].
  apply NoDup_cons in Hnd as [Hk0 Hnd].
  destruct (String.eqb key k0); [exact Hnd|].
  cbn. apply NoDup_cons. split; [|auto].
  intros Hin. apply Hk0. now apply od_keys_remove_incl in Hin.
Qed.

Lemma od_keys_setitem (key : string) (v : pyval) (d : odict) :
  od_keys (od_setitem key v d) =
    if od_contains key d then od_keys d else od_keys d ++ [key].
Proof.
  unfold od_contains, od_keys.
  induction d as [|[k0 w] d IH]; cbn; [reflexivity|].
  destruct (String.eqb key k0); cbn; [reflexivity|].
  rewrite IH. now destruct (od_lookup key d).
Qed.

Lemma od_setitem_NoDup (key : string) (v : pyval) (d : odict) :
  NoDup (od_keys d) -> NoDup (od_keys (od_setitem key v d)).
Proof.
  intros Hnd. rewrite od_keys_setitem. unfold od_contains.
  destruct (od_lookup key d) eqn:Hk; [exact Hnd|].
  apply NoDup_app. split; [exact Hnd|]. split; [|apply NoDup_singleton].
  intros k Hin Hk'. apply list_elem_of_singleton in Hk' as ->.
  now apply od_lookup_None in Hk.
Qed.

(** Moving an entry to the end keeps the number of entries. *)
Lemma od_touch_length (key : string) (v w : pyval) (d : odict) :
  NoDup (od_keys d) ->
  od_lookup key d = Some w ->
  length (od_setitem key v (od_remove key d)) = length d.
Proof.
  intros Hnd Hk.
  rewrite od_setitem_fresh by now apply od_lookup_remove_eq.
  rewrite length_app. cbn [length].
  pose proof (od_remove_length_found _ _ _ Hk). lia.
Qed.

(** ** The memory tier: more on [set], [get] and [delete] *)

(** X1. With a capacity of at least 1, [set] never raises, and a [get] of
    the same key right after it returns the value just stored and counts a
    hit, whatever the cache held before. *)
Theorem lru_set_then_get (self : LRUCache) (key : string) (value : pyval) :
  (1 <= max_size self)%Z ->
  exists self1 self2,
    LRUCache_set key value self = (Ok tt, self1) /\
    LRUCache_get key self1 = (Ok value, self2) /\
    hits (stats self2) = S (hits (stats self)) /\
    misses (stats self2) = misses (stats self).
Proof.
  intros Hcap.
  destruct (od_lookup key (cache self)) as [w|] eqn:Hk.
  - rewrite (LRUCache_set_present _ _ _ _ Hk). eexists _, _.
    split; [reflexivity|].
    erewrite LRUCache_get_hit by apply od_lookup_setitem_eq.
    split; [reflexivity|]. split; reflexivity.
  - destruct (Z.lt_ge_cases (Z.of_nat (length (cache self))) (max_size self))
      as [Hlt|Hge].
    + rewrite LRUCache_set_room by auto. eexists _, _.
      split; [reflexivity|].
      erewrite LRUCache_get_hit by apply od_lookup_setitem_eq.
      split; [reflexivity|]. split; reflexivity.
    + destruct (cache self) as [|kv d] eqn:Hd; [cbn in Hge; lia|].
      rewrite (LRUCache_set_full _ _ _ kv d) by (auto; rewrite Hd; auto).
      eexists _, _. split; [reflexivity|].
      erewrite LRUCache_get_hit by apply od_lookup_setitem_eq.
      split; [reflexivity|]. split; reflexivity.
Qed.

Lemma lru_set_then_get_witness :
  exists self1 self2,
    LRUCache_set "b" (VInt 2)
      (MkLRUCache 1 [("a", VInt 1)] (MkLRUStats 0 0 0)) = (Ok tt, self1) /\
    LRUCache_get "b" self1 = (Ok (VInt 2), self2).
Proof.
  destruct (lru_set_then_get
              (MkLRUCache 1 [("a", VInt 1)] (MkLRUStats 0 0 0)) "b" (VInt 2))
    as (self1 & self2 & Hset & Hget & _).
  - cbn. lia.
  - exists self1, self2. split; [exact Hset | exact Hget].
Defined.

(** X2. [set] of a key that is already there replaces its value and makes
    it the most recently used entry; nothing is evicted, even when the
    cache is full: the counters, the number of entries and the values of
    all other keys are as before. *)
Theorem lru_set_existing_key (self : LRUCache) (key : string)
    (value old : pyval) :
  NoDup (od_keys (cache self)) ->
  od_lookup key (cache self) = Some old ->
  LRUCache_set key value self =
    (Ok tt, MkLRUCache (max_size self)
              (od_remove key (cache self) ++ [(key, value)])
              (stats self)) /\
  length (od_remove key (cache self) ++ [(key, value)]) =
    length (cache self) /\
  forall k, k <> key ->
    od_lookup k (od_remove key (cache self) ++ [(key, value)]) =
    od_lookup k (cache self).
Proof.
  intros Hnd Hk.
  pose proof (od_lookup_remove_eq key (cache self) Hnd) as Hgone.
  rewrite (LRUCache_set_present _ _ _ _ Hk).
  rewrite <- (od_setitem_fresh key value _ Hgone).
  split; [reflexivity|]. split.
  - now apply (od_touch_length key value old).
  - intros k Hne.
    now rewrite od_lookup_setitem_ne, od_lookup_remove_ne.
Qed.

Lemma lru_set_existing_key_witness :
  LRUCache_set "a" (VInt 9)
    (MkLRUCache 2 [("a", VInt 1); ("b", VInt 2)] (MkLRUStats 0 0 0)) =
  (Ok tt, MkLRUCache 2 [("b", VInt 2); ("a", VInt 9)] (MkLRUStats 0 0 0)).
Proof.
  apply (lru_set_existing_key
           (MkLRUCache 2 [("a", VInt 1); ("b", VInt 2)] (MkLRUStats 0 0 0))
           "a" (VInt 9) (VInt 1)).
  - apply (bool_decide_unpack _). vm_compute. exact I.
  - reflexivity.
Defined.

(** X3. [get] changes the order of the entries only: after a [get] of any
    key, hit or miss, every key holds what it held before, the capacity is
    the same and nothing was evicted. *)
Theorem lru_get_keeps_entries (self : LRUCache) (key k : string) :
  od_lookup k (cache (snd (LRUCache_get key self))) = od_lookup k (cache self) /\
  max_size (snd (LRUCache_get key self)) = max_size self /\
  evictions (stats (snd (LRUCache_get key self))) = evictions (stats self).
Proof.
  destruct (od_lookup key (cache self)) as [v|] eqn:Hk.
  - rewrite (LRUCache_get_hit _ _ _ Hk). cbn [snd cache max_size stats].
    split; [|split; reflexivity].
    destruct (String.eqb_spec k key) as [->|Hne].
    + now rewrite od_lookup_setitem_eq.
    + now rewrite od_lookup_setitem_ne, od_lookup_remove_ne.
  - rewrite (LRUCache_get_miss _ _ Hk). repeat split.
Qed.

(** X4. [delete] of a key that is not there returns [False] and changes
    nothing.  [delete] of a key that is there returns [True]; the key is
    then absent, there is one entry less, every other key holds what it
    held and the counters are as before. *)
Theorem lru_delete_removes_only_key (self : LRUCache) (key : string) :
  NoDup (od_keys (cache self)) ->
  (od_lookup key (cache self) = None ->
     LRUCache_delete key self = (Ok false, self)) /\
  (forall v, od_lookup key (cache self) = Some v ->
     exists self',
       LRUCache_delete key self = (Ok true, self') /\
       od_lookup key (cache self') = None /\
       S (length (cache self')) = length (cache self) /\
       (forall k, k <> key ->
          od_lookup k (cache self') = od_lookup k (cache self)) /\
       stats self' = stats self /\
       max_size self' = max_size self).
Proof.
  intros Hnd. split.
  - intros Hk. unfold LRUCache_delete, od_contains, bind, gets, ret.
    now rewrite Hk.
  - intros v Hk. eexists. split.
    + unfold LRUCache_delete, od_contains, bind, gets, modify, ret.
      rewrite Hk. reflexivity.
    + cbn. split; [now apply od_lookup_remove_eq|].
      split; [exact (od_remove_length_found _ _ _ Hk)|].
      split; [|split; reflexivity].
      intros k Hne. now apply od_lookup_remove_ne.
Qed.

Lemma lru_delete_removes_only_key_witness :
  exists self',
    LRUCache_delete "a"
      (MkLRUCache 2 [("a", VInt 1); ("b", VInt 2)] (MkLRUStats 0 0 0)) =
      (Ok true, self') /\
    od_lookup "a" (cache self') = None.
Proof.
  destruct (proj2 (lru_delete_removes_only_key
              (MkLRUCache 2 [("a", VInt 1); ("b", VInt 2)] (MkLRUStats 0 0 0))
              "a" ltac:(apply (bool_decide_unpack _); vm_compute; exact I))
              (VInt 1) eq_refl)
    as (self' & Hrun & Hgone & _).
  exists self'. split; [exact Hrun | exact Hgone].
Defined.

(** With a capacity of 0 or less an empty cache stays empty. *)
Lemma lru_call_stays_empty (call : lru_call) (self : LRUCache) :
  (max_size self <= 0)%Z -> cache self = [] ->
  (max_size (snd (lru_call_run call self)) <= 0)%Z /\
  cache (snd (lru_call_run call self)) = [].
Proof.
  intros Hcap Hempty.
  destruct call as [key|key v|key| | |]; cbn [lru_call_run].
  - unfold discard, bind.
    rewrite LRUCache_get_miss by now rewrite Hempty. cbn. auto.
  - rewrite LRUCache_set_nothing_to_evict by assumption. auto.
  - unfold discard, LRUCache_delete, od_contains, bind, gets, ret.
    rewrite Hempty. cbn. auto.
  - cbn. auto.
  - cbn. auto.
  - cbn. auto.
Qed.

(** X5. A cache built with a capacity of 0 or less never stores anything:
    after any sequence of calls it is empty, every [set] raises [KeyError]
    (from [popitem] on the empty dictionary) and leaves it as it is, and
    every [get] is a miss. *)
Theorem lru_nonpositive_capacity_stores_nothing (N : Z) (self0 : LRUCache)
    (calls : list lru_call) :
  (N <= 0)%Z ->
  LRUCache_init N = Ok self0 ->
  let self := lru_calls calls self0 in
  cache self = [] /\
  (forall key value, LRUCache_set key value self = (Raise KeyError, self)) /\
  (forall key, fst (LRUCache_get key self) = Ok VNone).
Proof.
  intros HN Hinit self. injection Hinit as <-.
  assert (Hinv : (max_size self <= 0)%Z /\ cache self = []).
  { subst self. generalize (MkLRUCache N [] (MkLRUStats 0 0 0)),
      (conj HN (eq_refl (A := odict) (x := []))
       : (max_size (MkLRUCache N [] (MkLRUStats 0 0 0)) <= 0)%Z /\
         cache (MkLRUCache N [] (MkLRUStats 0 0 0)) = []).
    induction calls as [|c calls IH]; intros s [Hs1 Hs2]; [now split|].
    cbn. apply IH. now apply lru_call_stays_empty. }
  destruct Hinv as [Hcap Hempty]. split; [exact Hempty|]. split.
  - intros key value. now apply LRUCache_set_nothing_to_evict.
  - intros key. rewrite LRUCache_get_miss by now rewrite Hempty. reflexivity.
Qed.

Lemma lru_nonpositive_capacity_stores_nothing_witness :
  LRUCache_set "a" (VInt 1)
    (lru_calls [CallSet "b" (VInt 2); CallGet "b"]
       (MkLRUCache 0 [] (MkLRUStats 0 0 0))) =
  (Raise KeyError,
   lru_calls [CallSet "b" (VInt 2); CallGet "b"]
     (MkLRUCache 0 [] (MkLRUStats 0 0 0))).
Proof.
  apply (lru_nonpositive_capacity_stores_nothing 0
           (MkLRUCache 0 [] (MkLRUStats 0 0 0))
           [CallSet "b" (VInt 2); CallGet "b"]).
  - lia.
  - reflexivity.
Defined.

(** Distinct new keys given to a cache of capacity [N >= 1]: what is left
    is the last [N] of the old entries followed by the new ones. *)
Lemma set_all_keeps_last (kvs : list (string * pyval)) (self : LRUCache) :
  (1 <= max_size self)%Z ->
  (Z.of_nat (length (cache self)) <= max_size self)%Z ->
  NoDup (od_keys (cache self ++ kvs)) ->
  exists self',
    set_all kvs self = (Ok tt, self') /\
    max_size self' = max_size self /\
    cache self' =
      drop (length (cache self ++ kvs) - Z.to_nat (max_size self))
        (cache self ++ kvs) /\
    evictions (stats self') =
      (evictions (stats self)
       + (length (cache self ++ kvs) - Z.to_nat (max_size self)))%nat /\
    hits (stats self') = hits (stats self) /\
    misses (stats self') = misses (stats self).
Proof.
  revert self. induction kvs as [|[k v] kvs IH]; intros self Hcap Hlen Hnd.
  - exists self. split; [reflexivity|]. rewrite app_nil_r.
    replace (length (cache self) - Z.to_nat (max_size self))%nat
      with 0%nat by lia.
    rewrite drop_0, Nat.add_0_r. auto.
  - assert (Hfresh : od_lookup k (cache self) = None).
    { apply od_lookup_None. unfold od_keys in *. rewrite fmap_app in Hnd.
      apply NoDup_app in Hnd as (_ & Hdis & _).
      intros Hin. apply (Hdis k Hin). left. }
    unfold set_all in *. cbn [for_each]. unfold bind at 1. cbn [fst snd].
    destruct (Z.lt_ge_cases (Z.of_nat (length (cache self))) (max_size self))
      as [Hlt|Hge].
    + rewrite LRUCache_set_room by auto.
      rewrite (od_setitem_fresh _ _ _ Hfresh).
      destruct (IH (MkLRUCache (max_size self) (cache self ++ [(k, v)])
                      (stats self)))
        as (self' & Hrun & Hmax & Hcache & Hev & Hh & Hm);
        cbn [cache max_size stats].
      * exact Hcap.
      * rewrite length_app. cbn [length]. lia.
      * now rewrite <- app_assoc.
      * exists self'. cbn [cache max_size stats] in Hmax, Hcache, Hev, Hh, Hm.
        rewrite <- app_assoc in Hcache, Hev. cbn [app] in Hcache, Hev.
        repeat split; assumption.
    + destruct (cache self) as [|kv0 d] eqn:Hd; [cbn in Hge; lia|].
      assert (Hfull : Z.of_nat (length (kv0 :: d)) = max_size self) by lia.
      rewrite (LRUCache_set_full _ _ _ kv0 d) by (auto; rewrite Hd; auto).
      assert (Hfresh' : od_lookup k d = None).
      { destruct kv0 as [k0 v0]. cbn in Hfresh.
        destruct (String.eqb k k0); [discriminate | exact Hfresh]. }
      rewrite (od_setitem_fresh _ _ _ Hfresh').
      destruct (IH (MkLRUCache (max_size self) (d ++ [(k, v)])
                      (incr_evictions (stats self))))
        as (self' & Hrun & Hmax & Hcache & Hev & Hh & Hm);
        cbn [cache max_size stats].
      * exact Hcap.
      * rewrite length_app. cbn [length] in *. lia.
      * rewrite <- app_assoc. cbn in Hnd |- *.
        now apply NoDup_cons in Hnd as [_ ?].
      * exists self'.
        cbn [cache max_size stats incr_evictions evictions hits misses]
          in Hmax, Hcache, Hev, Hh, Hm.
        rewrite <- app_assoc in Hcache, Hev. cbn [app] in Hcache, Hev.
        split; [exact Hrun|]. split; [exact Hmax|].
        cbn [length] in Hfull.
        assert (Hn : (length ((kv0 :: d) ++ (k, v) :: kvs)
                      - Z.to_nat (max_size self))%nat =
                     S (length (d ++ (k, v) :: kvs)
                        - Z.to_nat (max_size self))).
        { cbn [app length]. rewrite length_app. cbn [length]. lia. }
        rewrite Hn. cbn [app drop].
        split; [exact Hcache|]. split; [lia|]. split; assumption.
Qed.

(** X6. A fresh cache of capacity [N >= 1] that is given any number of
    distinct keys by [set] holds the last [N] of them, in the order of
    insertion, and has evicted the others, oldest first: the eviction
    counter is their number. *)
Theorem lru_keeps_most_recent (N : Z) (self0 : LRUCache)
    (kvs : list (string * pyval)) :
  (1 <= N)%Z ->
  LRUCache_init N = Ok self0 ->
  NoDup (od_keys kvs) ->
  exists self,
    set_all kvs self0 = (Ok tt, self) /\
    cache self = drop (length kvs - Z.to_nat N) kvs /\
    evictions (stats self) = (length kvs - Z.to_nat N)%nat.
Proof.
  intros HN Hinit Hnd. injection Hinit as <-.
  destruct (set_all_keeps_last kvs (MkLRUCache N [] (MkLRUStats 0 0 0)))
    as (self & Hrun & _ & Hcache & Hev & _); cbn [cache max_size]; auto.
  - cbn. lia.
  - exists self. cbn in Hcache, Hev. auto.
Qed.

Lemma lru_keeps_most_recent_witness :
  exists self,
    set_all [("a", VInt 1); ("b", VInt 2); ("c", VInt 3); ("d", VInt 4)]
      sample_memory_cache = (Ok tt, self) /\
    cache self = [("c", VInt 3); ("d", VInt 4)] /\
    evictions (stats self) = 2%nat.
Proof.
  apply (lru_keeps_most_recent 2 sample_memory_cache
           [("a", VInt 1); ("b", VInt 2); ("c", VInt 3); ("d", VInt 4)]).
  - lia.
  - reflexivity.
  - apply (bool_decide_unpack _). vm_compute. exact I.
Defined.

(** ** The disk tier: writes, reads and removals *)

(** A write the disk and [pickle] accept. *)
Lemma FileCache_set_healthy `{PyLib} (self : FileCache) (w : World)
    (key : string) (value : pyval) (data : list Byte.byte) :
  w_fault w (SysOpenWrite (_get_cache_path self key)) = false ->
  w_fault w (SysWrite (_get_cache_path self key)) = false ->
  pickle_dumps value = Some data ->
  FileCache_set key value (self, w) =
    (Ok true,
     (set_f_stats incr_writes self,
      set_files (insert (_get_cache_path self key)
                   (MkFile data (w_clock w)))
        (set_files (insert (_get_cache_path self key)
                      (MkFile [] (w_clock w))) w))).
Proof.
  intros Hopen Hwrite Hdump. apply wp_equation. wp_file.
  wp_run_with ltac:(rewrite ?Hopen, ?Hdump); try discriminate.
  - cbn [w_fault set_files] in *. congruence.
  - reflexivity.
Qed.

(** No file for the key: a miss that touches nothing on the disk. *)
Lemma FileCache_get_absent `{PyLib} (self : FileCache) (w : World)
    (key : string) :
  w_files w !! _get_cache_path self key = None ->
  FileCache_get key (self, w) = (Ok VNone, (set_f_stats incr_f_misses self, w)).
Proof.
  intros Hno. apply wp_equation. wp_file.
  wp_run_with ltac:(rewrite ?Hno); try discriminate. reflexivity.
Qed.

(** X7. Round trip on the disk tier. When the file can be opened for
    writing, the value pickled and the bytes written, [set] returns [True],
    from any state of the disk (an older file for the key is overwritten).
    A [get] of the key at any later time [now] at which the age the code
    computes, [now - time of the write] in binary64, is not greater than
    [max_age_seconds], the file being readable and [pickle.loads] giving
    back what [pickle.dumps] wrote, returns the value and counts a hit. *)
Theorem disk_set_then_get `{PyLib} (self : FileCache) (w : World)
    (key : string) (value : pyval) (data : list Byte.byte) (now : float) :
  let cache_path := _get_cache_path self key in
  w_fault w (SysOpenWrite cache_path) = false ->
  w_fault w (SysWrite cache_path) = false ->
  pickle_dumps value = Some data ->
  pickle_loads data = Some value ->
  w_fault w (SysGetmtime cache_path) = false ->
  w_fault w (SysOpenRead cache_path) = false ->
  float_gt_int (now - w_clock w) (max_age_seconds self) = false ->
  exists self1 w1,
    FileCache_set key value (self, w) = (Ok true, (self1, w1)) /\
    writes (f_stats self1) = S (writes (f_stats self)) /\
    exists self2,
      FileCache_get key (self1, at_time now w1) =
        (Ok value, (self2, at_time now w1)) /\
      f_hits (f_stats self2) = S (f_hits (f_stats self)).
Proof.
  intros cache_path Hopen Hwrite Hdump Hload Hmtime Hread Hage.
  subst cache_path.
  rewrite (FileCache_set_healthy _ _ _ _ _ Hopen Hwrite Hdump).
  eexists _, _. split; [reflexivity|]. split; [reflexivity|].
  eexists. split.
  - apply (FileCache_get_fresh _ _ _ (MkFile data (w_clock w))).
    + cbn. apply lookup_insert_eq.
    + exact Hage.
    + exact Hmtime.
    + exact Hread.
    + exact Hload.
  - reflexivity.
Qed.

Lemma disk_set_then_get_witness :
  exists self1 w1 self2,
    @FileCache_set sample_lib "k" (VStr "v") (ttl_file_cache, empty_world) =
      (Ok true, (self1, w1)) /\
    @FileCache_get sample_lib "k" (self1, at_time 1 w1) =
      (Ok (VStr "v"), (self2, at_time 1 w1)).
Proof.
  destruct (@disk_set_then_get sample_lib ttl_file_cache empty_world "k"
              (VStr "v") (Byte.x53 :: String.list_byte_of_string "v") 1)
    as (self1 & w1 & Hset & _ & self2 & Hget & _).
  - reflexivity.
  - reflexivity.
  - reflexivity.
  - reflexivity.
  - reflexivity.
  - reflexivity.
  - reflexivity.
  - exists self1, w1, self2. split; [exact Hset | exact Hget].
Defined.

(** X8. A young file that cannot be opened for reading, or whose bytes are
    no pickle: [get] returns [None], counts a miss and logs the error; the
    file is left on the disk as it is (it is not removed). *)
Theorem disk_get_unreadable_file `{PyLib} (self : FileCache) (w : World)
    (key : string) (f : File) :
  let cache_path := _get_cache_path self key in
  w_files w !! cache_path = Some f ->
  float_gt_int (w_clock w - f_mtime f) (max_age_seconds self) = false ->
  w_fault w (SysGetmtime cache_path) = false ->
  (w_fault w (SysOpenRead cache_path) = true ->
     FileCache_get key (self, w) =
       (Ok VNone,
        (set_f_stats incr_f_misses self,
         set_log (fun l => l ++ [LogGetFailed key OSError]) w))) /\
  (w_fault w (SysOpenRead cache_path) = false ->
   pickle_loads (f_data f) = None ->
     FileCache_get key (self, w) =
       (Ok VNone,
        (set_f_stats incr_f_misses self,
         set_log (fun l => l ++ [LogGetFailed key UnpicklingError]) w))).
Proof.
  intros cache_path Hf Hfresh Hmtime. subst cache_path.
  split.
  - intros Hread. apply wp_equation. wp_file.
    wp_run_with ltac:(rewrite ?Hf, ?Hfresh, ?Hmtime, ?Hread);
      try discriminate. reflexivity.
  - intros Hread Hbad. apply wp_equation. wp_file.
    wp_run_with ltac:(rewrite ?Hf, ?Hfresh, ?Hmtime, ?Hread, ?Hbad);
      try discriminate. reflexivity.
Qed.

Lemma disk_get_unreadable_file_witness :
  @FileCache_get sample_lib "k" (ttl_file_cache, corrupt_world) =
    (Ok VNone,
     (MkFileCache "/c" 1 (MkFileStats 0 1 0 0),
      set_log (fun l => l ++ [LogGetFailed "k" UnpicklingError])
        corrupt_world)).
Proof.
  apply (proj2 (@disk_get_unreadable_file sample_lib ttl_file_cache
                  corrupt_world "k" (MkFile [Byte.x00] 0)
                  eq_refl eq_refl eq_refl)).
  - reflexivity.
  - reflexivity.
Defined.

(** X9. [delete] on the disk tier. No file for the key: [False], nothing
    changes.  A file that [os.remove] removes: [True], the file is gone,
    one delete is counted and no other file is touched.  A file that
    [os.remove] fails on: [False], the error is logged and the file
    stays. *)
Theorem disk_delete_cases `{PyLib} (self : FileCache) (w : World)
    (key : string) :
  let cache_path := _get_cache_path self key in
  (w_files w !! cache_path = None ->
     FileCache_delete key (self, w) = (Ok false, (self, w))) /\
  (forall f, w_files w !! cache_path = Some f ->
     w_fault w (SysRemove cache_path) = false ->
     FileCache_delete key (self, w) =
       (Ok true,
        (set_f_stats incr_deletes self, set_files (delete cache_path) w))) /\
  (forall f, w_files w !! cache_path = Some f ->
     w_fault w (SysRemove cache_path) = true ->
     FileCache_delete key (self, w) =
       (Ok false,
        (self, set_log (fun l => l ++ [LogDeleteFailed key OSError]) w))).
Proof.
  intros cache_path. subst cache_path. split; [|split].
  - intros Hno. apply wp_equation. wp_file.
    wp_run_with ltac:(rewrite ?Hno); try discriminate. reflexivity.
  - intros f Hf Hrm. apply wp_equation. wp_file.
    wp_run_with ltac:(rewrite ?Hf, ?Hrm); try discriminate. reflexivity.
  - intros f Hf Hrm. apply wp_equation. wp_file.
    wp_run_with ltac:(rewrite ?Hf, ?Hrm); try discriminate. reflexivity.
Qed.

(** ** The disk tier: what the sweeps remove *)

Lemma map_size_delete_found (fs : gmap path File) (p : path) (f : File) :
  fs !! p = Some f -> S (size (delete p fs)) = size fs.
Proof.
  intros Hf. rewrite <- (insert_id fs p f Hf) at 2.
  rewrite <- insert_delete_eq.
  symmetry. apply map_size_insert_None, lookup_delete_eq.
Qed.

Lemma swept_start removable self w : swept removable self w 0 self w.
Proof. unfold swept. rewrite Nat.add_0_r. repeat split; auto. Qed.

(** One more file removed. *)
Lemma swept_remove (removable : path -> Prop) self w n self' w' p f :
  swept removable self w n self' w' ->
  w_files w' !! p = Some f ->
  removable p ->
  swept removable self w (S n) (set_f_stats incr_deletes self')
    (set_files (delete p) w').
Proof.
  intros (Hd & Ha & Hh & Hm & Hw & Hdel & Hsize & Hfault & Hclock & Hfiles)
    Hf Hrem.
  unfold swept. cbn. repeat split; auto; try lia.
  - pose proof (map_size_delete_found _ _ _ Hf). lia.
  - intros q. destruct (decide (p = q)) as [<-|Hne].
    + right. split; [apply lookup_delete_eq | exact Hrem].
    + rewrite lookup_delete_ne by exact Hne. apply Hfiles.
Qed.

(** A line written to the log changes nothing of this. *)
Lemma swept_log (removable : path -> Prop) self w n self' w' f :
  swept removable self w n self' w' ->
  swept removable self w n self' (set_log f w').
Proof. exact (fun H => H). Qed.

(** What [clear] does on the disk tier, whatever system calls fail. *)
Lemma FileCache_clear_swept (self : FileCache) (w : World) :
  exists n self' w',
    FileCache_clear (self, w) = (Ok n, (self', w')) /\
    swept (is_cache_file (cache_dir self)) self w n self' w'.
Proof.
  assert (Hwp : wp FileCache_clear
            (fun r s' => match r with
                         | Ok n => swept (is_cache_file (cache_dir self))
                                     self w n (fst s') (snd s')
                         | Raise _ => False
                         end) (self, w)).
  { wp_file. wp_run;
      lazymatch goal with
      | |- wp (for_each _ _) _ _ =>
          apply (wp_for_each
                   (fun ls => swept (is_cache_file (cache_dir self)) self w
                                (fst ls) (fst (snd ls)) (snd (snd ls))))
      | |- _ => apply swept_log, swept_start
      end.
    - apply swept_start.
    - intros name [n [self' w']] _ Hk. cbn [fst snd] in Hk.
      wp_run; try exact Hk.
      eapply swept_remove; [exact Hk | eassumption |].
      split; [reflexivity | assumption].
    - intros [n [self' w']] Hk. cbn [fst snd] in Hk. wp_run. exact Hk. }
  apply wp_returns in Hwp as (n & [self' w'] & Hrun & Hk).
  exists n, self', w'. split; [exact Hrun | exact Hk].
Qed.

(** X11. [clear] on the disk tier, whatever system calls fail: the number
    returned is the number of files removed from the disk and the number
    of deletes counted; every file removed is a cache file (named
    [*.cache]) of the tier's own directory, and every other path holds
    what it held; no file is created or rewritten and the other counters
    are as before. *)
Theorem disk_clear_accounts_for_removed_files (self : FileCache) (w : World) :
  exists n self' w',
    FileCache_clear (self, w) = (Ok n, (self', w')) /\
    deletes (f_stats self') = (deletes (f_stats self) + n)%nat /\
    (size (w_files w') + n)%nat = size (w_files w) /\
    (forall p : path,
       w_files w' !! p = w_files w !! p \/
       (w_files w' !! p = None /\ is_cache_file (cache_dir self) p)) /\
    f_hits (f_stats self') = f_hits (f_stats self) /\
    f_misses (f_stats self') = f_misses (f_stats self) /\
    writes (f_stats self') = writes (f_stats self).
Proof.
  destruct (FileCache_clear_swept self w) as (n & self' & w' & Hrun & Hk).
  destruct Hk as (_ & _ & Hh & Hm & Hw & Hdel & Hsize & _ & _ & Hfiles).
  exists n, self', w'. repeat split; auto.
Qed.








Lemma iter_deletes_max_age (c : nat) (self : FileCache) :
  max_age_seconds (Nat.iter c (set_f_stats incr_deletes) self) =
    max_age_seconds self /\
  cache_dir (Nat.iter c (set_f_stats incr_deletes) self) = cache_dir self.
Proof. induction c as [|c IH]; [split; reflexivity | exact IH]. Qed.




(** ** The orchestrator: how its calls compose *)

(** [get] on the orchestrator when the memory tier has a value for the
    key: the disk tier is not asked. *)
Lemma QueryCache_get_memory_hit `{PyLib} (self : QueryCache) (w : World)
    (query : string) (params : list pyval) (v : pyval) :
  od_lookup (_generate_cache_key query params) (cache (memory_cache self))
    = Some v ->
  v <> VNone ->
  QueryCache_get query params (self, w) =
    (Ok v,
     (MkQueryCache
        (MkLRUCache (max_size (memory_cache self))
           (od_setitem (_generate_cache_key query params) v
              (od_remove (_generate_cache_key query params)
                 (cache (memory_cache self))))
           (incr_hits (stats (memory_cache self))))
        (file_cache self) (incr_memory_hits (q_stats self)),
      w)).
Proof.
  intros Hk Hv. apply wp_equation. wp_query.
  wp_step. wp_enter. eapply wp_eq; [exact (LRUCache_get_hit _ _ _ Hk)|].
  wp_red. destruct v; [contradiction| | |]; cbn [is_none negb];
    wp_run; reflexivity.
Qed.

(** [set] on the orchestrator, given what [set] does on each tier. *)
Lemma QueryCache_set_run `{PyLib} (self : QueryCache) (w : World)
    (query : string) (params : list pyval) (value : pyval) m' b f' w' :
  LRUCache_set (_generate_cache_key query params) value (memory_cache self)
    = (Ok tt, m') ->
  FileCache_set (_generate_cache_key query params) value (file_cache self, w)
    = (Ok b, (f', w')) ->
  QueryCache_set query params value (self, w) =
    (Ok tt, (MkQueryCache m' f' (incr_stores (q_stats self)), w')).
Proof.
  intros Hset Hfset. apply wp_equation. wp_query.
  wp_step. wp_enter. eapply wp_eq; [exact Hset|]. wp_red.
  wp_step. wp_enter. eapply wp_eq; [exact Hfset|]. wp_red.
  wp_run. reflexivity.
Qed.

(** [get] on the orchestrator when the memory tier has nothing for the key
    and the disk tier returns [v]. *)
Lemma QueryCache_get_from_disk `{PyLib} (self : QueryCache) (w : World)
    (query : string) (params : list pyval) (v : pyval) f' w' m' :
  od_lookup (_generate_cache_key query params) (cache (memory_cache self))
    = None ->
  FileCache_get (_generate_cache_key query params) (file_cache self, w)
    = (Ok v, (f', w')) ->
  LRUCache_set (_generate_cache_key query params) v
    (MkLRUCache (max_size (memory_cache self)) (cache (memory_cache self))
       (incr_misses (stats (memory_cache self)))) = (Ok tt, m') ->
  QueryCache_get query params (self, w) =
    if is_none v
    then (Ok VNone,
          (MkQueryCache
             (MkLRUCache (max_size (memory_cache self))
                (cache (memory_cache self))
                (incr_misses (stats (memory_cache self))))
             f' (incr_q_misses (q_stats self)), w'))
    else (Ok v, (MkQueryCache m' f' (incr_file_hits (q_stats self)), w')).
Proof.
  intros Hk Hfget Hset. apply wp_equation. wp_query.
  wp_step. wp_enter. eapply wp_eq; [exact (LRUCache_get_miss _ _ Hk)|].
  wp_red. cbn [is_none negb]. wp_step. wp_enter.
  eapply wp_eq; [exact Hfget|]. wp_red.
  destruct v; cbn [is_none negb];
    [wp_run; reflexivity | | |];
    (wp_step; wp_enter; eapply wp_eq; [exact Hset|]; wp_red;
     wp_run; reflexivity).
Qed.

(** X14. A memory hit never touches the disk: when the memory tier holds a
    value other than [None] for the derived key, [get] on the orchestrator
    returns it and counts a memory hit; the disk tier's object and
    counters, the files, the log and the other counters of the
    orchestrator are exactly as before, whatever the state of the disk. *)
Theorem query_memory_hit_skips_disk `{PyLib} (self : QueryCache) (w : World)
    (query : string) (params : list pyval) (v : pyval) :
  od_lookup (_generate_cache_key query params) (cache (memory_cache self))
    = Some v ->
  v <> VNone ->
  exists self',
    QueryCache_get query params (self, w) = (Ok v, (self', w)) /\
    file_cache self' = file_cache self /\
    memory_hits (q_stats self') = S (memory_hits (q_stats self)) /\
    file_hits (q_stats self') = file_hits (q_stats self) /\
    q_misses (q_stats self') = q_misses (q_stats self) /\
    stores (q_stats self') = stores (q_stats self).
Proof.
  intros Hk Hv. rewrite (QueryCache_get_memory_hit _ _ _ _ _ Hk Hv).
  eexists. split; [reflexivity|]. cbn. repeat split.
Qed.

Lemma query_memory_hit_skips_disk_witness :
  exists self',
    @QueryCache_get sample_lib "q" []
      (MkQueryCache
         (MkLRUCache 2 [("query:q:()", VStr "rows")] (MkLRUStats 0 0 0))
         sample_file_cache (MkQueryStats 0 0 0 1),
       read_only_world) = (Ok (VStr "rows"), (self', read_only_world)).
Proof.
  destruct (@query_memory_hit_skips_disk sample_lib
              (MkQueryCache
                 (MkLRUCache 2 [("query:q:()", VStr "rows")]
                    (MkLRUStats 0 0 0))
                 sample_file_cache (MkQueryStats 0 0 0 1))
              read_only_world "q" [] (VStr "rows"))
    as (self' & Hrun & _).
  - reflexivity.
  - discriminate.
  - exists self'. exact Hrun.
Defined.

(** X15. With a memory tier of capacity at least 1, what [set] on the
    orchestrator stores (other than [None]) is what the next [get] for the
    same query and parameters returns, as a memory hit and without
    touching the disk, whether the write to the disk tier worked or
    not. *)
Theorem query_set_then_get `{PyLib} (self : QueryCache) (w : World)
    (query : string) (params : list pyval) (value : pyval) :
  (1 <= max_size (memory_cache self))%Z ->
  value <> VNone ->
  exists self1 w1 self2,
    QueryCache_set query params value (self, w) = (Ok tt, (self1, w1)) /\
    QueryCache_get query params (self1, w1) = (Ok value, (self2, w1)) /\
    file_cache self2 = file_cache self1 /\
    memory_hits (q_stats self2) = S (memory_hits (q_stats self)) /\
    stores (q_stats self2) = S (stores (q_stats self)).
Proof.
  intros Hcap Hv.
  destruct (LRUCache_set_total (_generate_cache_key query params) value
              (memory_cache self) Hcap) as (m' & Hset & _ & _ & Hheld).
  destruct (FileCache_set_kept (_generate_cache_key query params) value
              (file_cache self, w)) as (b & [f' w'] & Hfset & _).
  rewrite (QueryCache_set_run _ _ _ _ _ _ _ _ _ Hset Hfset).
  eexists _, _, _. split; [reflexivity|].
  rewrite (QueryCache_get_memory_hit _ _ _ _ value) by assumption.
  split; [reflexivity|]. cbn. repeat split.
Qed.

Lemma query_set_then_get_witness :
  exists self1 w1 self2,
    @QueryCache_set sample_lib "q" [] (VStr "rows")
      (sample_query_cache, read_only_world) = (Ok tt, (self1, w1)) /\
    @QueryCache_get sample_lib "q" [] (self1, w1) =
      (Ok (VStr "rows"), (self2, w1)).
Proof.
  destruct (@query_set_then_get sample_lib sample_query_cache read_only_world
              "q" [] (VStr "rows"))
    as (self1 & w1 & self2 & Hset & Hget & _).
  - cbn. lia.
  - discriminate.
  - exists self1, w1, self2. split; [exact Hset | exact Hget].
Defined.

(** X16. A stored value outlives the memory tier. With a memory tier of
    capacity at least 1 and a disk that works for the key's file: after
    [set] on the orchestrator of a value other than [None] that [pickle]
    writes and reads back, and after the memory tier was cleared, a [get]
    for the same query and parameters at any later time [now] within
    [max_age_seconds] of the write (the age being [now - time of the
    write] in binary64, as the code computes it) returns the value from
    the disk tier, counts a disk hit and puts the value back into the
    memory tier. *)
Theorem query_value_survives_memory_clear `{PyLib} (self : QueryCache)
    (w : World) (query : string) (params : list pyval) (value : pyval)
    (data : list Byte.byte) (now : float) :
  let cache_key := _generate_cache_key query params in
  let cache_path := _get_cache_path (file_cache self) cache_key in
  (1 <= max_size (memory_cache self))%Z ->
  value <> VNone ->
  w_fault w (SysOpenWrite cache_path) = false ->
  w_fault w (SysWrite cache_path) = false ->
  pickle_dumps value = Some data ->
  pickle_loads data = Some value ->
  w_fault w (SysGetmtime cache_path) = false ->
  w_fault w (SysOpenRead cache_path) = false ->
  float_gt_int (now - w_clock w) (max_age_seconds (file_cache self)) = false ->
  exists self1 w1 self2 self3,
    QueryCache_set query params value (self, w) = (Ok tt, (self1, w1)) /\
    on_memory_cache LRUCache_clear (self1, at_time now w1) =
      (Ok tt, (self2, at_time now w1)) /\
    cache (memory_cache self2) = [] /\
    QueryCache_get query params (self2, at_time now w1) =
      (Ok value, (self3, at_time now w1)) /\
    file_hits (q_stats self3) = S (file_hits (q_stats self)) /\
    od_lookup cache_key (cache (memory_cache self3)) = Some value.
Proof.
  intros cache_key cache_path Hcap Hv Hopen Hwrite Hdump Hload Hmtime Hread
    Hage.
  subst cache_path.
  destruct (LRUCache_set_total cache_key value (memory_cache self) Hcap)
    as (m1 & Hset & Hmax1 & _ & _).
  pose proof (FileCache_set_healthy (file_cache self) w cache_key value data
                Hopen Hwrite Hdump) as Hfset.
  rewrite (QueryCache_set_run _ _ _ _ _ _ _ _ _ Hset Hfset).
  set (w1 := set_files _ (set_files _ w)).
  set (f1 := set_f_stats incr_writes (file_cache self)).
  pose (m2 := MkLRUCache (max_size m1) [] (stats m1)).
  destruct (LRUCache_set_total cache_key value
              (MkLRUCache (max_size m2) (cache m2) (incr_misses (stats m2))))
    as (m3 & Hset3 & _ & _ & Hheld); [cbn; lia|].
  exists (MkQueryCache m1 f1 (incr_stores (q_stats self))), w1,
         (MkQueryCache m2 f1 (incr_stores (q_stats self))),
         (MkQueryCache m3 (set_f_stats incr_f_hits f1)
            (incr_file_hits (incr_stores (q_stats self)))).
  split; [reflexivity|]. split; [reflexivity|]. split; [reflexivity|].
  split; [|split; [reflexivity | exact Hheld]].
  assert (Hfget :
    FileCache_get cache_key (f1, at_time now w1) =
      (Ok value, (set_f_stats incr_f_hits f1, at_time now w1))).
  { apply (FileCache_get_fresh f1 (at_time now w1) cache_key
             (MkFile data (w_clock w))).
    - cbn. apply lookup_insert_eq.
    - exact Hage.
    - exact Hmtime.
    - exact Hread.
    - exact Hload. }
  rewrite (QueryCache_get_from_disk
             (MkQueryCache m2 f1 (incr_stores (q_stats self)))
             (at_time now w1) query params value _ _ m3
             eq_refl Hfget Hset3).
  destruct value; [contradiction| | |]; reflexivity.
Qed.

Lemma query_value_survives_memory_clear_witness :
  exists self1 w1 self2 self3,
    @QueryCache_set sample_lib "q" [] (VStr "rows")
      (sample_query_cache, empty_world) = (Ok tt, (self1, w1)) /\
    on_memory_cache LRUCache_clear (self1, at_time 60 w1) =
      (Ok tt, (self2, at_time 60 w1)) /\
    @QueryCache_get sample_lib "q" [] (self2, at_time 60 w1) =
      (Ok (VStr "rows"), (self3, at_time 60 w1)).
Proof.
  destruct (@query_value_survives_memory_clear sample_lib sample_query_cache
              empty_world "q" [] (VStr "rows")
              (Byte.x53 :: String.list_byte_of_string "rows") 60)
    as (self1 & w1 & self2 & self3 & Hset & Hclear & _ & Hget & _).
  - cbn. lia.
  - discriminate.
  - reflexivity.
  - reflexivity.
  - reflexivity.
  - reflexivity.
  - reflexivity.
  - reflexivity.
  - reflexivity.
  - exists self1, w1, self2, self3. auto.
Defined.

(** [get] on the orchestrator when neither tier has a value for the key. *)
Lemma QueryCache_get_miss `{PyLib} (self : QueryCache) (w : World)
    (query : string) (params : list pyval) f' w' :
  od_lookup (_generate_cache_key query params) (cache (memory_cache self))
    = None ->
  FileCache_get (_generate_cache_key query params) (file_cache self, w)
    = (Ok VNone, (f', w')) ->
  QueryCache_get query params (self, w) =
    (Ok VNone,
     (MkQueryCache
        (MkLRUCache (max_size (memory_cache self))
           (cache (memory_cache self))
           (incr_misses (stats (memory_cache self))))
        f' (incr_q_misses (q_stats self)), w')).
Proof.
  intros Hk Hfget. apply wp_equation. wp_query.
  wp_step. wp_enter. eapply wp_eq; [exact (LRUCache_get_miss _ _ Hk)|].
  wp_red. cbn [is_none negb]. wp_step. wp_enter.
  eapply wp_eq; [exact Hfget|]. wp_red. cbn [is_none negb].
  wp_run. reflexivity.
Qed.

(** X17. After [invalidate_pattern] on a disk whose listing and removals
    work, every [get] on the orchestrator is a miss: for any query and
    parameters it returns [None] and counts a miss, whatever was stored
    before. *)
Theorem query_get_after_invalidate_misses `{PyLib} (self : QueryCache)
    (w : World) (table_name query : string) (params : list pyval) :
  w_fault w (SysListdir (cache_dir (file_cache self))) = false ->
  (forall name,
     w_fault w (SysRemove (cache_dir (file_cache self), name)) = false) ->
  exists n s1 s2,
    QueryCache_invalidate_pattern table_name (self, w) = (Ok n, s1) /\
    QueryCache_get query params s1 = (Ok VNone, s2) /\
    q_misses (q_stats (fst s2)) = S (q_misses (q_stats self)) /\
    memory_hits (q_stats (fst s2)) = memory_hits (q_stats self) /\
    file_hits (q_stats (fst s2)) = file_hits (q_stats self).
Proof.
  intros Hlist Hremove.
  pose proof (FileCache_clear_healthy (file_cache self) w Hlist Hremove)
    as Hclear. cbn zeta in Hclear.
  rewrite (invalidate_pattern_run _ _ _ _ _ _ Hclear).
  set (doomed := cache_files (cache_dir (file_cache self)) (w_files w)).
  set (f1 := Nat.iter (length doomed) (set_f_stats incr_deletes)
               (file_cache self)).
  assert (Hdir : cache_dir f1 = cache_dir (file_cache self))
    by apply iter_deletes_max_age.
  set (w1 := set_log _ (set_files _ w)).
  assert (Hno : w_files w1 !! _get_cache_path f1
                  (_generate_cache_key query params) = None).
  { unfold _get_cache_path, os_path_join. rewrite Hdir. subst w1. cbn.
    destruct (w_files w !! (cache_dir (file_cache self),
                md5_hexdigest (_generate_cache_key query params)
                +:+ ".cache")) as [f|] eqn:Hf.
    - apply lookup_remove_files_in. apply list_filter_elem.
      split; [apply elem_of_dir_names; eauto | apply endswith_append].
    - now apply lookup_remove_files_None. }
  pose proof (FileCache_get_absent f1 w1 _ Hno) as Hfget.
  eexists _, _, _. split; [reflexivity|]. split.
  - apply QueryCache_get_miss; [reflexivity | exact Hfget].
  - cbn. repeat split.
Qed.

Lemma query_get_after_invalidate_misses_witness :
  exists n s1 s2,
    QueryCache_invalidate_pattern "movies"
      (MkQueryCache
         (MkLRUCache 2 [("query:q:()", VStr "rows")] (MkLRUStats 0 0 0))
         sample_file_cache (MkQueryStats 0 0 0 1),
       ttl_world 0) = (Ok n, s1) /\
    @QueryCache_get sample_lib "q" [] s1 = (Ok VNone, s2).
Proof.
  destruct (@query_get_after_invalidate_misses sample_lib
              (MkQueryCache
                 (MkLRUCache 2 [("query:q:()", VStr "rows")]
                    (MkLRUStats 0 0 0))
                 sample_file_cache (MkQueryStats 0 0 0 1))
              (ttl_world 0) "movies" "q" [] eq_refl (fun _ => eq_refl))
    as (n & s1 & s2 & Hinv & Hget & _).
  exists n, s1, s2. split; [exact Hinv | exact Hget].
Defined.

(** X18. [invalidate_pattern], whatever system calls fail, removes nothing
    but cache files (named [*.cache]) of the disk tier's own directory:
    every other path, in particular every file of another directory, holds
    afterwards what it held before, and no file is created or
    rewritten. *)
Theorem invalidate_pattern_keeps_other_files (self : QueryCache) (w : World)
    (table_name : string) :
  exists n s',
    QueryCache_invalidate_pattern table_name (self, w) = (Ok n, s') /\
    (forall p : path,
       w_files (snd s') !! p = w_files w !! p \/
       w_files (snd s') !! p = None) /\
    (forall p : path,
       fst p <> cache_dir (file_cache self) \/
       endswith (snd p) ".cache" = false ->
       w_files (snd s') !! p = w_files w !! p).
Proof.
  destruct (FileCache_clear_swept (file_cache self) w)
    as (n & f' & w' & Hclear & Hk).
  rewrite (invalidate_pattern_run _ _ _ _ _ _ Hclear).
  destruct Hk as (_ & _ & _ & _ & _ & _ & _ & _ & _ & Hfiles).
  eexists _, _. split; [reflexivity|]. cbn [snd set_log w_files]. split.
  - intros p. destruct (Hfiles p) as [Heq|[Hnone _]]; auto.
  - intros p Hother.
    destruct (Hfiles p) as [Heq|[_ [Hd Hs]]]; [exact Heq|].
    destruct Hother; congruence.
Qed.

(** ** The registry *)

(** [get_stats] of the disk tier changes nothing. *)
Lemma FileCache_get_stats_pure (self : FileCache) (w : World) :
  exists r, FileCache_get_stats (self, w) = (Ok r, (self, w)).
Proof.
  assert (Hwp : wp FileCache_get_stats
            (fun r s' => match r with
                         | Ok _ => s' = (self, w)
                         | Raise _ => False
                         end) (self, w)).
  { wp_file. wp_run;
      lazymatch goal with
      | |- wp (for_each _ _) _ _ =>
          apply (wp_for_each (fun ls => snd ls = (self, w)))
      | |- _ => reflexivity
      end.
    - reflexivity.
    - intros name [l [self' w']] _ Hk. cbn [snd] in Hk.
      injection Hk as -> ->. wp_run; reflexivity.
    - intros [l [self' w']] Hk. cbn [snd] in Hk. injection Hk as -> ->.
      wp_run. reflexivity. }
  apply wp_returns in Hwp as (r & s' & Hrun & ->). eauto.
Qed.

Lemma QueryCache_get_stats_pure (self : QueryCache) (w : World) :
  exists r, QueryCache_get_stats (self, w) = (Ok r, (self, w)).
Proof.
  destruct self as [m f q].
  destruct (FileCache_get_stats_pure f w) as (rf & Hf).
  eexists. apply wp_equation. wp_query. wp_lru.
  wp_step. wp_enter. wp_step. wp_step. wp_enter. wp_run.
  eapply wp_eq; [exact Hf|]. wp_red. wp_run. reflexivity.
Qed.

(** X19. Reading the statistics changes nothing: [get_comprehensive_stats]
    of the registry (which calls [get_stats] of the memory cache, the file
    cache, the query cache, the image cache and the configuration cache)
    always returns, and leaves every cache object, every counter, every
    file and the log exactly as they were, whatever system calls fail. *)
Theorem stats_are_read_only (self : CacheManager) (w : World) :
  exists report,
    CacheManager_get_comprehensive_stats (self, w) = (Ok report, (self, w)).
Proof.
  destruct self as [[m f q] i c].
  destruct (FileCache_get_stats_pure f w) as (rf & Hf).
  destruct (QueryCache_get_stats_pure (MkQueryCache m f q) w) as (rq & Hq).
  destruct (FileCache_get_stats_pure i w) as (ri & Hi).
  eexists. apply wp_equation.
  unfold CacheManager_get_comprehensive_stats, on_cm_memory_cache,
    on_cm_file_cache, on_query_cache, on_image_cache, on_config_cache.
  wp_lru. wp_step. wp_enter. wp_run.
  eapply wp_eq; [exact Hf|]. wp_red. wp_step. wp_enter.
  eapply wp_eq; [exact Hq|]. wp_red. wp_step. wp_enter.
  eapply wp_eq; [exact Hi|]. wp_red. wp_run. reflexivity.
Qed.






(** X21. Invalidating the query cache never reaches the image cache. In a
    registry whose image cache has a directory of its own (as every
    registry built by [__init__] has), whatever the state of the disk and
    whatever system calls fail, after [query_cache.invalidate_pattern]
    every file of the image cache's directory is as it was, and the image
    cache and the configuration cache are unchanged. *)
Theorem registry_invalidation_keeps_images (self : CacheManager) (w : World)
    (table_name : string) :
  cache_dir (image_cache self) <> cache_dir (file_cache (query_cache self)) ->
  exists n self' w',
    on_query_cache (QueryCache_invalidate_pattern table_name) (self, w) =
      (Ok n, (self', w')) /\
    image_cache self' = image_cache self /\
    config_cache self' = config_cache self /\
    forall name,
      w_files w' !! (cache_dir (image_cache self), name) =
      w_files w !! (cache_dir (image_cache self), name).
Proof.
  intros Hne.
  destruct (FileCache_clear_swept (file_cache (query_cache self)) w)
    as (n & f' & w' & Hclear & Hk).
  pose proof (invalidate_pattern_run table_name _ _ _ _ _ Hclear) as Hrun.
  destruct Hk as (_ & _ & _ & _ & _ & _ & _ & _ & _ & Hfiles).
  eexists _, _, _. split.
  - apply wp_equation. unfold on_query_cache. wp_enter.
    eapply wp_eq; [exact Hrun|]. wp_red. reflexivity.
  - cbn. split; [reflexivity|]. split; [reflexivity|].
    intros name.
    destruct (Hfiles (cache_dir (image_cache self), name))
      as [Heq|[_ [Hd _]]]; [exact Heq|].
    cbn in Hd. contradiction.
Qed.

Lemma registry_invalidation_keeps_images_witness :
  exists n self' w',
    on_query_cache (QueryCache_invalidate_pattern "movies")
      (busy_manager, ready_world) = (Ok n, (self', w')) /\
    image_cache self' = image_cache busy_manager.
Proof.
  destruct (registry_invalidation_keeps_images busy_manager ready_world
              "movies")
    as (n & self' & w' & Hrun & Himg & _).
  - cbn. intro Heq. discriminate Heq.
  - exists n, self', w'. split; [exact Hrun | exact Himg].
Defined.


(** ** The route that clears the caches *)

Lemma CacheManager_cleanup_all_expired_total (s : CacheManager * World) :
  exists report s', CacheManager_cleanup_all_expired s = (Ok report, s').
Proof.
  destruct s as [self w].
  destruct (FileCache_cleanup_expired_kept (file_cache (query_cache self), w))
    as (n1 & [f1 w1] & Hrun1 & _).
  destruct (FileCache_cleanup_expired_kept (image_cache self, w1))
    as (n2 & [i2 w2] & Hrun2 & _).
  eexists _, _. apply wp_equation.
  unfold CacheManager_cleanup_all_expired, on_cm_file_cache, on_image_cache.
  wp_step. wp_enter. eapply wp_eq; [exact Hrun1|]. wp_red.
  wp_step. wp_enter. eapply wp_eq; [exact Hrun2|]. wp_red.
  wp_run. reflexivity.
Qed.

(** X23. A request to clear with type ["memory"] empties the memory cache
    and nothing else: the answer is 200 with
    [{"memory_cache_cleared": true}]; afterwards the memory cache has no
    entry (its capacity and counters are kept), and the configuration
    cache, both disk caches, the orchestrator's counters, the disk and the
    route's log are exactly as before. *)
Theorem api_clear_memory_only_clears_memory (request : Request)
    (log : list api_message) (self : CacheManager) (w : World) :
  request_cache_type request = Ok (JStr "memory") ->
  clear_cache request (log, (self, w)) =
    (Ok (MkResponse true
           (BodyData [("memory_cache_cleared", VBool true)]) 200),
     (log,
      (MkCacheManager
         (MkQueryCache
            (MkLRUCache (max_size (memory_cache (query_cache self))) []
               (stats (memory_cache (query_cache self))))
            (file_cache (query_cache self))
            (q_stats (query_cache self)))
         (image_cache self) (config_cache self),
       w))).
Proof.
  intros Htype. apply wp_equation. unfold clear_cache. rewrite Htype.
  wp_step. wp_step. wp_step.
  cbn [json_is_str String.eqb Ascii.eqb Bool.eqb andb].
  unfold on_cm_memory_cache. wp_lru. wp_run. reflexivity.
Qed.

Lemma api_clear_memory_only_clears_memory_witness :
  clear_cache (json_request (JObject [("type", JStr "memory")]))
    ([], (busy_manager, ready_world)) =
  (Ok (MkResponse true (BodyData [("memory_cache_cleared", VBool true)]) 200),
   ([],
    (MkCacheManager
       (MkQueryCache (MkLRUCache 1000 [] (MkLRUStats 0 0 0))
          (MkFileCache "/app/data/cache" 3600 (MkFileStats 0 0 0 0))
          (MkQueryStats 0 0 0 0))
       (MkFileCache "/app/data/cache/images" 86400 (MkFileStats 0 0 0 0))
       (MkLRUCache 100 [("theme", VStr "dark")] (MkLRUStats 0 0 0)),
     ready_world))).
Proof.
  apply (api_clear_memory_only_clears_memory
           (json_request (JObject [("type", JStr "memory")]))
           [] busy_manager ready_world).
  reflexivity.
Defined.

(** When reading the type of the request raises: [request.json] raises,
    or the body is a true value that is no dict (a number other than 0, a
    non-empty string or array, [true]), which has no [get]. *)
Lemma request_cache_type_raises (request : Request) (e : exn) :
  request_cache_type request = Raise e <->
  request_json request = Raise e \/
  exists body,
    request_json request = Ok body /\ json_truthy body = true /\
    (forall fields, body <> JObject fields) /\ e = AttributeError.
Proof.
  unfold request_cache_type. destruct (request_json request) as [body|e0].
  - split.
    + destruct (json_truthy body) eqn:Htrue; [|discriminate].
      intros Hget. right. exists body.
      destruct body; cbn [json_get] in Hget; try discriminate;
        injection Hget as <-;
        (split; [reflexivity|]; split; [exact Htrue|];
         split; [discriminate | reflexivity]).
    + intros [Hraise|(body' & Hbody & Htrue & Hno & ->)]; [discriminate|].
      injection Hbody as <-. rewrite Htrue.
      destruct body; try reflexivity. now destruct (Hno fields).
  - split.
    + intros [= ->]. now left.
    + intros [[= ->]|(body' & Hbody & _)]; [reflexivity | discriminate].
Qed.

(** X24. The route never lets an exception out, whatever the request, the
    state of the caches and the system calls that fail, and its answer is
    fixed by the type read from the request.  When reading the type
    raises ([request.json] raises, or the body is a true value without
    [get]), the answer is 500 with the failure message, the failure is
    logged, and the caches and the disk are untouched.  When the type is
    ["all"], ["memory"], ["file"] or ["expired"] (or the body is [null], an
    empty object or another false value, or an object without a type, which
    all mean ["all"]), the answer is 200 with [success] true: no failure of
    the disk gives a 500.  For any other value of the type the answer is
    400 with the invalid-type message and nothing at all has changed. *)
Theorem api_clear_cache_answers (request : Request) (s : api_state) :
  exists response s',
    clear_cache request s = (Ok response, s') /\
    match request_cache_type request with
    | Raise e =>
        response = MkResponse false (BodyMessage (MsgClearFailed e)) 500 /\
        s' = (fst s ++ [MsgClearFailed e], snd s)
    | Ok cache_type =>
        fst s' = fst s /\
        if known_cache_type cache_type then
          status response = 200%nat /\ success response = true
        else
          response = MkResponse false (BodyMessage MsgInvalidCacheType) 400 /\
          s' = s
    end.
Proof.
  destruct s as [log [self w]]. unfold known_cache_type.
  apply wp_returns. unfold clear_cache.
  wp_step. wp_step.
  destruct (request_cache_type request) as [cache_type|e]; wp_step.
  2: { wp_run. cbn. auto. }
  destruct (json_is_str cache_type "all") eqn:Hall.
  { wp_step. wp_enter.
    destruct (clear_all_caches_memory_untouched self w)
      as (report & [self' w'] & Hrun & _).
    eapply wp_eq; [exact Hrun|]. wp_red. wp_run.
    cbn. auto. }
  destruct (json_is_str cache_type "memory") eqn:Hmem.
  { unfold on_cm_memory_cache. wp_lru. wp_run. cbn. auto. }
  destruct (json_is_str cache_type "file") eqn:Hfile.
  { wp_step. unfold on_cm_file_cache. wp_enter.
    destruct (FileCache_clear_kept (file_cache (query_cache self), w))
      as (n & [f' w'] & Hrun & _).
    eapply wp_eq; [exact Hrun|]. wp_red. wp_run.
    cbn. auto. }
  destruct (json_is_str cache_type "expired") eqn:Hexp.
  { wp_step. wp_enter.
    destruct (CacheManager_cleanup_all_expired_total (self, w))
      as (report & [self' w'] & Hrun).
    eapply wp_eq; [exact Hrun|]. wp_red. wp_run.
    cbn. auto. }
  wp_run. cbn. auto.
Qed.

(** A request without a JSON content type under Flask 2.1 or later, where
    [request.json] raises [UnsupportedMediaType] (415): the answer is 500,
    the failure is logged and no cache is touched. *)
Lemma api_clear_cache_answers_witness :
  exists response,
    clear_cache (MkRequest (Raise (HTTPException 415)))
      ([], (busy_manager, ready_world)) =
      (Ok response,
       ([MsgClearFailed (HTTPException 415)], (busy_manager, ready_world))) /\
    status response = 500%nat.
Proof.
  destruct (api_clear_cache_answers (MkRequest (Raise (HTTPException 415)))
              ([], (busy_manager, ready_world)))
    as (response & s' & Hrun & Hanswer).
  cbn in Hanswer. destruct Hanswer as [-> ->].
  exists (MkResponse false (BodyMessage (MsgClearFailed (HTTPException 415)))
            500).
  split; [exact Hrun | reflexivity].
Defined.

(** ** The memory tier: how long an entry is kept *)

Lemma od_after_setitem (key k : string) (v : pyval) (d : odict) (a : nat) :
  k <> key -> od_after key d = Some a ->
  exists a', od_after key (od_setitem k v d) = Some a' /\ (a' <= S a)%nat.
Proof.
  intros Hne. revert a. induction d as [|[k0 w] d IH]; intros a Ha;
    [discriminate|].
  cbn in Ha |- *. destruct (String.eqb_spec key k0) as [->|Hk0].
  - injection Ha as <-.
    destruct (String.eqb_spec k k0) as [->|_]; [contradiction|].
    cbn. rewrite String.eqb_refl. eexists. split; [reflexivity|].
    pose proof (od_setitem_length k v d). lia.
  - destruct (String.eqb_spec k k0) as [->|_]; cbn;
      destruct (String.eqb_spec key k0); try contradiction.
    + eauto.
    + now apply IH.
Qed.

Lemma od_after_remove (key k : string) (d : odict) (a : nat) :
  k <> key -> od_after key d = Some a ->
  exists a', od_after key (od_remove k d) = Some a' /\ (a' <= a)%nat.
Proof.
  intros Hne. revert a. induction d as [|[k0 w] d IH]; intros a Ha;
    [discriminate|].
  cbn in Ha |- *. destruct (String.eqb_spec key k0) as [->|Hk0].
  - injection Ha as <-.
    destruct (String.eqb_spec k k0) as [->|_]; [contradiction|].
    cbn. rewrite String.eqb_refl. eexists. split; [reflexivity|].
    apply od_remove_length.
  - destruct (String.eqb_spec k k0) as [->|_]; cbn.
    + eauto.
    + destruct (String.eqb_spec key k0); [contradiction|]. now apply IH.
Qed.

Lemma od_after_last (key : string) (v : pyval) (d : odict) :
  od_lookup key d = None -> od_after key (d ++ [(key, v)]) = Some 0%nat.
Proof.
  induction d as [|[k0 w] d IH]; cbn.
  - now rewrite String.eqb_refl.
  - destruct (String.eqb key k0); [discriminate | exact IH].
Qed.

(** One call that spares the key ages its entry by one place at most. *)
Lemma lru_call_ages_by_one (N : Z) (key : string) (v : pyval) (j : nat)
    (c : lru_call) (self : LRUCache) :
  lru_bounded N self ->
  (Z.of_nat j < N - 1)%Z ->
  call_spares key c = true ->
  held_recent key v j self ->
  held_recent key v (S j) (snd (lru_call_run c self)).
Proof.
  intros [Hmax Hlen] Hj Hspare (Hv & a & Ha & Haj).
  assert (Htouch : forall k w, k <> key ->
            held_recent key v (S j)
              (MkLRUCache (max_size self)
                 (od_setitem k w (od_remove k (cache self))) (stats self))).
  { intros k w Hne. split; cbn.
    - now rewrite od_lookup_setitem_ne, od_lookup_remove_ne by congruence.
    - destruct (od_after_remove key k _ a Hne Ha) as (a1 & Ha1 & Hle1).
      destruct (od_after_setitem key k w _ a1 Hne Ha1) as (a2 & Ha2 & Hle2).
      exists a2. split; [exact Ha2 | lia]. }
  destruct c as [k|k w|k| | |]; cbn [lru_call_run call_spares] in *;
    try discriminate.
  - apply negb_true_iff, String.eqb_neq in Hspare.
    unfold discard, bind.
    destruct (od_lookup k (cache self)) as [w|] eqn:Hk.
    + rewrite (LRUCache_get_hit _ _ _ Hk). cbn [snd].
      destruct (Htouch k w Hspare) as [H1 H2]. split; assumption.
    + rewrite (LRUCache_get_miss _ _ Hk). cbn [snd]. split; cbn; [exact Hv|].
      exists a. split; [exact Ha | lia].
  - apply negb_true_iff, String.eqb_neq in Hspare.
    destruct (od_lookup k (cache self)) as [w0|] eqn:Hk.
    + rewrite (LRUCache_set_present _ _ _ _ Hk). cbn [snd].
      apply (Htouch k w Hspare).
    + destruct (Z.lt_ge_cases (Z.of_nat (length (cache self)))
                  (max_size self)) as [Hlt|Hge].
      * rewrite LRUCache_set_room by auto. cbn [snd]. split; cbn.
        -- now rewrite od_lookup_setitem_ne by congruence.
        -- destruct (od_after_setitem key k w _ a Hspare Ha)
             as (a' & Ha' & Hle).
           exists a'. split; [exact Ha' | lia].
      * destruct (cache self) as [|[k0 w0] d] eqn:Hd; [discriminate|].
        rewrite (LRUCache_set_full _ _ _ (k0, w0) d)
          by (auto; rewrite Hd; auto).
        cbn [snd]. cbn [length] in Hlen, Hge. cbn in Hv, Ha.
        destruct (String.eqb_spec key k0) as [->|Hk0].
        { injection Ha as <-. lia. }
        split; cbn.
        -- now rewrite od_lookup_setitem_ne by congruence.
        -- destruct (od_after_setitem key k w _ a Hspare Ha)
             as (a' & Ha' & Hle).
           exists a'. split; [exact Ha' | lia].
  - apply negb_true_iff, String.eqb_neq in Hspare.
    unfold discard, LRUCache_delete, od_contains, bind, gets, modify, ret.
    destruct (od_lookup k (cache self)) eqn:Hk; cbn [snd].
    + split; cbn.
      * now rewrite od_lookup_remove_ne by congruence.
      * destruct (od_after_remove key k _ a Hspare Ha) as (a' & Ha' & Hle).
        exists a'. split; [exact Ha' | lia].
    + split; [exact Hv|]. exists a. split; [exact Ha | lia].
  - split; [exact Hv|]. exists a. split; [exact Ha | lia].
  - split; [exact Hv|]. exists a. split; [exact Ha | lia].
Qed.

Lemma lru_calls_age (N : Z) (key : string) (v : pyval) (calls : list lru_call)
    (j : nat) (self : LRUCache) :
  lru_bounded N self ->
  (Z.of_nat (j + length calls) <= N - 1)%Z ->
  Forall (fun c => call_spares key c = true) calls ->
  held_recent key v j self ->
  held_recent key v (j + length calls) (lru_calls calls self).
Proof.
  revert j self. induction calls as [|c calls IH];
    intros j self Hb Hj Hspare Hheld.
  - cbn. now rewrite Nat.add_0_r.
  - apply Forall_cons in Hspare as [Hc Hspare]. cbn [length] in Hj |- *.
    change (lru_calls (c :: calls) self)
      with (lru_calls calls (snd (lru_call_run c self))).
    replace (j + S (length calls))%nat with (S j + length calls)%nat by lia.
    apply IH.
    + now apply lru_call_bounded.
    + lia.
    + exact Hspare.
    + apply (lru_call_ages_by_one N); auto. lia.
Qed.

(** X25. What [set] stores stays for the next [N - 1] calls at least. In a
    cache of capacity [N >= 1], after [set(key, value)], any sequence of
    fewer than [N] calls that are [get], [set] or [delete] of other keys,
    [size] or [get_stats] leaves the entry in place: a [get] of the key
    then returns the value stored. *)
Theorem lru_recent_entry_survives (self : LRUCache) (key : string)
    (value : pyval) (calls : list lru_call) :
  (1 <= max_size self)%Z ->
  (Z.of_nat (length (cache self)) <= max_size self)%Z ->
  NoDup (od_keys (cache self)) ->
  Forall (fun c => call_spares key c = true) calls ->
  (Z.of_nat (length calls) < max_size self)%Z ->
  exists self1,
    LRUCache_set key value self = (Ok tt, self1) /\
    od_lookup key (cache (lru_calls calls self1)) = Some value /\
    fst (LRUCache_get key (lru_calls calls self1)) = Ok value.
Proof.
  intros Hcap Hlen Hnd Hspare Hcalls.
  assert (Hb : lru_bounded (max_size self) self) by (split; auto).
  pose proof (LRUCache_set_bounded _ key value self Hb) as Hb1.
  assert (Hset : exists self1,
            LRUCache_set key value self = (Ok tt, self1) /\
            held_recent key value 0 self1).
  { destruct (od_lookup key (cache self)) as [w|] eqn:Hk.
    - rewrite (LRUCache_set_present _ _ _ _ Hk). eexists.
      split; [reflexivity|]. split; cbn; [apply od_lookup_setitem_eq|].
      pose proof (od_lookup_remove_eq key _ Hnd) as Hgone.
      rewrite (od_setitem_fresh _ _ _ Hgone).
      exists 0%nat. split; [now apply od_after_last | lia].
    - destruct (Z.lt_ge_cases (Z.of_nat (length (cache self)))
                  (max_size self)) as [Hlt|Hge].
      + rewrite LRUCache_set_room by auto. eexists.
        split; [reflexivity|]. split; cbn; [apply od_lookup_setitem_eq|].
        rewrite (od_setitem_fresh _ _ _ Hk).
        exists 0%nat. split; [now apply od_after_last | lia].
      + destruct (cache self) as [|[k0 w0] d] eqn:Hd; [cbn in Hge; lia|].
        rewrite (LRUCache_set_full _ _ _ (k0, w0) d)
          by (auto; rewrite Hd; auto).
        assert (Hk' : od_lookup key d = None).
        { cbn in Hk. destruct (String.eqb key k0); [discriminate|exact Hk]. }
        eexists. split; [reflexivity|].
        split; cbn; [apply od_lookup_setitem_eq|].
        rewrite (od_setitem_fresh _ _ _ Hk').
        exists 0%nat. split; [now apply od_after_last | lia]. }
  destruct Hset as (self1 & Hrun & Hheld).
  rewrite Hrun in Hb1. cbn [snd] in Hb1.
  exists self1. split; [exact Hrun|].
  destruct (lru_calls_age (max_size self) key value calls 0 self1)
    as [Hv _]; auto; [cbn; lia|].
  split; [exact Hv|]. now rewrite (LRUCache_get_hit _ _ _ Hv).
Qed.

Lemma lru_recent_entry_survives_witness :
  exists self1,
    LRUCache_set "a" (VInt 1)
      (MkLRUCache 3 [("x", VInt 0); ("y", VInt 0); ("z", VInt 0)]
         (MkLRUStats 0 0 0)) = (Ok tt, self1) /\
    fst (LRUCache_get "a"
           (lru_calls [CallSet "b" (VInt 2); CallSet "c" (VInt 3)] self1))
      = Ok (VInt 1).
Proof.
  destruct (lru_recent_entry_survives
              (MkLRUCache 3 [("x", VInt 0); ("y", VInt 0); ("z", VInt 0)]
                 (MkLRUStats 0 0 0))
              "a" (VInt 1) [CallSet "b" (VInt 2); CallSet "c" (VInt 3)])
    as (self1 & Hrun & _ & Hget).
  - cbn. lia.
  - cbn. lia.
  - apply (bool_decide_unpack _). vm_compute. exact I.
  - repeat constructor.
  - cbn. lia.
  - exists self1. split; [exact Hrun | exact Hget].
Defined.
